(** * HYPERA: hyperparameter agents and the segmentation-agent coordinator

    A shallow embedding of the decision/update logic of
      - [HYPERA1/agents/learning_rate_agent.py]
      - [HYPERA1/agents/class_weights_agent.py]
      - [HYPERA1/segmentation/agents/fg_balance_agent.py]
      - [HYPERA1/segmentation/segmentation_agent_coordinator.py]

    Numbers.  Python and numpy floats are idealised as exact rationals
    ([Q]); statements "within floating tolerance" become equalities up
    to [Qeq].  Functions that have no rational value ([np.log10],
    [np.std], [**] with a real exponent) are fields of the class
    [NumPy]; every result about the code holds for each instance.
    Non-finite floats (the [inf]/[nan] numpy produces on a zero divisor)
    have no counterpart in [Q]: [np_div] then yields [0], and statements
    about a quotient carry the hypothesis that the divisor is not zero.
    Real numbers ([R]) appear in one place only, the logarithm of a
    softmax probability that the code is compared with.

    Control.  A Python exception is the [Raise] case of [result]; code
    that mutates an object before raising returns the mutated state
    next to the [Raise]. *)

From Stdlib Require Import Reals.
From Stdlib Require Lra.
From Stdlib Require Import String Ascii Bool Arith ZArith QArith Lia Lqa List.
From Stdlib Require Import DecimalString Qround Qpower Sorted.
Import ListNotations.

Set Implicit Arguments.

(* ================================================================== *)
(** * Python and numpy primitives                                       *)
(* ================================================================== *)

Module Py.

Inductive exn : Type :=
| ZeroDivisionError
| ValueError
| IndexError
| KeyError
| TypeError
| RuntimeError
| StopIteration
| FileNotFoundError
| UnpicklingError.

Inductive result (A : Type) : Type :=
| Ok (a : A)
| Raise (e : exn).
Arguments Ok {A} a.
Arguments Raise {A} e.

Definition bind {A B} (r : result A) (k : A -> result B) : result B :=
  match r with
  | Ok a => k a
  | Raise e => Raise e
  end.

(** [[f(x) for x in l]] for an [f] that may raise. *)
Fixpoint mapM {A B} (f : A -> result B) (l : list A) : result (list B) :=
  match l with
  | [] => Ok []
  | x :: xs =>
      bind (f x) (fun y => bind (mapM f xs) (fun ys => Ok (y :: ys)))
  end.

(** ** dict: insertion-ordered, keys unique *)

Definition dict (V : Type) : Type := list (string * V).

Fixpoint dict_get {V} (d : dict V) (k : string) : option V :=
  match d with
  | [] => None
  | (k', v) :: rest => if String.eqb k k' then Some v else dict_get rest k
  end.

(** [d.get(k, default)] *)
Definition dict_get_default {V} (d : dict V) (k : string) (default : V) : V :=
  match dict_get d k with
  | Some v => v
  | None => default
  end.

(** [d[k] = v]: an existing key keeps its position, a new one goes last. *)
Fixpoint dict_set {V} (d : dict V) (k : string) (v : V) : dict V :=
  match d with
  | [] => [(k, v)]
  | (k', v') :: rest =>
      if String.eqb k k' then (k', v) :: rest
      else (k', v') :: dict_set rest k v
  end.

Definition dict_keys {V} (d : dict V) : list string := map fst d.
Definition dict_values {V} (d : dict V) : list V := map snd d.

Definition dict_mem {V} (d : dict V) (k : string) : bool :=
  match dict_get d k with
  | Some _ => true
  | None => false
  end.

(** [next(iter(d.values()))] *)
Definition next_iter_values {V} (d : dict V) : result V :=
  match dict_values d with
  | [] => Raise StopIteration
  | v :: _ => Ok v
  end.

(** ** float arithmetic *)

Definition Qlt_bool (x y : Q) : bool := negb (Qle_bool y x).

(** Built-in [max(a, b)] / [min(a, b)]: the first argument wins ties. *)
Definition py_max (a b : Q) : Q := if Qlt_bool a b then b else a.
Definition py_min (a b : Q) : Q := if Qlt_bool b a then b else a.

(** [x / y] on Python floats. *)
Definition float_div (x y : Q) : result Q :=
  if Qeq_bool y 0 then Raise ZeroDivisionError else Ok (x / y).

(** [x / y] on numpy scalars and, elementwise, arrays: never raises. *)
Definition np_div (x y : Q) : Q := x / y.

(** [np.clip(x, lo, hi)] is [minimum(maximum(x, lo), hi)]. *)
Definition np_clip (x lo hi : Q) : Q :=
  let m := if Qlt_bool x lo then lo else x in
  if Qlt_bool hi m then hi else m.

Definition np_sum (l : list Q) : Q := fold_right Qplus 0 l.

Definition len_Q {A} (l : list A) : Q := inject_Z (Z.of_nat (length l)).

(** [np.mean(l)]; the [nan] of an empty [l] is the [0] of [0 / 0]. *)
Definition np_mean (l : list Q) : Q := np_div (np_sum l) (len_Q l).

(** [l[start:]] *)
Definition slice_from {A} (start : Z) (l : list A) : list A :=
  if (start <? 0)%Z
  then skipn (Z.to_nat (Z.of_nat (length l) + start)) l
  else skipn (Z.to_nat start) l.

(** [l[-1]] on a non-empty list. *)
Definition last_item (l : list Q) : Q := last l 0.
(** [l[0]] on a non-empty list. *)
Definition first_item (l : list Q) : Q := hd 0 l.

(** Elementwise binary operation of two 1-D arrays with numpy
    broadcasting: equal lengths, or one operand of length one. *)
Definition broadcast2 (f : Q -> Q -> Q) (a b : list Q) : result (list Q) :=
  if (length a =? length b)%nat then Ok (map (fun p => f (fst p) (snd p)) (combine a b))
  else match a, b with
       | [x], _ => Ok (map (fun y => f x y) b)
       | _, [y] => Ok (map (fun x => f x y) a)
       | _, _ => Raise ValueError
       end.

(** f-string rendering of a non-negative [int]. *)
Definition str_of_nat (n : nat) : string :=
  NilZero.string_of_uint (Nat.to_uint n).

(** ** str *)

(** [s.startswith(prefix)] *)
Definition startswith (s prefix : string) : bool := String.prefix prefix s.

(** [sub in s] *)
Fixpoint str_contains (sub s : string) : bool :=
  String.prefix sub s
  || match s with
     | EmptyString => false
     | String _ rest => str_contains sub rest
     end.

(** [s.replace(old, new)] for a non-empty [old]: the occurrences found
    scanning from the left, without overlap; [skip] counts the
    characters of the last occurrence still to pass. *)
Fixpoint replace_from (old new : string) (skip : nat) (s : string) : string :=
  match s with
  | EmptyString => EmptyString
  | String ch rest =>
      match skip with
      | S k => replace_from old new k rest
      | O =>
          if String.prefix old s
          then (new ++ replace_from old new (String.length old - 1) rest)%string
          else String ch (replace_from old new 0 rest)
      end
  end.

(** [s.replace("", new)] puts [new] before each character and at the
    end. *)
Fixpoint replace_empty (new s : string) : string :=
  match s with
  | EmptyString => new
  | String ch rest => (new ++ String ch (replace_empty new rest))%string
  end.

Definition str_replace (s old new : string) : string :=
  match old with
  | EmptyString => replace_empty new s
  | String _ _ => replace_from old new 0 s
  end.

End Py.
Import Py.

Notation "x <- c1 ;; c2" := (Py.bind c1 (fun x => c2))
  (at level 61, c1 at next level, right associativity).

(** The numpy functions that have no exact value in [Q]. *)
Class NumPy : Type := {
  (** [np.log10] *)
  np_log10 : Q -> Q;
  (** [np.std] *)
  np_std : list Q -> Q;
  (** [b ** x] for a float base and a float exponent *)
  float_pow : Q -> Q -> Q
}.

(* ================================================================== *)
(** * Tensors                                                          *)
(* ================================================================== *)

(** A tensor is represented by the list of its elements: the per-pixel
    decisions and predictions of one image, flattened.  Its length
    stands for its shape. *)
Module Tensor.

Definition tensor : Type := list Q.

(** [w * t] *)
Definition scale (w : Q) (t : tensor) : tensor := map (Qmult w) t.

(** [t /= c] *)
Definition div_scalar (t : tensor) (c : Q) : tensor :=
  map (fun x => np_div x c) t.

(** [acc += t]: in place, so [t] must broadcast to the shape of [acc]. *)
Definition add_inplace (acc t : tensor) : result tensor :=
  if (length acc =? length t)%nat
  then Ok (map (fun p => fst p + snd p) (combine acc t))
  else match t with
       | [x] => Ok (map (fun a => a + x) acc)
       | _ => Raise RuntimeError
       end.

(** [(t > c).float()] *)
Definition gt_float (t : tensor) (c : Q) : tensor :=
  map (fun x => if Qlt_bool c x then 1 else 0) t.

(** [torch.zeros_like(t)] *)
Definition zeros_like (t : tensor) : tensor := map (fun _ => 0) t.

(** [torch.mean(torch.stack(ts), dim=0)] for a non-empty [ts]:
    [torch.stack] wants one shape for all. *)
Definition stack_mean (ts : list tensor) : result tensor :=
  match ts with
  | [] => Raise RuntimeError
  | t0 :: rest =>
      if forallb (fun t => (length t =? length t0)%nat) rest
      then Ok (div_scalar
                 (fold_left (fun acc t => map (fun p => fst p + snd p) (combine acc t))
                            rest t0)
                 (len_Q ts))
      else Raise RuntimeError
  end.

(** [a * b] of two tensors, with broadcasting: one shape, or one operand
    of a single element. *)
Definition mul (a b : tensor) : result tensor :=
  if (length a =? length b)%nat
  then Ok (map (fun p => fst p * snd p) (combine a b))
  else match a, b with
       | [x], _ => Ok (map (fun y => x * y) b)
       | _, [y] => Ok (map (fun x => x * y) a)
       | _, _ => Raise RuntimeError
       end.

(** [1 - t] *)
Definition one_minus (t : tensor) : tensor := map (fun x => 1 - x) t.

(** [torch.sum(t).item()] *)
Definition sum_item (t : tensor) : Q := np_sum t.

(** [torch.mean(t).item()]; the [nan] of an empty tensor is the [0] of
    [0 / 0]. *)
Definition mean_item (t : tensor) : Q := np_mean t.

End Tensor.
Import Tensor.

(* ================================================================== *)
(** * The shared state of the hyperparameter agents                    *)
(* ================================================================== *)

(** The class weights an agent holds: the [Dict[int, float]] it starts
    with, whose values are Python floats, or the array a mapped action
    leaves. *)
Inductive class_weights : Type :=
| WeightsDict (d : list (Z * Q))
| WeightsArray (l : list Q).

Inductive hyperparameter : Type :=
| LearningRate (x : Q)
| ClassWeights (w : class_weights).

(** The methods of [SharedStateManager] (external collaborator) that the
    hyperparameter agents call. *)
Class SharedStateManager (S : Type) : Type := {
  get_enhanced_state_vector : S -> list string -> list Q;
  get_overfitting_signals : S -> dict Q;
  (** [get_metric_history(metric, window_size=n)] *)
  get_metric_history : S -> string -> nat -> list Q;
  get_latest_metric : S -> string -> option Q;
  get_current_epoch : S -> Z;
  total_epochs : S -> option Z;
  set_hyperparameter : string -> hyperparameter -> S -> S
}.

(** Two fragments that both agents repeat in each branch of
    [get_state_representation]. *)
Section StateFragments.

Context {S : Type} {SSM : SharedStateManager S}.

(** [current_epoch / total_epochs] if [total_epochs] is set and
    positive, else [0.0]. *)
Definition training_progress (sh : S) : Q :=
  match total_epochs sh with
  | Some total =>
      if (0 <? total)%Z
      then inject_Z (get_current_epoch sh) / inject_Z total
      else 0
  | None => 0
  end.

(** [list(overfitting_signals.values())] if the dictionary is not
    empty. *)
Definition overfitting_components (sh : S) : list Q :=
  match get_overfitting_signals sh with
  | [] => []
  | signals => dict_values signals
  end.

End StateFragments.

(** "Pad or truncate to match state_dim". *)
Definition pad_or_truncate (state_dim : nat) (state : list Q) : list Q :=
  if (length state <? state_dim)%nat
  then state ++ repeat 0 (state_dim - length state)
  else if (state_dim <? length state)%nat
       then firstn state_dim state
       else state.

(* ================================================================== *)
(** * LearningRateAgent                                                *)
(* ================================================================== *)

Module LearningRateAgent.

Record agent : Type := {
  hyperparameter_key : string;
  state_dim : nat;
  min_lr : Q;
  max_lr : Q;
  current_lr : Q;
  metrics_to_track : list string;
  use_enhanced_state : bool;
  epochs_since_update : Z
}.

(** [self.current_lr = x] *)
Definition set_current_lr (x : Q) (a : agent) : agent :=
  {| hyperparameter_key := hyperparameter_key a;
     state_dim := state_dim a;
     min_lr := min_lr a; max_lr := max_lr a;
     current_lr := x;
     metrics_to_track := metrics_to_track a;
     use_enhanced_state := use_enhanced_state a;
     epochs_since_update := epochs_since_update a |}.

(** The dictionary [update_hyperparameter] returns. *)
Record update_info : Type := {
  old_value : Q;
  new_value : Q;
  relative_change : Q;
  hyperparameter : string
}.

Section WithSharedState.

Context {np : NumPy} {S : Type} {SSM : SharedStateManager S}.

Definition normalized_lr (a : agent) : Q :=
  np_div (np_log10 (current_lr a) - np_log10 (min_lr a))
         (np_log10 (max_lr a) - np_log10 (min_lr a)).

(** Normalised learning rate, epochs since update, progress. *)
Definition closing_components (a : agent) (sh : S) : list Q :=
  [normalized_lr a; inject_Z (epochs_since_update a) / 10; training_progress sh].

Definition enhanced_components (a : agent) (sh : S) (enhanced_features : list Q)
  : list Q :=
  enhanced_features ++ overfitting_components sh ++ closing_components a sh.

(** Latest value, trend and volatility of one metric. *)
Definition metric_components (history : list Q) : list Q :=
  match history with
  | [] => [0; 0; 0]
  | _ =>
      [last_item history;
       if (1 <? length history)%nat then last_item history - first_item history else 0;
       if (1 <? length history)%nat then np_std history else 0]
  end.

Definition standard_components (a : agent) (sh : S) : list Q :=
  flat_map
    (fun metric =>
       metric_components
         (get_metric_history sh metric (state_dim a / length (metrics_to_track a))))
    (metrics_to_track a)
  ++ closing_components a sh.

(** [state_components] when it is turned into an array. *)
Definition state_components (a : agent) (sh : S) : list Q :=
  if use_enhanced_state a then
    match get_enhanced_state_vector sh (metrics_to_track a) with
    | [] => standard_components a sh
    | enhanced_features => enhanced_components a sh enhanced_features
    end
  else standard_components a sh.

Definition get_state_representation (a : agent) (sh : S) : list Q :=
  pad_or_truncate (state_dim a) (state_components a sh).

Definition action_to_hyperparameter (a : agent) (action : Q) : Q :=
  let factor := float_pow 3 action in
  let new_lr := current_lr a * factor in
  np_clip new_lr (min_lr a) (max_lr a).

Definition update_hyperparameter (a : agent) (sh : S) (action : Q)
  : update_info * agent * S :=
  let new_lr := action_to_hyperparameter a action in
  let relative_change := np_div new_lr (current_lr a) in
  let old_lr := current_lr a in
  let a' := set_current_lr new_lr a in
  let sh' := set_hyperparameter (hyperparameter_key a') (LearningRate (current_lr a')) sh in
  ({| old_value := old_lr;
      new_value := current_lr a';
      relative_change := relative_change;
      hyperparameter := hyperparameter_key a' |}, a', sh').

End WithSharedState.

(** What the SAC policy returns and [_process_action] receives: a scalar,
    or a list or array. *)
Inductive sac_action : Type :=
| ScalarAction (x : Q)
| ArrayAction (l : list Q).

Section Selection.

Context {np : NumPy} {S : Type} {SSM : SharedStateManager S}.

(** [action[0]] of an empty list or array is an [IndexError]. *)
Definition _process_action (a : agent) (action : sac_action) : result Q :=
  match action with
  | ArrayAction [] => Raise IndexError
  | ArrayAction (x :: _) => Ok (action_to_hyperparameter a x)
  | ScalarAction x => Ok (action_to_hyperparameter a x)
  end.

Definition _apply_action (a : agent) (sh : S) (new_lr : Q) : agent * S :=
  (set_current_lr new_lr a,
   set_hyperparameter (hyperparameter_key a) (LearningRate new_lr) sh).

(** [should_update] is the base class's scheduling test and
    [sac_select_action] the policy [self.sac.select_action]; the returned
    [Ok None] is Python's [None]. *)
Definition select_action (should_update : agent -> Z -> bool)
           (sac_select_action : list Q -> sac_action)
           (a : agent) (sh : S) (epoch : Z) : result (option Q) :=
  if negb (should_update a epoch) then Ok None
  else
    let state := get_state_representation a sh in
    let action := sac_select_action state in
    processed_action <- _process_action a action ;;
    Ok (Some processed_action).

End Selection.

End LearningRateAgent.

(* ================================================================== *)
(** * ClassWeightsAgent                                                *)
(* ================================================================== *)

Module ClassWeightsAgent.

Record agent : Type := {
  hyperparameter_key : string;
  state_dim : nat;
  min_weight : Q;
  max_weight : Q;
  num_classes : nat;
  metrics_to_track : list string;
  use_enhanced_state : bool;
  current_class_weights : class_weights;
  epochs_since_update : Z
}.

(** [self.current_class_weights = w] *)
Definition set_current_class_weights (w : class_weights) (a : agent) : agent :=
  {| hyperparameter_key := hyperparameter_key a;
     state_dim := state_dim a;
     min_weight := min_weight a; max_weight := max_weight a;
     num_classes := num_classes a;
     metrics_to_track := metrics_to_track a;
     use_enhanced_state := use_enhanced_state a;
     current_class_weights := w;
     epochs_since_update := epochs_since_update a |}.

(** The dictionary [update_hyperparameter] returns. *)
Record update_info : Type := {
  old_value : class_weights;
  new_value : class_weights;
  relative_change : list Q;
  hyperparameter : string
}.

(** What [action_to_hyperparameter] may be given: a scalar, an array,
    or a Python list. *)
Inductive action : Type :=
| Scalar (x : Q)
| Array (l : list Q)
| PyList (l : list Q).

(** [np.array(list(d.values()))], or the array itself. *)
Definition weights_array (w : class_weights) : list Q :=
  match w with
  | WeightsDict d => map snd d
  | WeightsArray l => l
  end.

Section WithSharedState.

Context {np : NumPy} {S : Type} {SSM : SharedStateManager S}.

(** The loop [for weight in weights]: on the values of a dict the
    quotient is one of Python floats, on an array one of numpy
    scalars. *)
Definition normalized_weights (a : agent) : result (list Q) :=
  match current_class_weights a with
  | WeightsDict d =>
      mapM (fun weight =>
              float_div (weight - min_weight a) (max_weight a - min_weight a))
           (map snd d)
  | WeightsArray l =>
      Ok (map (fun weight =>
                 np_div (weight - min_weight a) (max_weight a - min_weight a)) l)
  end.

(** The dice score of one class, else the overall one, else 0.0. *)
Definition class_dice (sh : S) (class_idx : nat) : Q :=
  match get_latest_metric sh ("dice_class_" ++ str_of_nat class_idx) with
  | Some d => d
  | None =>
      match get_latest_metric sh "dice_score" with
      | Some overall_dice => overall_dice
      | None => 0
      end
  end.

(** Normalised weights, per-class dice, epochs since update,
    progress. *)
Definition closing_components (a : agent) (sh : S) : result (list Q) :=
  ws <- normalized_weights a ;;
  Ok (ws
      ++ map (class_dice sh) (seq 0 (num_classes a))
      ++ [inject_Z (epochs_since_update a) / 10; training_progress sh]).

Definition enhanced_components (a : agent) (sh : S) (enhanced_features : list Q)
  : result (list Q) :=
  closing <- closing_components a sh ;;
  Ok (enhanced_features ++ overfitting_components sh ++ closing).

(** Latest value and trend of one metric. *)
Definition metric_components (history : list Q) : list Q :=
  match history with
  | [] => [0; 0]
  | _ =>
      [last_item history;
       if (1 <? length history)%nat then last_item history - first_item history else 0]
  end.

Definition standard_components (a : agent) (sh : S) : result (list Q) :=
  closing <- closing_components a sh ;;
  Ok (flat_map
        (fun metric =>
           if String.eqb metric "class_dice" then []
           else metric_components (get_metric_history sh metric 5))
        (metrics_to_track a)
      ++ closing).

(** [state_components] when it is turned into an array. *)
Definition state_components (a : agent) (sh : S) : result (list Q) :=
  if use_enhanced_state a then
    match get_enhanced_state_vector sh (metrics_to_track a) with
    | [] => standard_components a sh
    | enhanced_features => enhanced_components a sh enhanced_features
    end
  else standard_components a sh.

Definition get_state_representation (a : agent) (sh : S) : result (list Q) :=
  components <- state_components a sh ;;
  Ok (pad_or_truncate (state_dim a) components).

(** The first block of [action_to_hyperparameter]: the action as it
    reaches [2.0 ** action].  A list that was neither padded nor cut
    is still a list there, and a float to the power of a list is a
    [TypeError]. *)
Definition repaired_action (a : agent) (act : action) : result (list Q) :=
  let n := num_classes a in
  match act with
  | Scalar _ => Ok (map (fun one => one * (1 # 10)) (repeat 1 n))
  | Array l =>
      if (length l =? n)%nat then Ok l
      else if (length l <? n)%nat then Ok (l ++ repeat 0 (n - length l))
      else Ok (firstn n l)
  | PyList l =>
      if (length l =? n)%nat then Raise TypeError
      else if (length l <? n)%nat then Ok (l ++ repeat 0 (n - length l))
      else Raise TypeError
  end.

(** Up to and including the clip to [[min_weight, max_weight]]. *)
Definition clipped_weights (a : agent) (act : action) : result (list Q) :=
  action' <- repaired_action a act ;;
  let factors := map (float_pow 2) action' in
  let current_weights := weights_array (current_class_weights a) in
  new_weights <- broadcast2 Qmult current_weights factors ;;
  Ok (map (fun w => np_clip w (min_weight a) (max_weight a)) new_weights).

(** "Normalize weights to have mean of 1.0". *)
Definition renormalize (a : agent) (new_weights : list Q) : list Q :=
  if Qlt_bool 0 (np_mean new_weights)
  then map (fun w => w * np_div (inject_Z (Z.of_nat (num_classes a)))
                                (np_sum new_weights))
           new_weights
  else new_weights.

Definition action_to_hyperparameter (a : agent) (act : action) : result (list Q) :=
  new_weights <- clipped_weights a act ;;
  Ok (renormalize a new_weights).

Definition update_hyperparameter (a : agent) (sh : S) (act : action)
  : result (update_info * agent * S) :=
  new_weights <- action_to_hyperparameter a act ;;
  let current_weights := weights_array (current_class_weights a) in
  relative_changes <- broadcast2 np_div new_weights current_weights ;;
  let old_weights := current_class_weights a in
  let a' := set_current_class_weights (WeightsArray new_weights) a in
  let sh' := set_hyperparameter (hyperparameter_key a')
                                (ClassWeights (current_class_weights a')) sh in
  Ok ({| old_value := old_weights;
         new_value := current_class_weights a';
         relative_change := relative_changes;
         hyperparameter := hyperparameter_key a' |}, a', sh').

End WithSharedState.

Section Selection.

Context {np : NumPy} {S : Type} {SSM : SharedStateManager S}.

Definition _process_action (a : agent) (act : action) : result (list Q) :=
  action_to_hyperparameter a act.

(** [_apply_action]: the new weights are stored as they are given. *)
Definition _apply_action (a : agent) (sh : S) (new_class_weights : class_weights)
  : agent * S :=
  let a' := set_current_class_weights new_class_weights a in
  (a', set_hyperparameter (hyperparameter_key a')
                          (ClassWeights (current_class_weights a')) sh).

(** [should_update] is the base class's scheduling test and
    [sac_select_action] the policy [self.sac.select_action]; the returned
    [Ok None] is Python's [None]. *)
Definition select_action (should_update : agent -> Z -> bool)
           (sac_select_action : list Q -> action)
           (a : agent) (sh : S) (epoch : Z) : result (option (list Q)) :=
  if negb (should_update a epoch) then Ok None
  else
    state <- get_state_representation a sh ;;
    let act := sac_select_action state in
    processed_action <- _process_action a act ;;
    Ok (Some processed_action).

Definition get_current_class_weights (a : agent) : class_weights :=
  current_class_weights a.

End Selection.

End ClassWeightsAgent.

(* ================================================================== *)
(** * The segmentation state manager (external collaborator)           *)
(* ================================================================== *)

(** The methods of [SegmentationStateManager] that the agents and the
    coordinator call.  [W] is the mutable world a call acts on: the state
    manager, possibly together with the agents' own fields. *)
Class StateManager (W : Type) : Type := {
  get_current_prediction : W -> option tensor;
  set_current_prediction : tensor -> W -> W;
  get_current_ground_truth : W -> option tensor;
  update_segmentation : tensor -> W -> W;
  get_current_step : W -> Z
}.

(* ================================================================== *)
(** * SegmentationAgentCoordinator                                     *)
(* ================================================================== *)

Module SegmentationAgentCoordinator.

(** The coordinator's own fields (its agents are handled in
    [refine_segmentation] below). *)
Record coordinator : Type := {
  agent_weights : dict Q;
  agent_performance : dict (list Q);
  conflict_resolution : string
}.

(** ** _resolve_conflicts *)

(** The [for agent_name, decision in agent_decisions.items()] loop of
    the [weighted_average] branch, threading [combined] and
    [total_weight]. *)
Fixpoint weighted_loop (weights : dict Q) (decisions : dict tensor)
         (combined : option tensor) (total_weight : Q)
  : result (option tensor * Q) :=
  match decisions with
  | [] => Ok (combined, total_weight)
  | (agent_name, decision) :: rest =>
      let weight := dict_get_default weights agent_name 1 in
      match combined with
      | None =>
          weighted_loop weights rest (Some (scale weight decision))
                        (total_weight + weight)
      | Some c =>
          c' <- add_inplace c (scale weight decision) ;;
          weighted_loop weights rest (Some c') (total_weight + weight)
      end
  end.

Definition resolve_weighted_average (weights : dict Q) (decisions : dict tensor)
  : result (option tensor) :=
  r <- weighted_loop weights decisions None 0 ;;
  let '(combined, total_weight) := r in
  if Qlt_bool 0 total_weight
  then Ok (option_map (fun c => div_scalar c total_weight) combined)
  else Ok combined.

(** [sorted(items, key=lambda x: x[1], reverse=True)]: stable, so items
    of equal weight keep their order. *)
Fixpoint insert_desc (x : string * Q) (l : list (string * Q)) : list (string * Q) :=
  match l with
  | [] => [x]
  | y :: rest =>
      if Qlt_bool (snd y) (snd x) then x :: y :: rest
      else y :: insert_desc x rest
  end.

Definition sorted_desc (items : list (string * Q)) : list (string * Q) :=
  fold_left (fun acc x => insert_desc x acc) items [].

Fixpoint first_present (order : list (string * Q)) (decisions : dict tensor)
  : option tensor :=
  match order with
  | [] => None
  | (agent_name, _) :: rest =>
      match dict_get decisions agent_name with
      | Some d => Some d
      | None => first_present rest decisions
      end
  end.

Definition resolve_priority (weights : dict Q) (decisions : dict tensor)
  : result (option tensor) :=
  match first_present (sorted_desc weights) decisions with
  | Some d => Ok (Some d)
  | None => d <- next_iter_values decisions ;; Ok (Some d)
  end.

(** [current_image] is the state manager's attribute, [None] until an
    image is set; [torch.zeros_like(None)] is a [TypeError]. *)
Definition resolve_voting (current_image : option tensor) (decisions : dict tensor)
  : result (option tensor) :=
  match dict_values decisions with
  | [] =>
      match current_image with
      | Some img => Ok (Some (zeros_like img))
      | None => Raise TypeError
      end
  | ds =>
      mean_decision <- stack_mean ds ;;
      Ok (Some (gt_float mean_decision (1 # 2)))
  end.

(** The returned value is [None] of Python when it is [Ok None]. *)
Definition _resolve_conflicts (c : coordinator) (current_image : option tensor)
           (agent_decisions : dict tensor) : result (option tensor) :=
  if String.eqb (conflict_resolution c) "weighted_average" then
    resolve_weighted_average (agent_weights c) agent_decisions
  else if String.eqb (conflict_resolution c) "priority" then
    resolve_priority (agent_weights c) agent_decisions
  else if String.eqb (conflict_resolution c) "voting" then
    resolve_voting current_image agent_decisions
  else
    d <- next_iter_values agent_decisions ;; Ok (Some d).

(** ** _update_agent_weights *)

(** First loop: agents with enough history get a floored recent mean. *)
Definition reweigh (window : Z) (performance : dict (list Q)) (weights : dict Q)
  : dict Q :=
  fold_left
    (fun ws entry =>
       let '(agent_name, rewards) := entry in
       if (window <=? Z.of_nat (length rewards))%Z
       then dict_set ws agent_name
                     (py_max (1 # 10) (np_mean (slice_from (- window) rewards)))
       else ws)
    performance weights.

(** Second loop: [w /= total_weight; w *= len(agent_weights)]. *)
Definition normalize (weights : dict Q) : dict Q :=
  let total_weight := np_sum (dict_values weights) in
  if Qlt_bool 0 total_weight
  then map (fun kv => (fst kv, np_div (snd kv) total_weight * len_Q weights)) weights
  else weights.

Definition _update_agent_weights (window : Z) (c : coordinator) : coordinator :=
  {| agent_weights := normalize (reweigh window (agent_performance c) (agent_weights c));
     agent_performance := agent_performance c;
     conflict_resolution := conflict_resolution c |}.

(** ** refine_segmentation *)

(** The observation dictionary built by [refine_segmentation]: it has
    the two keys below and no other. *)
Record observation : Type := {
  current_segmentation : tensor;
  ground_truth : option tensor
}.

(** A state representation is a vector [[state_dim]] or a batch
    [[1, state_dim]], as an array or as a tensor. *)
Inductive state_repr : Type :=
| Vec (v : list Q)
| Batch (rows : list (list Q)).

(** [state.reshape(1, -1)] / [state.unsqueeze(0)] of a 1-D state. *)
Definition as_batch (s : state_repr) : state_repr :=
  match s with
  | Vec v => Batch [v]
  | Batch rows => Batch rows
  end.

Section Refine.

Context {W : Type} {SM : StateManager W}.

(** What the coordinator asks of a segmentation agent.  Each method
    acts on the world.  [apply_action_with] is the call
    [apply_action(action, observation)]: an agent whose
    [apply_action] takes the action only answers it with
    [Raise TypeError]. *)
Record agent : Type := {
  name : string;
  get_state_representation : observation -> W -> state_repr * W;
  sac_select_action : state_repr -> W -> Q * W;
  apply_action_with : Q -> observation -> W -> result (option tensor) * W;
  apply_action : Q -> W -> result (option tensor) * W
}.

(** The [try: ... except TypeError: ...] around [apply_action]. *)
Definition try_apply_action (a : agent) (action : Q) (obs : observation) (w : W)
  : result (option tensor) * W :=
  match apply_action_with a action obs w with
  | (Raise TypeError, w') => apply_action a action w'
  | other => other
  end.

(** One pass of the first loop, up to the agent's refinement. *)
Definition agent_refinement (a : agent) (obs : observation) (w : W)
  : result (option tensor) * W :=
  let '(state, w1) := get_state_representation a obs w in
  let state := as_batch state in
  let '(action, w2) := sac_select_action a state w1 in
  try_apply_action a action obs w2.

(** The first loop: [features[agent.name] = agent_refined]. *)
Fixpoint collect_refinements (agents : list agent) (obs : observation)
         (features : dict (option tensor)) (w : W)
  : result (dict (option tensor)) * W :=
  match agents with
  | [] => (Ok features, w)
  | a :: rest =>
      match agent_refinement a obs w with
      | (Ok agent_refined, w') =>
          collect_refinements rest obs (dict_set features (name a) agent_refined) w'
      | (Raise e, w') => (Raise e, w')
      end
  end.

(** The second loop: the weighted sum of the refinements that are not
    [None]. *)
Fixpoint combine_refinements (weights : dict Q) (features : dict (option tensor))
         (combined : option tensor) (total_weight : Q)
  : result (option tensor * Q) :=
  match features with
  | [] => Ok (combined, total_weight)
  | (agent_name, None) :: rest =>
      combine_refinements weights rest combined total_weight
  | (agent_name, Some refinement) :: rest =>
      let weight := dict_get_default weights agent_name 1 in
      match combined with
      | None =>
          combine_refinements weights rest (Some (scale weight refinement))
                              (total_weight + weight)
      | Some c =>
          c' <- add_inplace c (scale weight refinement) ;;
          combine_refinements weights rest (Some c') (total_weight + weight)
      end
  end.

Definition refine_segmentation (c : coordinator) (agents : list agent)
           (initial_preds : tensor) (w : W) : result tensor * W :=
  let w0 := update_segmentation initial_preds w in
  let obs := {| current_segmentation := initial_preds;
                ground_truth := get_current_ground_truth w0 |} in
  match collect_refinements agents obs [] w0 with
  | (Raise e, w1) => (Raise e, w1)
  | (Ok [], w1) => (Ok initial_preds, w1)
  | (Ok features, w1) =>
      match combine_refinements (agent_weights c) features None 0 with
      | Raise e => (Raise e, w1)
      | Ok (None, _) => (Ok initial_preds, w1)
      | Ok (Some combined, total_weight) =>
          if Qeq_bool total_weight 0 then (Ok initial_preds, w1)
          else
            let combined :=
              if Qlt_bool 0 total_weight
              then div_scalar combined total_weight
              else combined in
            let refined_preds := gt_float combined (1 # 2) in
            (Ok refined_preds, update_segmentation refined_preds w1)
      end
  end.

End Refine.

Arguments agent W : clear implicits.

(** ** __init__ *)

(** [{agent.name: v for agent in agents}] *)
Definition dict_from_names {V} (names : list string) (v : V) : dict V :=
  fold_left (fun d agent_name => dict_set d agent_name v) names [].

(** The fields [__init__] sets, from the agents' names. *)
Definition init (names : list string) (mode : string) : coordinator :=
  {| agent_weights := dict_from_names names 1;
     agent_performance := dict_from_names names [];
     conflict_resolution := mode |}.

(** ** update_agents *)

Section UpdateAgents.

Context {W : Type} {Metrics : Type}.

(** What [update_agents] asks of an agent: its name and
    [update(reward, done)], which acts on the world. *)
Record learner : Type := {
  learner_name : string;
  update : Q -> bool -> W -> Metrics * W
}.

(** [reward_dict.get(agent.name, reward_dict.get("total", 0.0))] *)
Definition agent_reward (reward_dict : dict Q) (agent_name : string) : Q :=
  dict_get_default reward_dict agent_name (dict_get_default reward_dict "total" 0).

(** The loop over the agents; [self.agent_performance[agent.name]] is a
    [KeyError] for a name that is not a key. *)
Fixpoint update_loop (agents : list learner) (reward_dict : dict Q) (done : bool)
         (update_metrics : dict Metrics) (performance : dict (list Q)) (w : W)
  : result (dict Metrics) * dict (list Q) * W :=
  match agents with
  | [] => (Ok update_metrics, performance, w)
  | a :: rest =>
      let reward := agent_reward reward_dict (learner_name a) in
      let '(metrics, w') := update a reward done w in
      let update_metrics := dict_set update_metrics (learner_name a) metrics in
      match dict_get performance (learner_name a) with
      | None => (Raise KeyError, performance, w')
      | Some history =>
          update_loop rest reward_dict done update_metrics
                      (dict_set performance (learner_name a) (history ++ [reward])) w'
      end
  end.

Definition update_agents (c : coordinator) (agents : list learner)
           (reward_dict : dict Q) (done : bool) (w : W)
  : result (dict Metrics) * coordinator * W :=
  match update_loop agents reward_dict done [] (agent_performance c) w with
  | (Raise e, performance, w') =>
      (Raise e,
       {| agent_weights := agent_weights c;
          agent_performance := performance;
          conflict_resolution := conflict_resolution c |}, w')
  | (Ok update_metrics, performance, w') =>
      (Ok update_metrics,
       _update_agent_weights 10
         {| agent_weights := agent_weights c;
            agent_performance := performance;
            conflict_resolution := conflict_resolution c |}, w')
  end.

End UpdateAgents.

Arguments learner W Metrics : clear implicits.

(** ** process_observation, make_decision, act *)

Section Act.

Context {W V : Type} {SM : StateManager W}.

(** The state manager's [set_current_image] and [set_feature], its
    attribute [current_image], and [set_current_prediction] called with
    [None]. *)
Variable set_current_image : tensor -> W -> W.
Variable set_feature : string -> V -> W -> W.
Variable current_image : W -> option tensor.
Variable set_current_prediction_none : W -> W.

(** What [act] asks of a segmentation agent: [observe] returns a
    dictionary of features, [decide] takes one. *)
Record actor : Type := {
  actor_name : string;
  observe : tensor -> W -> result (dict V) * W;
  decide : dict V -> W -> result tensor * W
}.

(** [f"{agent.name}_"] and [f"{agent.name}_{key}"] *)
Definition name_prefix (agent_name : string) : string := (agent_name ++ "_")%string.
Definition feature_key (agent_name key : string) : string :=
  (agent_name ++ "_" ++ key)%string.

(** The loop over [agent_features.items()]. *)
Fixpoint store_features (agent_name : string) (agent_features features : dict V) (w : W)
  : dict V * W :=
  match agent_features with
  | [] => (features, w)
  | (key, value) :: rest =>
      store_features agent_name rest
                     (dict_set features (feature_key agent_name key) value)
                     (set_feature (feature_key agent_name key) value w)
  end.

(** The loop over [self.agents] of [process_observation]. *)
Fixpoint observe_all (agents : list actor) (observation : tensor)
         (features : dict V) (w : W) : result (dict V) * W :=
  match agents with
  | [] => (Ok features, w)
  | a :: rest =>
      match observe a observation w with
      | (Raise e, w1) => (Raise e, w1)
      | (Ok agent_features, w1) =>
          let '(features, w2) :=
            store_features (actor_name a) agent_features features w1 in
          observe_all rest observation features w2
      end
  end.

Definition process_observation (agents : list actor) (observation : tensor) (w : W)
  : result (dict V) * W :=
  observe_all agents observation [] (set_current_image observation w).

(** The dictionary comprehension of [make_decision]. *)
Definition own_features (agent_name : string) (features : dict V) : dict V :=
  fold_left
    (fun d kv =>
       if startswith (fst kv) (name_prefix agent_name)
       then dict_set d (str_replace (fst kv) (name_prefix agent_name) "") (snd kv)
       else d)
    features [].

(** The loop over [self.agents] of [make_decision]. *)
Fixpoint decide_all (agents : list actor) (features : dict V)
         (agent_decisions : dict tensor) (w : W) : result (dict tensor) * W :=
  match agents with
  | [] => (Ok agent_decisions, w)
  | a :: rest =>
      match decide a (own_features (actor_name a) features) w with
      | (Raise e, w1) => (Raise e, w1)
      | (Ok decision, w1) =>
          decide_all rest features (dict_set agent_decisions (actor_name a) decision) w1
      end
  end.

Definition make_decision (c : coordinator) (agents : list actor) (features : dict V)
           (w : W) : result (option tensor) * W :=
  match decide_all agents features [] w with
  | (Raise e, w1) => (Raise e, w1)
  | (Ok agent_decisions, w1) =>
      match _resolve_conflicts c (current_image w1) agent_decisions with
      | Raise e => (Raise e, w1)
      | Ok (Some combined_decision) =>
          (Ok (Some combined_decision), set_current_prediction combined_decision w1)
      | Ok None => (Ok None, set_current_prediction_none w1)
      end
  end.

Definition act (c : coordinator) (agents : list actor) (observation : tensor) (w : W)
  : result (option tensor) * W :=
  match process_observation agents observation w with
  | (Raise e, w1) => (Raise e, w1)
  | (Ok features, w1) => make_decision c agents features w1
  end.

End Act.

Arguments actor W V : clear implicits.

End SegmentationAgentCoordinator.

(* ================================================================== *)
(** * FGBalanceAgent                                                   *)
(* ================================================================== *)

Module FGBalanceAgent.

(** The neural networks and their optimizer are external: a state dict
    is a value of [params], and the two computations the agent runs on
    them are the fields below.  So is the installed torch, of which one
    setting matters: the default of the argument [weights_only] of
    [torch.load], [True] from torch 2.6 on and [False] before. *)
Class Networks : Type := {
  params : Type;
  weights_only : bool;
  (** [feature_extractor(image).view(1, -1)], one row of 64*8*8 features *)
  visual_features : params -> tensor -> list Q;
  (** row 0 of [policy_network(torch.cat([features, [[pred, target]]], dim=1))]
      for [features = feature_extractor(image).view(1, -1)] *)
  action_logits : params -> params -> tensor -> Q -> Q -> list Q;
  (** [optimizer.zero_grad(); policy_loss.backward(); optimizer.step()]
      for the [policy_loss] that [learn] builds from the image, the two
      ratios, the action type and the reward: the new feature extractor,
      policy network and optimizer state *)
  optimizer_step : params -> params -> params ->
                   tensor -> Q -> Q -> nat -> Q -> params * params * params
}.

Section Agent.

Context {NN : Networks}.

(** The dictionary [observe] stores in [observation_history]. *)
Record observation : Type := {
  obs_current_image : tensor;
  obs_current_mask : tensor;
  obs_current_prediction : tensor;
  obs_gt_fg_ratio : Q;
  obs_pred_fg_ratio : Q;
  obs_avg_fg_ratio : Q;
  obs_target_fg_ratio : Q;
  obs_segmentation_threshold : Q
}.

(** The dictionary [decide] stores in [action_history]. *)
Record action_record : Type := {
  act_segmentation_threshold : Q;
  action_type : nat;
  action_probs : list Q;
  act_pred_fg_ratio : Q;
  act_target_fg_ratio : Q
}.

(** The metrics dictionary of [learn]. *)
Record metrics : Type := {
  policy_loss : Q;
  m_reward : Q;
  m_segmentation_threshold : Q;
  m_pred_fg_ratio : Q;
  m_target_fg_ratio : Q;
  fg_ratio_diff : Q
}.

Record agent : Type := {
  state_dim : nat;
  feature_extractor : params;
  policy_network : params;
  optimizer : params;
  segmentation_threshold : Q;
  min_threshold : Q;
  max_threshold : Q;
  threshold_step : Q;
  target_fg_ratio : Q;
  avg_fg_ratio : Q;
  learning_rate : Q;
  gamma : Q;
  update_frequency : Z;
  last_update_step : Z;
  action_history : list action_record;
  reward_history : list Q;
  observation_history : list observation;
  training : bool
}.

(** Attribute assignments [self.f = v]. *)
Definition set_networks (fe pn opt : params) (a : agent) : agent :=
  {| state_dim := state_dim a;
     feature_extractor := fe; policy_network := pn; optimizer := opt;
     segmentation_threshold := segmentation_threshold a;
     min_threshold := min_threshold a; max_threshold := max_threshold a;
     threshold_step := threshold_step a;
     target_fg_ratio := target_fg_ratio a; avg_fg_ratio := avg_fg_ratio a;
     learning_rate := learning_rate a; gamma := gamma a;
     update_frequency := update_frequency a;
     last_update_step := last_update_step a;
     action_history := action_history a; reward_history := reward_history a;
     observation_history := observation_history a; training := training a |}.

Definition set_feature_extractor (fe : params) (a : agent) : agent :=
  set_networks fe (policy_network a) (optimizer a) a.
Definition set_policy_network (pn : params) (a : agent) : agent :=
  set_networks (feature_extractor a) pn (optimizer a) a.
Definition set_optimizer (opt : params) (a : agent) : agent :=
  set_networks (feature_extractor a) (policy_network a) opt a.

(** [segmentation_threshold], [target_fg_ratio], [avg_fg_ratio] *)
Definition set_scalars (threshold target avg : Q) (a : agent) : agent :=
  {| state_dim := state_dim a;
     feature_extractor := feature_extractor a;
     policy_network := policy_network a; optimizer := optimizer a;
     segmentation_threshold := threshold;
     min_threshold := min_threshold a; max_threshold := max_threshold a;
     threshold_step := threshold_step a;
     target_fg_ratio := target; avg_fg_ratio := avg;
     learning_rate := learning_rate a; gamma := gamma a;
     update_frequency := update_frequency a;
     last_update_step := last_update_step a;
     action_history := action_history a; reward_history := reward_history a;
     observation_history := observation_history a; training := training a |}.

Definition set_segmentation_threshold (x : Q) (a : agent) : agent :=
  set_scalars x (target_fg_ratio a) (avg_fg_ratio a) a.
Definition set_target_fg_ratio (x : Q) (a : agent) : agent :=
  set_scalars (segmentation_threshold a) x (avg_fg_ratio a) a.
Definition set_avg_fg_ratio (x : Q) (a : agent) : agent :=
  set_scalars (segmentation_threshold a) (target_fg_ratio a) x a.

(** [learning_rate], [gamma], [update_frequency], [last_update_step],
    [training] *)
Definition set_schedule (lr g : Q) (freq last : Z) (tr : bool) (a : agent) : agent :=
  {| state_dim := state_dim a;
     feature_extractor := feature_extractor a;
     policy_network := policy_network a; optimizer := optimizer a;
     segmentation_threshold := segmentation_threshold a;
     min_threshold := min_threshold a; max_threshold := max_threshold a;
     threshold_step := threshold_step a;
     target_fg_ratio := target_fg_ratio a; avg_fg_ratio := avg_fg_ratio a;
     learning_rate := lr; gamma := g;
     update_frequency := freq; last_update_step := last;
     action_history := action_history a; reward_history := reward_history a;
     observation_history := observation_history a; training := tr |}.

Definition set_learning_rate (x : Q) (a : agent) : agent :=
  set_schedule x (gamma a) (update_frequency a) (last_update_step a) (training a) a.
Definition set_gamma (x : Q) (a : agent) : agent :=
  set_schedule (learning_rate a) x (update_frequency a) (last_update_step a) (training a) a.
Definition set_update_frequency (x : Z) (a : agent) : agent :=
  set_schedule (learning_rate a) (gamma a) x (last_update_step a) (training a) a.
Definition set_last_update_step (x : Z) (a : agent) : agent :=
  set_schedule (learning_rate a) (gamma a) (update_frequency a) x (training a) a.
Definition set_training (x : bool) (a : agent) : agent :=
  set_schedule (learning_rate a) (gamma a) (update_frequency a) (last_update_step a) x a.

(** [action_history], [reward_history] *)
Definition set_histories (acts : list action_record) (rewards : list Q) (a : agent)
  : agent :=
  {| state_dim := state_dim a;
     feature_extractor := feature_extractor a;
     policy_network := policy_network a; optimizer := optimizer a;
     segmentation_threshold := segmentation_threshold a;
     min_threshold := min_threshold a; max_threshold := max_threshold a;
     threshold_step := threshold_step a;
     target_fg_ratio := target_fg_ratio a; avg_fg_ratio := avg_fg_ratio a;
     learning_rate := learning_rate a; gamma := gamma a;
     update_frequency := update_frequency a;
     last_update_step := last_update_step a;
     action_history := acts; reward_history := rewards;
     observation_history := observation_history a; training := training a |}.

Definition set_action_history (x : list action_record) (a : agent) : agent :=
  set_histories x (reward_history a) a.
Definition set_reward_history (x : list Q) (a : agent) : agent :=
  set_histories (action_history a) x a.

(** [l[-1]] *)
Definition last_of {A} (l : list A) : result A :=
  match rev l with
  | [] => Raise IndexError
  | x :: _ => Ok x
  end.

(** [abs(x)] *)
Definition py_abs (x : Q) : Q := if Qlt_bool x 0 then - x else x.

(** ** learn

    [current_step] is [self.state_manager.get_current_step()]; the
    returned [None] is the empty dictionary [{}]. *)
Definition learn (a : agent) (current_step : Z) (reward : Q)
  : result (option metrics) * agent :=
  let a := set_reward_history (reward_history a ++ [reward]) a in
  if (current_step - last_update_step a <? update_frequency a)%Z then (Ok None, a)
  else
    let a := set_last_update_step current_step a in
    if (length (action_history a) <? 2)%nat || (length (reward_history a) <? 2)%nat
    then (Ok None, a)
    else
      match last_of (observation_history a) with
      | Raise e => (Raise e, a)
      | Ok obs =>
      match last_of (action_history a) with
      | Raise e => (Raise e, a)
      | Ok action =>
          let current_image := obs_current_image obs in
          let pred_fg_ratio := obs_pred_fg_ratio obs in
          let target_fg_ratio := obs_target_fg_ratio obs in
          let logits := action_logits (feature_extractor a) (policy_network a)
                                      current_image pred_fg_ratio target_fg_ratio in
          match nth_error logits (action_type action) with
          | None => (Raise IndexError, a)
          | Some logit =>
              let loss := - logit * reward in
              let '(fe, pn, opt) :=
                optimizer_step (feature_extractor a) (policy_network a) (optimizer a)
                               current_image pred_fg_ratio target_fg_ratio
                               (action_type action) reward in
              let a := set_networks fe pn opt a in
              (Ok (Some {| policy_loss := loss;
                           m_reward := reward;
                           m_segmentation_threshold := segmentation_threshold a;
                           m_pred_fg_ratio := pred_fg_ratio;
                           m_target_fg_ratio := target_fg_ratio;
                           fg_ratio_diff := py_abs (pred_fg_ratio - target_fg_ratio) |}),
               a)
          end
      end
      end.

(** ** Checkpoints *)

(** The dictionary a checkpoint file unpickles to; a key may be
    missing. *)
Record checkpoint : Type := {
  ck_feature_extractor : option params;
  ck_policy_network : option params;
  ck_optimizer : option params;
  ck_segmentation_threshold : option Q;
  ck_target_fg_ratio : option Q;
  ck_avg_fg_ratio : option Q;
  ck_learning_rate : option Q;
  ck_gamma : option Q;
  ck_update_frequency : option Z;
  ck_last_update_step : option Z;
  ck_action_history : option (list action_record);
  ck_reward_history : option (list Q);
  ck_training : option bool
}.

Inductive file : Type :=
| Pickled (c : checkpoint)
| Garbage.

(** The files that exist, by path. *)
Definition filesystem : Type := string -> option file.

(** [os.path.exists(path)] *)
Definition path_exists (fs : filesystem) (path : string) : bool :=
  match fs path with
  | Some _ => true
  | None => false
  end.

(** Whether the pickled dictionary holds a numpy array: each entry of
    [action_history] does, its [action_probs]
    ([action_probs.detach().cpu().numpy()] in [decide]); state dicts,
    floats, integers, booleans and lists of them do not. *)
Definition has_numpy_array (c : checkpoint) : bool :=
  match ck_action_history c with
  | Some (_ :: _) => true
  | Some [] | None => false
  end.

(** [torch.load(path, map_location=...)], called without [weights_only]:
    under the default [True] the restricted unpickler admits tensors and
    plain Python values only, and raises on a numpy array. *)
Definition torch_load (fs : filesystem) (path : string) : result checkpoint :=
  match fs path with
  | None => Raise FileNotFoundError
  | Some Garbage => Raise UnpicklingError
  | Some (Pickled c) =>
      if weights_only && has_numpy_array c then Raise UnpicklingError else Ok c
  end.

(** A method body: it may raise, and it leaves the agent as mutated
    so far. *)
Definition method (A : Type) : Type := agent -> result A * agent.

Definition ret {A} (x : A) : method A := fun a => (Ok x, a).

Definition and_then {A B} (m : method A) (k : A -> method B) : method B :=
  fun a =>
    match m a with
    | (Ok x, a') => k x a'
    | (Raise e, a') => (Raise e, a')
    end.

Definition lift {A} (r : result A) : method A := fun a => (r, a).

(** [self.f = ...] *)
Definition assign (f : agent -> agent) : method unit := fun a => (Ok tt, f a).

(** [state_dict[key]] *)
Definition item {A} (entry : option A) : method A :=
  fun a =>
    match entry with
    | Some x => (Ok x, a)
    | None => (Raise KeyError, a)
    end.

(** [self.f = state_dict[key]] *)
Definition restore {A} (entry : option A) (setter : A -> agent -> agent) : method unit :=
  and_then (item entry) (fun x => assign (setter x)).

Definition then_ {B} (m : method unit) (k : method B) : method B :=
  and_then m (fun _ => k).

(** ** load: returns [None] *)
Definition load (fs : filesystem) (path : string) : method unit :=
  and_then (lift (torch_load fs path)) (fun state_dict =>
  then_ (restore (ck_feature_extractor state_dict) set_feature_extractor) (
  then_ (restore (ck_policy_network state_dict) set_policy_network) (
  then_ (restore (ck_optimizer state_dict) set_optimizer) (
  then_ (restore (ck_segmentation_threshold state_dict) set_segmentation_threshold) (
  then_ (restore (ck_target_fg_ratio state_dict) set_target_fg_ratio) (
  then_ (restore (ck_avg_fg_ratio state_dict) set_avg_fg_ratio) (
  then_ (restore (ck_learning_rate state_dict) set_learning_rate) (
  then_ (restore (ck_gamma state_dict) set_gamma) (
  then_ (restore (ck_update_frequency state_dict) set_update_frequency) (
  then_ (restore (ck_last_update_step state_dict) set_last_update_step) (
  then_ (restore (ck_action_history state_dict) set_action_history) (
  then_ (restore (ck_reward_history state_dict) set_reward_history) (
  restore (ck_training state_dict) set_training))))))))))))).

(** ** _load_agent_state: returns a boolean *)
Definition _load_agent_state (fs : filesystem) (path : string) (a : agent)
  : bool * agent :=
  if negb (path_exists fs path) then (false, a)
  else
    let body :=
      and_then (lift (torch_load fs path)) (fun state_dict =>
      then_ (restore (ck_feature_extractor state_dict) set_feature_extractor) (
      then_ (restore (ck_policy_network state_dict) set_policy_network) (
      then_ (restore (ck_optimizer state_dict) set_optimizer) (
      then_ (restore (ck_segmentation_threshold state_dict) set_segmentation_threshold) (
      then_ (restore (ck_target_fg_ratio state_dict) set_target_fg_ratio) (
      restore (ck_avg_fg_ratio state_dict) set_avg_fg_ratio)))))) in
    match body a with
    | (Ok _, a') => (true, a')
    | (Raise _, a') => (false, a')
    end.

(** [if not agent.load(agent_path): success = False], as
    [SegmentationAgentCoordinator.load_agents] reads the value [load]
    returns: [None] is falsy, so a load that returns counts as
    failed. *)
Definition load_agents_marks_failed (r : result unit) : result bool :=
  match r with
  | Ok tt => Ok true
  | Raise e => Raise e
  end.

(** ** _extract_features and get_state_representation

    The observation is read with [.get]: the image, the prediction and
    the two ratios may be absent. *)
Definition _extract_features (current_image current_prediction : option tensor)
           (pred_fg_ratio target_fg_ratio : option Q) (a : agent) : list (list Q) :=
  match current_image, current_prediction with
  | Some _, Some prediction =>
      let pred := match pred_fg_ratio with Some x => x | None => 1 # 2 end in
      let target := match target_fg_ratio with Some x => x | None => 1 # 2 end in
      [visual_features (feature_extractor a) prediction ++ [pred; target]]
  | _, _ => [repeat 0 (64 * 8 * 8 + 2)]
  end.

(** Truncate or zero-pad each row to [state_dim]. *)
Definition resize_row (dim : nat) (row : list Q) : list Q :=
  if (length row =? dim)%nat then row
  else if (dim <? length row)%nat then firstn dim row
  else row ++ repeat 0 (dim - length row).

Definition get_state_representation
           (current_image current_prediction : option tensor)
           (pred_fg_ratio target_fg_ratio : option Q) (a : agent) : list (list Q) :=
  map (resize_row (state_dim a))
      (_extract_features current_image current_prediction
                         pred_fg_ratio target_fg_ratio a).

(** ** apply_action(action) *)
Definition apply_action {W} {SM : StateManager W} (action_value : Q) (a : agent) (w : W)
  : option tensor * agent * W :=
  match get_current_prediction w with
  | None => (None, a, w)
  | Some current_prediction =>
      let a :=
        if Qlt_bool action_value (- (33 # 100)) then
          set_segmentation_threshold
            (py_max (min_threshold a) (segmentation_threshold a - threshold_step a)) a
        else if Qlt_bool (33 # 100) action_value then
          set_segmentation_threshold
            (py_min (max_threshold a) (segmentation_threshold a + threshold_step a)) a
        else a in
      let binary_prediction := gt_float current_prediction (segmentation_threshold a) in
      (Some binary_prediction, a, set_current_prediction binary_prediction w)
  end.

(** ** _calculate_fg_balance_metrics *)

(** The metrics dictionary. *)
Record balance_metrics : Type := {
  bm_pred_fg_ratio : Q;
  bm_gt_fg_ratio : Q;
  bm_fg_ratio_diff : Q;
  precision : Q;
  recall : Q;
  f1_score : Q;
  fg_weight : Q;
  bg_weight : Q
}.

Definition _calculate_fg_balance_metrics (prediction ground_truth : tensor) (a : agent)
  : result balance_metrics :=
  let pred_fg_ratio := mean_item (gt_float prediction (segmentation_threshold a)) in
  let gt_fg_ratio := mean_item (gt_float ground_truth (1 # 2)) in
  let fg_ratio_diff := py_abs (pred_fg_ratio - gt_fg_ratio) in
  let pred_binary := gt_float prediction (segmentation_threshold a) in
  let gt_binary := gt_float ground_truth (1 # 2) in
  tp_map <- mul pred_binary gt_binary ;;
  fp_map <- mul pred_binary (one_minus gt_binary) ;;
  fn_map <- mul (one_minus pred_binary) gt_binary ;;
  tn_map <- mul (one_minus pred_binary) (one_minus gt_binary) ;;
  let tp := sum_item tp_map in
  let fp := sum_item fp_map in
  let fn := sum_item fn_map in
  let tn := sum_item tn_map in
  let precision := if Qlt_bool 0 (tp + fp) then tp / (tp + fp) else 0 in
  let recall := if Qlt_bool 0 (tp + fn) then tp / (tp + fn) else 0 in
  let f1_score :=
    if Qlt_bool 0 (precision + recall)
    then 2 * precision * recall / (precision + recall)
    else 0 in
  let fg_pixels := sum_item gt_binary in
  let bg_pixels := sum_item (one_minus gt_binary) in
  let total_pixels := fg_pixels + bg_pixels in
  let fg_weight := if Qlt_bool 0 total_pixels then bg_pixels / total_pixels else 1 # 2 in
  let bg_weight := if Qlt_bool 0 total_pixels then fg_pixels / total_pixels else 1 # 2 in
  Ok {| bm_pred_fg_ratio := pred_fg_ratio;
        bm_gt_fg_ratio := gt_fg_ratio;
        bm_fg_ratio_diff := fg_ratio_diff;
        precision := precision;
        recall := recall;
        f1_score := f1_score;
        fg_weight := fg_weight;
        bg_weight := bg_weight |}.

(** ** observe *)

(** [self.observation_history = x] *)
Definition set_observation_history (x : list observation) (a : agent) : agent :=
  {| state_dim := state_dim a;
     feature_extractor := feature_extractor a;
     policy_network := policy_network a; optimizer := optimizer a;
     segmentation_threshold := segmentation_threshold a;
     min_threshold := min_threshold a; max_threshold := max_threshold a;
     threshold_step := threshold_step a;
     target_fg_ratio := target_fg_ratio a; avg_fg_ratio := avg_fg_ratio a;
     learning_rate := learning_rate a; gamma := gamma a;
     update_frequency := update_frequency a;
     last_update_step := last_update_step a;
     action_history := action_history a; reward_history := reward_history a;
     observation_history := x; training := training a |}.

(** [self.avg_decay], set to 0.9 when the agent is built and never
    assigned again. *)
Definition avg_decay : Q := 9 # 10.

(** [observe], given what the state manager's [get_current_image],
    [get_current_mask] and [get_current_prediction] return.  The returned
    [None] is the empty dictionary; the returned pair is the dictionary
    with its [fg_balance_metrics] entry beside the entries that
    [observation] keeps (its [recent_metrics] entry is the state
    manager's value, passed through). *)
Definition observe (current_image current_mask current_prediction : option tensor)
           (a : agent) : result (option (observation * balance_metrics)) * agent :=
  match current_image, current_mask, current_prediction with
  | Some image, Some mask, Some prediction =>
      let gt_fg_ratio := mean_item (gt_float mask (1 # 2)) in
      let pred_fg_ratio := mean_item (gt_float prediction (segmentation_threshold a)) in
      let a := set_target_fg_ratio gt_fg_ratio a in
      let a := set_avg_fg_ratio
                 (avg_decay * avg_fg_ratio a + (1 - avg_decay) * pred_fg_ratio) a in
      match _calculate_fg_balance_metrics prediction mask a with
      | Raise e => (Raise e, a)
      | Ok fg_balance_metrics =>
          let obs := {| obs_current_image := image;
                        obs_current_mask := mask;
                        obs_current_prediction := prediction;
                        obs_gt_fg_ratio := gt_fg_ratio;
                        obs_pred_fg_ratio := pred_fg_ratio;
                        obs_avg_fg_ratio := avg_fg_ratio a;
                        obs_target_fg_ratio := target_fg_ratio a;
                        obs_segmentation_threshold := segmentation_threshold a |} in
          (Ok (Some (obs, fg_balance_metrics)),
           set_observation_history (observation_history a ++ [obs]) a)
      end
  | _, _, _ => (Ok None, a)
  end.

(** ** decide

    [softmax] is [F.softmax(., dim=1)] on the row of policy outputs, and
    [draw training probs] the index that [torch.multinomial] (training)
    or [torch.argmax] (inference) returns.  The observation [None] is
    the empty dictionary, and so is the returned [None]. *)
Definition decide (softmax : list Q -> list Q) (draw : bool -> list Q -> nat)
           (obs : option observation) (a : agent) : option action_record * agent :=
  match obs with
  | None => (None, a)
  | Some o =>
      let pred_fg_ratio := obs_pred_fg_ratio o in
      let target_fg_ratio := obs_target_fg_ratio o in
      let logits := action_logits (feature_extractor a) (policy_network a)
                                  (obs_current_image o) pred_fg_ratio target_fg_ratio in
      let probs := softmax logits in
      let action := draw (training a) probs in
      let new_threshold :=
        if (action =? 0)%nat then
          py_min (segmentation_threshold a + threshold_step a) (max_threshold a)
        else if (action =? 1)%nat then
          py_max (segmentation_threshold a - threshold_step a) (min_threshold a)
        else segmentation_threshold a in
      let action_dict := {| act_segmentation_threshold := new_threshold;
                            action_type := action;
                            action_probs := probs;
                            act_pred_fg_ratio := pred_fg_ratio;
                            act_target_fg_ratio := target_fg_ratio |} in
      let a := set_action_history (action_history a ++ [action_dict]) a in
      (Some action_dict, set_segmentation_threshold new_threshold a)
  end.

(** ** save and _save_agent_state *)

(** [torch.save(state_dict, path)] into a directory that exists: the file
    at [path] is replaced. *)
Definition torch_save (fs : filesystem) (path : string) (c : checkpoint) : filesystem :=
  fun p => if String.eqb p path then Some (Pickled c) else fs p.

(** The dictionary [save] writes. *)
Definition save_dict (a : agent) : checkpoint :=
  {| ck_feature_extractor := Some (feature_extractor a);
     ck_policy_network := Some (policy_network a);
     ck_optimizer := Some (optimizer a);
     ck_segmentation_threshold := Some (segmentation_threshold a);
     ck_target_fg_ratio := Some (target_fg_ratio a);
     ck_avg_fg_ratio := Some (avg_fg_ratio a);
     ck_learning_rate := Some (learning_rate a);
     ck_gamma := Some (gamma a);
     ck_update_frequency := Some (update_frequency a);
     ck_last_update_step := Some (last_update_step a);
     ck_action_history := Some (action_history a);
     ck_reward_history := Some (reward_history a);
     ck_training := Some (training a) |}.

Definition save (fs : filesystem) (path : string) (a : agent) : filesystem :=
  torch_save fs path (save_dict a).

(** The dictionary [_save_agent_state] writes. *)
Definition agent_state_dict (a : agent) : checkpoint :=
  {| ck_feature_extractor := Some (feature_extractor a);
     ck_policy_network := Some (policy_network a);
     ck_optimizer := Some (optimizer a);
     ck_segmentation_threshold := Some (segmentation_threshold a);
     ck_target_fg_ratio := Some (target_fg_ratio a);
     ck_avg_fg_ratio := Some (avg_fg_ratio a);
     ck_learning_rate := None;
     ck_gamma := None;
     ck_update_frequency := None;
     ck_last_update_step := None;
     ck_action_history := None;
     ck_reward_history := None;
     ck_training := None |}.

(** Whether [os.path.dirname(path)] is not empty: the path has a slash. *)
Fixpoint has_dirname (path : string) : bool :=
  match path with
  | EmptyString => false
  | String c rest => if Ascii.eqb c "/" then true else has_dirname rest
  end.

(** [os.makedirs(os.path.dirname(path), exist_ok=True)] of an empty
    directory name is a [FileNotFoundError]. *)
Definition _save_agent_state (fs : filesystem) (path : string) (a : agent)
  : result filesystem :=
  if has_dirname path
  then Ok (torch_save fs path (agent_state_dict a))
  else Raise FileNotFoundError.

(** ** _reset_agent

    [initial] stands for the feature extractor, policy network and
    optimizer that [_initialize_agent] builds. *)
Definition _reset_agent (initial : params * params * params) (a : agent) : agent :=
  {| state_dim := state_dim a;
     feature_extractor := fst (fst initial);
     policy_network := snd (fst initial);
     optimizer := snd initial;
     segmentation_threshold := 1 # 2;
     min_threshold := 1 # 10; max_threshold := 9 # 10;
     threshold_step := 5 # 100;
     target_fg_ratio := 1 # 2; avg_fg_ratio := 1 # 2;
     learning_rate := learning_rate a; gamma := gamma a;
     update_frequency := update_frequency a;
     last_update_step := last_update_step a;
     action_history := []; reward_history := [];
     observation_history := []; training := training a |}.

End Agent.

End FGBalanceAgent.

Module Coord := SegmentationAgentCoordinator.
Module FG := FGBalanceAgent.
Module LR := LearningRateAgent.
Module CW := ClassWeightsAgent.

(** ** FGBalanceAgent as an agent of the coordinator *)

Section FGUnderCoordinator.

Context {NN : FG.Networks} {M : Type} {SM : StateManager M}.

(** The world of a coordinator that drives one [FGBalanceAgent]: the
    agent's fields and the state manager. *)
#[local] Instance fg_world : StateManager (FG.agent * M) := {
  get_current_prediction w := get_current_prediction (snd w);
  set_current_prediction t w := (fst w, set_current_prediction t (snd w));
  get_current_ground_truth w := get_current_ground_truth (snd w);
  update_segmentation t w := (fst w, update_segmentation t (snd w));
  get_current_step w := get_current_step (snd w)
}.

(** [agent.sac.select_action], the policy of the SAC collaborator. *)
Variable sac_policy : Coord.state_repr -> Q.

(** The observation of [refine_segmentation] has no [current_image]
    key, so [_extract_features] sees no image; [apply_action] takes the
    action only, so the call with the observation is a [TypeError]. *)
Definition fg_agent : Coord.agent (FG.agent * M) :=
  {| Coord.name := "FGBalanceAgent";
     Coord.get_state_representation := fun _ w =>
       (Coord.Batch (FG.get_state_representation None None None None (fst w)), w);
     Coord.sac_select_action := fun state w => (sac_policy state, w);
     Coord.apply_action_with := fun _ _ w => (Raise TypeError, w);
     Coord.apply_action := fun action w =>
       let '(refined, a, m) := FG.apply_action action (fst w) (snd w) in
       (Ok refined, (a, m)) |}.

End FGUnderCoordinator.

#[export] Existing Instance fg_world.

(* ================================================================== *)
(** * Specification-side definitions                                   *)
(* ================================================================== *)

(** What the weighted-average policy is said to compute at element [j]:
    the mean of the agents' decisions weighted by their current weights
    (an agent missing from [agent_weights] counts with weight one). *)
Definition spec_weight_of (weights : dict Q) (agent_name : string) : Q :=
  dict_get_default weights agent_name 1.

Definition spec_weighted_mean (weights : dict Q) (decisions : dict tensor) (j : nat) : Q :=
  np_sum (map (fun nd => spec_weight_of weights (fst nd) * nth j (snd nd) 0) decisions)
  / np_sum (map (fun nd => spec_weight_of weights (fst nd)) decisions).

(** "Every agent's [apply_action] yields no refinement", along the run of
    [refine_segmentation]: each agent, called in the world its
    predecessors left, returns [None]. *)
Fixpoint all_yield_none {W : Type} (agents : list (Coord.agent W))
         (obs : Coord.observation) (w : W) : Prop :=
  match agents with
  | [] => True
  | a :: rest =>
      fst (Coord.agent_refinement a obs w) = Ok None
      /\ all_yield_none rest obs (snd (Coord.agent_refinement a obs w))
  end.

(** "Zero-padded at the tail, truncated at the tail": the first
    [state_dim] elements of the assembled vector followed by zeros. *)
Definition spec_fixed_length (state_dim : nat) (assembled : list Q) : list Q :=
  firstn state_dim (assembled ++ repeat 0 (state_dim - length assembled)).

(** The class weights can be normalised without a division of Python
    floats by zero: the range [max_weight - min_weight] is not zero, or
    the weights are not a non-empty dictionary. *)
Definition normalisable (a : CW.agent) : Prop :=
  ~ CW.max_weight a - CW.min_weight a == 0
  \/ match CW.current_class_weights a with
     | WeightsDict (_ :: _) => False
     | _ => True
     end.

(** The loss of a single-sample REINFORCE step as the spec words it:
    minus the log-probability of the action, under the softmax of the
    policy outputs that [decide] samples from, times the reward.  It is
    a real number. *)
Definition spec_log_prob (logits : list Q) (action : nat) : R :=
  ln (exp (Q2R (nth action logits 0))
      / fold_right Rplus 0%R (map (fun l => exp (Q2R l)) logits)).

Definition spec_reinforce_loss (logits : list Q) (action : nat) (reward : Q) : R :=
  (- spec_log_prob logits action * Q2R reward)%R.

(** The data-model invariant of agent weights: each one is positive. *)
Definition all_positive (ws : dict Q) : Prop :=
  forall k v, In (k, v) ws -> 0 < v.

(** A list sorted by descending weight. *)
Definition descending (l : list (string * Q)) : Prop :=
  StronglySorted (fun x y => snd y <= snd x) l.

(** A tensor of zeros and ones. *)
Definition binary_mask (t : tensor) : Prop :=
  Forall (fun x => x = 0 \/ x = 1) t.

(** What [update_agents] relies on and keeps: positive weights, and a
    performance history for each agent it is given. *)
Definition tracks {W Metrics : Type} (agents : list (Coord.learner W Metrics))
           (c : Coord.coordinator) : Prop :=
  all_positive (Coord.agent_weights c)
  /\ forall a, In a agents ->
               dict_mem (Coord.agent_performance c) (Coord.learner_name a) = true.

(** A run of [update_hyperparameter] calls of the learning-rate agent,
    one per action. *)
Fixpoint lr_updates {np : NumPy} {S : Type} {SSM : SharedStateManager S}
         (a : LR.agent) (sh : S) (actions : list Q) : LR.agent * S :=
  match actions with
  | [] => (a, sh)
  | action :: rest =>
      let '(_, a', sh') := LR.update_hyperparameter a sh action in
      lr_updates a' sh' rest
  end.

(** A run of [update_hyperparameter] calls of the class-weights agent; it
    stops at the first call that raises. *)
Fixpoint cw_updates {np : NumPy} {S : Type} {SSM : SharedStateManager S}
         (a : CW.agent) (sh : S) (actions : list CW.action) : result (CW.agent * S) :=
  match actions with
  | [] => Ok (a, sh)
  | act :: rest =>
      r <- CW.update_hyperparameter a sh act ;;
      cw_updates (snd (fst r)) (snd r) rest
  end.

(** An action that is a scalar or an array, not a Python list. *)
Definition not_a_list (act : CW.action) : Prop :=
  match act with
  | CW.PyList _ => False
  | _ => True
  end.

(** The segmentation threshold lies within its configured bounds. *)
Definition threshold_in_range {NN : FG.Networks} (a : FG.agent) : Prop :=
  FG.min_threshold a <= FG.segmentation_threshold a
  /\ FG.segmentation_threshold a <= FG.max_threshold a.

(** A number between 0 and 1. *)
Definition unit_interval (x : Q) : Prop := 0 <= x /\ x <= 1.

(** A dictionary of refinements all of which are [None]. *)
Definition no_refinement (features : dict (option tensor)) : Prop :=
  Forall (fun kv => snd kv = None) features.

(** The features of one agent under their namespaced keys, and those of
    a list of agents one after the other. *)
Definition namespaced {V} (agent_name : string) (agent_features : dict V) : dict V :=
  map (fun kv => (Coord.feature_key agent_name (fst kv), snd kv)) agent_features.

Definition namespaced_items {V} (log : list (string * dict V)) : dict V :=
  flat_map (fun entry => namespaced (fst entry) (snd entry)) log.

(** [d[k] = v] for an item [(k, v)]. *)
Definition set_item {V} (d : dict V) (kv : string * V) : dict V :=
  dict_set d (fst kv) (snd kv).

(** What each agent's [observe] returned along the run of
    [process_observation], by agent name and in the order of the
    agents; [None] when an [observe] raised. *)
Fixpoint observed {W V : Type} (set_feature : string -> V -> W -> W)
         (agents : list (Coord.actor W V)) (observation : tensor) (w : W)
  : option (list (string * dict V)) :=
  match agents with
  | [] => Some []
  | a :: rest =>
      match Coord.observe a observation w with
      | (Raise _, _) => None
      | (Ok agent_features, w1) =>
          match observed set_feature rest observation
                         (snd (Coord.store_features set_feature (Coord.actor_name a)
                                                    agent_features [] w1)) with
          | Some log => Some ((Coord.actor_name a, agent_features) :: log)
          | None => None
          end
      end
  end.


(* ================================================================== *)
(** * Example data                                                     *)
(* ================================================================== *)

Module Examples.

(** Two agents: A with weight 2 deciding 1, B with weight 1 deciding 0. *)
Definition weights_AB : dict Q := [("A"%string, 2); ("B"%string, 1)].
Definition decisions_AB : dict tensor := [("A"%string, [1]); ("B"%string, [0])].

Definition coordinator_AB (mode : string) : Coord.coordinator :=
  {| Coord.agent_weights := weights_AB;
     Coord.agent_performance := [];
     Coord.conflict_resolution := mode |}.

(** A fresh coordinator (all weights 1.0) whose agent A averaged -1 and
    agent B averaged 100 over the last step. *)
Definition coordinator_uneven : Coord.coordinator :=
  {| Coord.agent_weights := [("A"%string, 1); ("B"%string, 1)];
     Coord.agent_performance := [("A"%string, [-1]); ("B"%string, [100])];
     Coord.conflict_resolution := "weighted_average" |}.

(** Modelled from the spec: the segmentation state manager, whose module
    is not among the sources.  It stores the current prediction, ground
    truth and segmentation and the step counter; each getter reads the
    field its setter writes. *)
Record simple_manager : Type := {
  sm_prediction : option tensor;
  sm_ground_truth : option tensor;
  sm_segmentation : option tensor;
  sm_step : Z
}.

#[export] Instance simple_state_manager : StateManager simple_manager := {
  get_current_prediction := sm_prediction;
  set_current_prediction t m :=
    {| sm_prediction := Some t; sm_ground_truth := sm_ground_truth m;
       sm_segmentation := sm_segmentation m; sm_step := sm_step m |};
  get_current_ground_truth := sm_ground_truth;
  update_segmentation t m :=
    {| sm_prediction := sm_prediction m; sm_ground_truth := sm_ground_truth m;
       sm_segmentation := Some t; sm_step := sm_step m |};
  get_current_step := sm_step
}.

(** A manager that holds no prediction yet. *)
Definition manager_without_prediction : simple_manager :=
  {| sm_prediction := None; sm_ground_truth := None;
     sm_segmentation := None; sm_step := 0 |}.

(** Networks without parameters whose policy output is constant, under
    a torch that loads with [weights_only=True] by default. *)
#[export] Instance constant_networks : FG.Networks := {
  FG.params := unit;
  FG.weights_only := true;
  FG.visual_features := fun _ _ => repeat 0 (64 * 8 * 8);
  FG.action_logits := fun _ _ _ _ _ => [0; 0; 0];
  FG.optimizer_step := fun _ _ _ _ _ _ _ _ => (tt, tt, tt)
}.

(** A freshly initialised agent ([_init_balance_components]) with the
    default [update_frequency] of 2. *)
Definition fresh_fg_agent : FG.agent :=
  {| FG.state_dim := 10;
     FG.feature_extractor := tt; FG.policy_network := tt; FG.optimizer := tt;
     FG.segmentation_threshold := 1 # 2;
     FG.min_threshold := 1 # 10; FG.max_threshold := 9 # 10;
     FG.threshold_step := 5 # 100;
     FG.target_fg_ratio := 1 # 2; FG.avg_fg_ratio := 1 # 2;
     FG.learning_rate := 3 # 10000; FG.gamma := 99 # 100;
     FG.update_frequency := 2; FG.last_update_step := 0;
     FG.action_history := []; FG.reward_history := [];
     FG.observation_history := []; FG.training := true |}.

Definition blank_observation : FG.observation :=
  {| FG.obs_current_image := [0; 0; 0; 0];
     FG.obs_current_mask := [0; 0; 0; 0];
     FG.obs_current_prediction := [0; 0; 0; 0];
     FG.obs_gt_fg_ratio := 0; FG.obs_pred_fg_ratio := 0;
     FG.obs_avg_fg_ratio := 45 # 100; FG.obs_target_fg_ratio := 0;
     FG.obs_segmentation_threshold := 1 # 2 |}.

(** [decide] under [constant_networks] in inference mode: uniform
    probabilities, arg-max 0, the threshold goes up by one step. *)
Definition raise_threshold (threshold : Q) : FG.action_record :=
  {| FG.act_segmentation_threshold := threshold;
     FG.action_type := 0;
     FG.action_probs := [1 # 3; 1 # 3; 1 # 3];
     FG.act_pred_fg_ratio := 0; FG.act_target_fg_ratio := 0 |}.

(** An agent that observed once, decided twice on that observation and
    was rewarded once, without a learning step so far. *)
Definition fg_agent_one_observation : FG.agent :=
  {| FG.state_dim := 10;
     FG.feature_extractor := tt; FG.policy_network := tt; FG.optimizer := tt;
     FG.segmentation_threshold := 6 # 10;
     FG.min_threshold := 1 # 10; FG.max_threshold := 9 # 10;
     FG.threshold_step := 5 # 100;
     FG.target_fg_ratio := 0; FG.avg_fg_ratio := 45 # 100;
     FG.learning_rate := 3 # 10000; FG.gamma := 99 # 100;
     FG.update_frequency := 2; FG.last_update_step := 0;
     FG.action_history := [raise_threshold (55 # 100); raise_threshold (6 # 10)];
     FG.reward_history := [1];
     FG.observation_history := [blank_observation];
     FG.training := false |}.

(** No file at any path. *)
Definition empty_filesystem : FG.filesystem := fun _ => None.

(** The same networks under a torch older than 2.6, which loads with the
    full unpickler, and the two agents above under it. *)
Definition legacy_networks : FG.Networks :=
  {| FG.params := unit;
     FG.weights_only := false;
     FG.visual_features := fun _ _ => repeat 0 (64 * 8 * 8);
     FG.action_logits := fun _ _ _ _ _ => [0; 0; 0];
     FG.optimizer_step := fun _ _ _ _ _ _ _ _ => (tt, tt, tt) |}.

(** Fields in the order of the record: [state_dim]; the three state
    dicts; threshold, its bounds and step; the two ratios; learning rate
    and discount; update frequency and last update step; the three
    histories; the training flag. *)
Definition legacy_fresh_agent : @FG.agent legacy_networks :=
  @FG.Build_agent legacy_networks 10 tt tt tt
                  (1 # 2) (1 # 10) (9 # 10) (5 # 100)
                  (1 # 2) (1 # 2)
                  (3 # 10000) (99 # 100)
                  2 0
                  [] [] []
                  true.

Definition legacy_agent_one_observation : @FG.agent legacy_networks :=
  @FG.Build_agent legacy_networks 10 tt tt tt
                  (6 # 10) (1 # 10) (9 # 10) (5 # 100)
                  0 (45 # 100)
                  (3 # 10000) (99 # 100)
                  2 0
                  [raise_threshold (55 # 100); raise_threshold (6 # 10)]
                  [1]
                  [blank_observation]
                  false.

(** An instance of [NumPy] to evaluate examples with: the power is
    exact on integer exponents (the exponent is floored); the
    logarithm and the deviation are not computed. *)
#[export] Instance integer_numpy : NumPy := {
  np_log10 := fun _ => 0;
  np_std := fun _ => 0;
  float_pow := fun b x => Qpower b (Qfloor x)
}.

(** Modelled from the spec: the shared state manager, whose module is
    not among the sources.  It stores the metric histories (most recent
    value last), the precomputed enhanced vector and overfitting
    signals, the epoch counters and the current hyperparameter values;
    [get_metric_history] returns at most the last [window_size] values
    and [set_hyperparameter] stores the value under its key. *)
Record shared_store : Type := {
  st_enhanced : list Q;
  st_signals : dict Q;
  st_metrics : dict (list Q);
  st_epoch : Z;
  st_total_epochs : option Z;
  st_hyperparameters : dict hyperparameter
}.

#[export] Instance shared_store_manager : SharedStateManager shared_store := {
  get_enhanced_state_vector s _ := st_enhanced s;
  get_overfitting_signals := st_signals;
  get_metric_history s metric window_size :=
    let history := dict_get_default (st_metrics s) metric [] in
    skipn (length history - window_size) history;
  get_latest_metric s metric :=
    match rev (dict_get_default (st_metrics s) metric []) with
    | [] => None
    | x :: _ => Some x
    end;
  get_current_epoch := st_epoch;
  total_epochs := st_total_epochs;
  set_hyperparameter key value s :=
    {| st_enhanced := st_enhanced s; st_signals := st_signals s;
       st_metrics := st_metrics s; st_epoch := st_epoch s;
       st_total_epochs := st_total_epochs s;
       st_hyperparameters := dict_set (st_hyperparameters s) key value |}
}.

(** Epoch 3 of 10, two losses on record, no enhanced features. *)
Definition store_epoch3 : shared_store :=
  {| st_enhanced := []; st_signals := [];
     st_metrics := [("loss"%string, [3 # 4; 1 # 2])];
     st_epoch := 3; st_total_epochs := Some 10%Z;
     st_hyperparameters := [] |}.

(** The default learning-rate agent, three epochs after its start. *)
Definition lr_agent : LR.agent :=
  {| LR.hyperparameter_key := "learning_rate";
     LR.state_dim := 20;
     LR.min_lr := 1 # 1000000; LR.max_lr := 1 # 10; LR.current_lr := 1 # 1000;
     LR.metrics_to_track := ["loss"; "val_loss"; "dice_score"]%string;
     LR.use_enhanced_state := true;
     LR.epochs_since_update := 3 |}.

(** The default class-weights agent: two classes of weight 1.0, kept in
    the dictionary it starts with. *)
Definition cw_agent : CW.agent :=
  {| CW.hyperparameter_key := "class_weights";
     CW.state_dim := 24;
     CW.min_weight := 1 # 2; CW.max_weight := 5;
     CW.num_classes := 2;
     CW.metrics_to_track := ["loss"; "val_loss"; "dice_score"; "class_dice"]%string;
     CW.use_enhanced_state := true;
     CW.current_class_weights := WeightsDict [(0%Z, 1); (1%Z, 1)];
     CW.epochs_since_update := 3 |}.

(** The same agent configured with [min_weight = max_weight = 1.0]. *)
Definition cw_agent_flat_range : CW.agent :=
  {| CW.hyperparameter_key := "class_weights";
     CW.state_dim := 24;
     CW.min_weight := 1; CW.max_weight := 1;
     CW.num_classes := 2;
     CW.metrics_to_track := ["loss"; "val_loss"; "dice_score"; "class_dice"]%string;
     CW.use_enhanced_state := true;
     CW.current_class_weights := WeightsDict [(0%Z, 1); (1%Z, 1)];
     CW.epochs_since_update := 3 |}.

(** The same two agents with B registered first: the order of
    [agent_weights] is not the order of the weights. *)
Definition coordinator_BA (mode : string) : Coord.coordinator :=
  {| Coord.agent_weights := [("B"%string, 1); ("A"%string, 2)];
     Coord.agent_performance := [];
     Coord.conflict_resolution := mode |}.

(** Three agents deciding 1, 1 and 0 on a single pixel. *)
Definition votes_110 : dict tensor :=
  [("A"%string, [1]); ("B"%string, [1]); ("C"%string, [0])].

(** Two agents whose [update] does nothing, in a world without state. *)
Definition learners_AB : list (Coord.learner unit unit) :=
  [ {| Coord.learner_name := "A"; Coord.update := fun _ _ w => (tt, w) |};
    {| Coord.learner_name := "B"; Coord.update := fun _ _ w => (tt, w) |} ].

(** A manager that holds a two-pixel prediction. *)
Definition manager_with_prediction : simple_manager :=
  {| sm_prediction := Some [3 # 4; 1 # 4]; sm_ground_truth := None;
     sm_segmentation := None; sm_step := 0 |}.

(** A softmax and a draw for the examples: uniform probabilities, and
    the first index. *)
Definition uniform_softmax (logits : list Q) : list Q :=
  map (fun _ => 1 / len_Q logits) logits.
Definition draw_first (training : bool) (probs : list Q) : nat := 0.

(** Two agents over a world without state: each observes a fixed
    dictionary of numbers and decides the image itself. *)
Definition actor_A : Coord.actor unit Q :=
  {| Coord.actor_name := "A";
     Coord.observe := fun _ w => (Ok [("x"%string, 1); ("y"%string, 2)], w);
     Coord.decide := fun _ w => (Ok [1], w) |}.

Definition actor_B : Coord.actor unit Q :=
  {| Coord.actor_name := "B";
     Coord.observe := fun _ w => (Ok [("x"%string, 3)], w);
     Coord.decide := fun _ w => (Ok [0], w) |}.

(*END-EXAMPLES*)
End Examples.
Import Examples.

(* ================================================================== *)
(** * Properties                                                       *)
(* ================================================================== *)

(** ** Arithmetic and list helpers *)

Lemma Qlt_bool_iff (x y : Q) : Qlt_bool x y = true <-> x < y.
Proof.
  unfold Qlt_bool. rewrite negb_true_iff.
  split; intro H.
  - apply Qnot_le_lt. intro Hle. apply Qle_bool_iff in Hle. congruence.
  - destruct (Qle_bool y x) eqn:E; [|reflexivity].
    apply Qle_bool_iff in E. lra.
Qed.

Lemma Qlt_bool_false_iff (x y : Q) : Qlt_bool x y = false <-> y <= x.
Proof.
  unfold Qlt_bool. rewrite negb_false_iff. apply Qle_bool_iff.
Qed.

Ltac case_lt x y :=
  let E := fresh "E" in
  destruct (Qlt_bool x y) eqn:E;
  [apply Qlt_bool_iff in E | apply Qlt_bool_false_iff in E].

Lemma py_max_floor (a b : Q) : a <= py_max a b.
Proof. unfold py_max. case_lt a b; lra. Qed.

Lemma nth_map_lt {A B} (f : A -> B) (l : list A) (j : nat) (d : B) (d' : A) :
  (j < length l)%nat -> nth j (map f l) d = f (nth j l d').
Proof.
  intro H. rewrite (nth_indep (map f l) d (f d')).
  - apply map_nth.
  - now rewrite length_map.
Qed.

Lemma len_Q_pos {A} (l : list A) : l <> [] -> 0 < len_Q l.
Proof.
  destruct l as [|a l]; [congruence|]. intros _.
  unfold len_Q. change 0 with (inject_Z 0). rewrite <- Zlt_Qlt.
  simpl length. lia.
Qed.

(** ** Dictionaries *)

Lemma dict_get_set_same {V} (d : dict V) k v : dict_get (dict_set d k v) k = Some v.
Proof.
  induction d as [|[k' v'] d IH]; simpl.
  - now rewrite String.eqb_refl.
  - destruct (String.eqb k k') eqn:E; simpl; rewrite E; [reflexivity|exact IH].
Qed.

Lemma dict_get_set_other {V} (d : dict V) k k' v :
  k <> k' -> dict_get (dict_set d k v) k' = dict_get d k'.
Proof.
  intro Hne. induction d as [|[k0 v0] d IH]; simpl.
  - destruct (String.eqb k' k) eqn:E; [|reflexivity].
    apply String.eqb_eq in E. congruence.
  - destruct (String.eqb k k0) eqn:E; simpl.
    + apply String.eqb_eq in E. subst k0.
      destruct (String.eqb k' k) eqn:E'; [|reflexivity].
      apply String.eqb_eq in E'. congruence.
    + now rewrite IH.
Qed.

Lemma dict_set_values_in {V} (d : dict V) k v k0 v0 :
  In (k0, v0) (dict_set d k v) -> In (k0, v0) d \/ v0 = v.
Proof.
  induction d as [|[k' v'] d IH]; simpl.
  - intros [H|[]]. inversion H. now right.
  - destruct (String.eqb k k'); simpl.
    + intros [H|H]; [inversion H; now right | left; now right].
    + intros [H|H]; [left; now left|].
      destruct (IH H) as [H'|H']; [left; now right | now right].
Qed.

Lemma dict_get_map_values {V V'} (f : V -> V') (d : dict V) k :
  dict_get (map (fun kv => (fst kv, f (snd kv))) d) k = option_map f (dict_get d k).
Proof.
  induction d as [|[k' v'] d IH]; simpl; [reflexivity|].
  destruct (String.eqb k k'); [reflexivity | exact IH].
Qed.

(** ** Conflict resolution: weighted average *)

Section WeightedAverage.

Variable weights : dict Q.
Variable n : nat.

Let W (ds : dict tensor) : Q :=
  np_sum (map (fun nd => spec_weight_of weights (fst nd)) ds).
Let S (ds : dict tensor) (j : nat) : Q :=
  np_sum (map (fun nd => spec_weight_of weights (fst nd) * nth j (snd nd) 0) ds).

Lemma add_inplace_same_shape (acc t : tensor) :
  length acc = n -> length t = n ->
  exists r, add_inplace acc t = Ok r /\ length r = n /\
            forall j, (j < n)%nat -> nth j r 0 = nth j acc 0 + nth j t 0.
Proof.
  intros Ha Ht. unfold add_inplace. rewrite Ha, Ht, Nat.eqb_refl.
  eexists. split; [reflexivity|]. split.
  - rewrite length_map, length_combine. lia.
  - intros j Hj.
    rewrite (nth_map_lt _ _ 0 (0, 0)) by (rewrite length_combine; lia).
    rewrite combine_nth by lia. reflexivity.
Qed.

(** The loop, started on an accumulator of the common shape, ends with
    the accumulated weighted sum and the accumulated weight. *)
Lemma weighted_loop_spec (ds : dict tensor) :
  (forall nd, In nd ds -> length (snd nd) = n) ->
  forall (c : tensor) (tot : Q), length c = n ->
  exists c' tot',
    Coord.weighted_loop weights ds (Some c) tot = Ok (Some c', tot')
    /\ length c' = n
    /\ tot' == tot + W ds
    /\ forall j, (j < n)%nat -> nth j c' 0 == nth j c 0 + S ds j.
Proof.
  induction ds as [|[name d] ds IH]; intros Hshape c tot Hc.
  - exists c, tot. repeat split; auto.
    + unfold W. simpl. lra.
    + intros j _. unfold S. simpl. lra.
  - simpl.
    assert (Hdn : length d = n) by (apply (Hshape (name, d)); now left).
    assert (Hd : length (scale (dict_get_default weights name 1) d) = n)
      by (unfold scale; now rewrite length_map).
    destruct (add_inplace_same_shape c _ Hc Hd) as (r & Hr & Hlen & Hnth).
    rewrite Hr. simpl.
    destruct (IH (fun nd H => Hshape nd (or_intror H)) r
                 (tot + dict_get_default weights name 1) Hlen)
      as (c' & tot' & Hloop & Hlen' & Htot & Hsum).
    exists c', tot'. repeat split; auto.
    + rewrite Htot. unfold W, spec_weight_of. simpl. lra.
    + intros j Hj. rewrite (Hsum j Hj), (Hnth j Hj).
      unfold scale. rewrite (nth_map_lt _ _ 0 0) by lia.
      unfold S, spec_weight_of. simpl. lra.
Qed.

Lemma weighted_loop_keeps_some (ds : dict tensor) :
  forall c tot r, Coord.weighted_loop weights ds (Some c) tot = Ok r -> fst r <> None.
Proof.
  induction ds as [|[name d] ds IH]; intros c tot r; simpl.
  - intro H. inversion H. simpl. discriminate.
  - destruct (add_inplace c _) as [c'|e]; simpl; [|discriminate].
    apply IH.
Qed.

(** Whatever the shapes and the weights, the weighted average is [None]
    only for an empty set of decisions. *)
Lemma weighted_average_none_only_if_empty (ds : dict tensor) :
  Coord.resolve_weighted_average weights ds = Ok None -> ds = [].
Proof.
  destruct ds as [|[name d] ds]; [reflexivity|].
  unfold Coord.resolve_weighted_average. simpl Coord.weighted_loop.
  destruct (Coord.weighted_loop weights ds _ _) as [[combined total]|e] eqn:E;
    simpl; [|discriminate].
  apply weighted_loop_keeps_some in E. simpl in E.
  destruct combined as [c|]; [|congruence].
  destruct (Qlt_bool 0 total); discriminate.
Qed.

End WeightedAverage.

(** C4.  With [conflict_resolution = "weighted_average"], for decisions of
    one shape taken under positive agent weights, [_resolve_conflicts]
    returns the elementwise weighted mean of the decisions under the
    current [agent_weights], and it returns [None] exactly when there is
    no decision at all. *)
Theorem weighted_average_resolution
        (c : Coord.coordinator) (current_image : option tensor)
        (decisions : dict tensor) (n : nat) :
  Coord.conflict_resolution c = "weighted_average"%string ->
  (forall nd, In nd decisions -> length (snd nd) = n) ->
  (forall nd, In nd decisions -> 0 < spec_weight_of (Coord.agent_weights c) (fst nd)) ->
  (Coord._resolve_conflicts c current_image decisions = Ok None <-> decisions = [])
  /\ (decisions <> [] ->
      exists r,
        Coord._resolve_conflicts c current_image decisions = Ok (Some r)
        /\ length r = n
        /\ forall j, (j < n)%nat ->
                     nth j r 0 == spec_weighted_mean (Coord.agent_weights c) decisions j).
Proof.
  intros Hmode Hshape Hpos.
  unfold Coord._resolve_conflicts. rewrite Hmode. simpl String.eqb. cbv iota.
  destruct decisions as [|[name d] ds].
  - split; [split; reflexivity | congruence].
  - assert (Main : exists r,
               Coord.resolve_weighted_average (Coord.agent_weights c) ((name, d) :: ds)
               = Ok (Some r)
               /\ length r = n
               /\ forall j, (j < n)%nat ->
                    nth j r 0 == spec_weighted_mean (Coord.agent_weights c) ((name, d) :: ds) j).
    { set (ws := Coord.agent_weights c) in *.
      assert (Hdn : length d = n) by (apply (Hshape (name, d)); now left).
      assert (Hw : 0 < dict_get_default ws name 1) by (apply (Hpos (name, d)); now left).
      assert (HW : 0 <= np_sum (map (fun nd => spec_weight_of ws (fst nd)) ds)).
      { clear - Hpos. induction ds as [|nd ds IH]; simpl; [lra|].
        assert (0 < spec_weight_of ws (fst nd)) by (apply Hpos; right; now left).
        assert (0 <= np_sum (map (fun nd => spec_weight_of ws (fst nd)) ds)).
        { apply IH. intros nd' [H'|H']; apply Hpos; [now left | right; now right]. }
        lra. }
      unfold Coord.resolve_weighted_average. simpl Coord.weighted_loop.
      destruct (@weighted_loop_spec ws n ds (fun nd H => Hshape nd (or_intror H))
                  (scale (dict_get_default ws name 1) d) (0 + dict_get_default ws name 1))
        as (c' & tot' & Hloop & Hlen & Htot & Hsum).
      { unfold scale. now rewrite length_map. }
      rewrite Hloop. simpl.
      assert (Hlt : Qlt_bool 0 tot' = true) by (apply Qlt_bool_iff; lra).
      rewrite Hlt. simpl.
      eexists. split; [reflexivity|]. split.
      - unfold div_scalar. now rewrite length_map.
      - intros j Hj. unfold div_scalar.
        rewrite (nth_map_lt _ _ 0 0) by lia.
        unfold np_div. rewrite (Hsum j Hj), Htot.
        unfold scale. rewrite (nth_map_lt _ _ 0 0) by lia.
        unfold spec_weighted_mean, spec_weight_of. simpl.
        apply Qdiv_comp; lra. }
    split.
    + split; [|discriminate].
      destruct Main as (r & Hr & _). rewrite Hr. discriminate.
    + intros _. exact Main.
Qed.

(** Agents A (weight 2, decision 1) and B (weight 1, decision 0) combine
    to 2/3. *)
Lemma weighted_average_resolution_witness :
  exists r,
    Coord._resolve_conflicts
      (coordinator_AB "weighted_average") None decisions_AB
    = Ok (Some r)
    /\ nth 0 r 0 == 2 # 3.
Proof.
  destruct (@weighted_average_resolution
              (coordinator_AB "weighted_average")
              None decisions_AB 1%nat eq_refl) as [_ H].
  - intros nd [<-|[<-|[]]]; reflexivity.
  - intros nd [<-|[<-|[]]]; reflexivity.
  - destruct (H ltac:(discriminate)) as (r & Hr & _ & Hnth).
    exists r. split; [exact Hr|].
    rewrite (Hnth 0%nat (Nat.lt_0_succ 0)). reflexivity.
Defined.

(** ** Conflict resolution: unrecognised mode, voting on no decision *)

(** On a non-empty set of decisions, a [conflict_resolution] that is
    none of the three recognised modes returns the decision of the first
    agent, and does not raise. *)
Lemma unrecognised_mode_first_decision
      (c : Coord.coordinator) (current_image : option tensor)
      (agent_name : string) (d : tensor) (rest : dict tensor) :
  Coord.conflict_resolution c <> "weighted_average"%string ->
  Coord.conflict_resolution c <> "priority"%string ->
  Coord.conflict_resolution c <> "voting"%string ->
  Coord._resolve_conflicts c current_image ((agent_name, d) :: rest) = Ok (Some d).
Proof.
  intros H1 H2 H3. unfold Coord._resolve_conflicts.
  apply String.eqb_neq in H1, H2, H3. rewrite H1, H2, H3.
  reflexivity.
Qed.

(** On the empty set of decisions an unrecognised mode raises. *)
Lemma unrecognised_mode_no_decision
      (c : Coord.coordinator) (current_image : option tensor) :
  Coord.conflict_resolution c <> "weighted_average"%string ->
  Coord.conflict_resolution c <> "priority"%string ->
  Coord.conflict_resolution c <> "voting"%string ->
  Coord._resolve_conflicts c current_image [] = Raise StopIteration.
Proof.
  intros H1 H2 H3. unfold Coord._resolve_conflicts.
  apply String.eqb_neq in H1, H2, H3. rewrite H1, H2, H3.
  reflexivity.
Qed.

(** C9, on the code.  A coordinator built with no agents and the mode
    ["median"] has no decision to resolve: the fallback of
    [_resolve_conflicts] raises [StopIteration] there instead of
    returning, and so does [act]; on the same empty set the sibling
    branches return, [voting] a zero tensor of the image's shape and
    [weighted_average] [None]. *)
Theorem unrecognised_mode_empty_raises :
  Coord._resolve_conflicts (Coord.init [] "median") (Some [0; 0]) []
  = Raise StopIteration
  /\ (~ exists d,
         Coord._resolve_conflicts (Coord.init [] "median") (Some [0; 0]) [] = Ok d)
  /\ fst (Coord.act (V := Q) (fun _ w => w) (fun _ _ w => w) (fun _ => Some [0; 0])
                    (fun w => w) (Coord.init [] "median") [] [0; 0]
                    manager_without_prediction)
     = Raise StopIteration
  /\ Coord._resolve_conflicts (Coord.init [] "voting") (Some [0; 0]) []
     = Ok (Some [0; 0])
  /\ Coord._resolve_conflicts (Coord.init [] "weighted_average") (Some [0; 0]) []
     = Ok None.
Proof.
  split; [reflexivity|]. split; [intros [d H]; discriminate H|].
  repeat split.
Qed.

(** C10.  Voting on an empty set of decisions returns a zero tensor of the
    shape of the state manager's current image, where the weighted
    average returns [None]. *)
Theorem voting_empty_returns_zeros
        (weights : dict Q) (performance : dict (list Q)) (img : tensor) :
  let voting := {| Coord.agent_weights := weights;
                   Coord.agent_performance := performance;
                   Coord.conflict_resolution := "voting" |} in
  let averaging := {| Coord.agent_weights := weights;
                      Coord.agent_performance := performance;
                      Coord.conflict_resolution := "weighted_average" |} in
  Coord._resolve_conflicts voting (Some img) [] = Ok (Some (zeros_like img))
  /\ length (zeros_like img) = length img
  /\ Forall (fun x => x = 0) (zeros_like img)
  /\ Coord._resolve_conflicts averaging (Some img) [] = Ok None.
Proof.
  cbv zeta. repeat split.
  - unfold zeros_like. apply length_map.
  - unfold zeros_like. induction img; simpl; constructor; auto.
Qed.

(** ** Agent weights *)

Section AgentWeights.

Variable window : Z.

Lemma reweigh_cons (name : string) (rewards : list Q) perf ws :
  Coord.reweigh window ((name, rewards) :: perf) ws
  = Coord.reweigh window perf
      (if (window <=? Z.of_nat (length rewards))%Z
       then dict_set ws name (py_max (1 # 10) (np_mean (slice_from (- window) rewards)))
       else ws).
Proof. reflexivity. Qed.

Lemma reweigh_positive perf :
  forall ws, all_positive ws -> all_positive (Coord.reweigh window perf ws).
Proof.
  induction perf as [|[name rewards] perf IH]; intros ws Hws; [exact Hws|].
  rewrite reweigh_cons. apply IH.
  destruct (window <=? Z.of_nat (length rewards))%Z; [|exact Hws].
  intros k v Hin. apply dict_set_values_in in Hin. destruct Hin as [Hin| ->].
  - exact (Hws k v Hin).
  - pose proof (py_max_floor (1 # 10) (np_mean (slice_from (- window) rewards))). lra.
Qed.

Lemma reweigh_untouched perf name :
  ~ In name (dict_keys perf) ->
  forall ws, dict_get (Coord.reweigh window perf ws) name = dict_get ws name.
Proof.
  induction perf as [|[k rewards] perf IH]; intros Hnot ws; [reflexivity|].
  rewrite reweigh_cons. simpl in Hnot.
  rewrite IH by tauto.
  destruct (window <=? Z.of_nat (length rewards))%Z; [|reflexivity].
  apply dict_get_set_other. tauto.
Qed.

Lemma reweigh_get perf name rewards :
  NoDup (dict_keys perf) ->
  In (name, rewards) perf ->
  (window <= Z.of_nat (length rewards))%Z ->
  forall ws,
    dict_get (Coord.reweigh window perf ws) name
    = Some (py_max (1 # 10) (np_mean (slice_from (- window) rewards))).
Proof.
  induction perf as [|[k rs] perf IH]; intros Hnd Hin Hwin ws; [destruct Hin|].
  simpl in Hnd. inversion Hnd as [|? ? Hk Hnd']; subst.
  rewrite reweigh_cons. destruct Hin as [Heq|Hin].
  - inversion Heq; subst.
    rewrite reweigh_untouched by exact Hk.
    apply Z.leb_le in Hwin. rewrite Hwin. apply dict_get_set_same.
  - now apply IH.
Qed.

Lemma np_sum_scaled (ws : dict Q) (t m : Q) :
  np_sum (dict_values (map (fun kv => (fst kv, np_div (snd kv) t * m)) ws))
  == np_sum (dict_values ws) / t * m.
Proof.
  unfold np_div, dict_values, np_sum.
  induction ws as [|[k v] ws IH]; cbn [map fold_right fst snd].
  - unfold Qdiv. ring.
  - rewrite IH. unfold Qdiv. ring.
Qed.

Lemma np_sum_positive (ws : dict Q) :
  all_positive ws -> ws <> [] -> 0 < np_sum (dict_values ws).
Proof.
  induction ws as [|[k v] ws IH]; intros Hpos Hne; [congruence|].
  simpl. assert (0 < v) by (apply (Hpos k v); now left).
  destruct ws as [|kv ws'].
  - simpl. lra.
  - assert (0 < np_sum (dict_values (kv :: ws'))).
    { apply IH; [|discriminate]. intros k' v' H'. apply (Hpos k' v'). now right. }
    simpl in *. lra.
Qed.

Lemma scaled_positive (v t m : Q) : 0 < v -> 0 < t -> 0 < m -> 0 < np_div v t * m.
Proof.
  intros Hv Ht Hm. unfold np_div, Qdiv.
  apply Qmult_lt_0_compat; [|exact Hm].
  apply Qmult_lt_0_compat; [exact Hv|]. now apply Qinv_lt_0_compat.
Qed.

Lemma normalize_positive (ws : dict Q) :
  all_positive ws -> all_positive (Coord.normalize ws).
Proof.
  intros Hpos. unfold Coord.normalize.
  case_lt 0 (np_sum (dict_values ws)); [|exact Hpos].
  intros k v Hin. apply in_map_iff in Hin. destruct Hin as ([k0 v0] & Heq & Hin).
  inversion Heq; subst. simpl.
  apply scaled_positive; [exact (Hpos _ _ Hin) | exact E |].
  apply len_Q_pos. intro; subst; destruct Hin.
Qed.

Lemma normalize_sum (ws : dict Q) :
  all_positive ws ->
  np_sum (dict_values (Coord.normalize ws)) == len_Q (Coord.normalize ws).
Proof.
  intros Hpos. unfold Coord.normalize.
  destruct ws as [|kv ws']; [reflexivity|].
  assert (Ht : 0 < np_sum (dict_values (kv :: ws')))
    by (apply np_sum_positive; [exact Hpos | discriminate]).
  apply Qlt_bool_iff in Ht as Hb. rewrite Hb.
  rewrite np_sum_scaled.
  unfold len_Q at 2. rewrite length_map. fold (len_Q (kv :: ws')).
  field. lra.
Qed.

Lemma normalize_get (ws : dict Q) name v :
  0 < np_sum (dict_values ws) ->
  dict_get ws name = Some v ->
  dict_get (Coord.normalize ws) name
  = Some (np_div v (np_sum (dict_values ws)) * len_Q ws).
Proof.
  intros Ht Hget. unfold Coord.normalize.
  apply Qlt_bool_iff in Ht. rewrite Ht.
  rewrite (dict_get_map_values
             (fun v => np_div v (np_sum (dict_values ws)) * len_Q ws) ws name), Hget.
  reflexivity.
Qed.

End AgentWeights.

(** C5 (as amended).  After [_update_agent_weights(window)] on a
    coordinator whose weights are positive, every agent with at least
    [window] recorded rewards had its weight set to
    [max(0.1, mean of the last window rewards)], which is at least 0.1,
    before the renormalisation, and holds that value divided by the total
    and multiplied by the number of agents afterwards, a positive weight;
    all weights are positive, and they sum to the number of agents. *)
Theorem update_agent_weights_floor_then_sum (window : Z) (c : Coord.coordinator) :
  all_positive (Coord.agent_weights c) ->
  NoDup (dict_keys (Coord.agent_performance c)) ->
  let floored := Coord.reweigh window (Coord.agent_performance c) (Coord.agent_weights c) in
  let total := np_sum (dict_values floored) in
  let c' := Coord._update_agent_weights window c in
  (forall agent_name rewards,
      In (agent_name, rewards) (Coord.agent_performance c) ->
      (window <= Z.of_nat (length rewards))%Z ->
      exists v,
        v = py_max (1 # 10) (np_mean (slice_from (- window) rewards))
        /\ dict_get floored agent_name = Some v
        /\ 1 # 10 <= v
        /\ dict_get (Coord.agent_weights c') agent_name
           = Some (np_div v total * len_Q floored)
        /\ 0 < np_div v total * len_Q floored)
  /\ all_positive (Coord.agent_weights c')
  /\ np_sum (dict_values (Coord.agent_weights c')) == len_Q (Coord.agent_weights c').
Proof.
  intros Hpos Hnd floored total c'.
  assert (Hfl : all_positive floored) by (now apply reweigh_positive).
  split; [|split].
  - intros agent_name rewards Hin Hwin.
    eexists. split; [reflexivity|].
    assert (Hget : dict_get floored agent_name
                   = Some (py_max (1 # 10) (np_mean (slice_from (- window) rewards))))
      by (now apply reweigh_get).
    assert (Hne : floored <> []).
    { intro Hnil. rewrite Hnil in Hget. discriminate. }
    assert (Ht : 0 < total) by (now apply np_sum_positive).
    split; [exact Hget|]. split; [apply py_max_floor|]. split.
    + unfold c'. simpl. now apply normalize_get.
    + apply scaled_positive; [|exact Ht|now apply len_Q_pos].
      pose proof (py_max_floor (1 # 10) (np_mean (slice_from (- window) rewards))). lra.
  - unfold c'. simpl. now apply normalize_positive.
  - unfold c'. simpl. now apply normalize_sum.
Qed.

Lemma update_agent_weights_floor_then_sum_witness :
  np_sum (dict_values (Coord.agent_weights (Coord._update_agent_weights 1 coordinator_uneven)))
  == 2.
Proof.
  refine (proj2 (proj2 (@update_agent_weights_floor_then_sum 1 coordinator_uneven _ _))).
  - intros k v [H|[H|[]]]; inversion H; reflexivity.
  - repeat constructor; simpl; intuition discriminate.
Defined.

(** C5, as stated, fails: agent A has one reward (mean -1) for a window of
    one, and its weight after the call is below 0.1. *)
Lemma floor_lost_by_renormalization :
  exists rewards v,
    dict_get (Coord.agent_performance coordinator_uneven) "A" = Some rewards
    /\ (1 <= Z.of_nat (length rewards))%Z
    /\ dict_get (Coord.agent_weights (Coord._update_agent_weights 1 coordinator_uneven)) "A"
       = Some v
    /\ v < 1 # 10.
Proof.
  eexists. eexists.
  split; [reflexivity|]. split; [simpl; lia|]. split; [reflexivity|].
  vm_compute. reflexivity.
Qed.

(** ** refine_segmentation: the fallback to the initial predictions *)

Section RefineFallback.

Context {W : Type} {SM : StateManager W}.

Lemma dict_set_no_refinement (features : dict (option tensor)) k :
  no_refinement features -> no_refinement (dict_set features k None).
Proof.
  unfold no_refinement.
  induction features as [|[k' v'] features IH]; intro H; simpl.
  - repeat constructor.
  - inversion H; subst. destruct (String.eqb k k'); constructor; auto.
Qed.

Lemma collect_no_refinement (agents : list (Coord.agent W)) (obs : Coord.observation) :
  forall features w,
    no_refinement features ->
    all_yield_none agents obs w ->
    exists features' w',
      Coord.collect_refinements agents obs features w = (Ok features', w')
      /\ no_refinement features'.
Proof.
  induction agents as [|a agents IH]; intros features w Hf Hall; simpl.
  - now exists features, w.
  - destruct Hall as [Hnone Hrest].
    destruct (Coord.agent_refinement a obs w) as [r w1]. simpl in Hnone, Hrest.
    subst r. apply IH; [|exact Hrest].
    now apply dict_set_no_refinement.
Qed.

Lemma combine_no_refinement (weights : dict Q) (features : dict (option tensor)) :
  no_refinement features ->
  forall combined total,
    Coord.combine_refinements weights features combined total = Ok (combined, total).
Proof.
  induction features as [|[k v] features IH]; intros H combined total; simpl.
  - reflexivity.
  - inversion H as [|? ? Hv Hrest]; subst. simpl in Hv. subst v. now apply IH.
Qed.

End RefineFallback.

(** C7.  If every agent's [apply_action] yields no refinement, and in
    particular if the coordinator has no agent, [refine_segmentation]
    returns [initial_preds] itself, and it does not raise. *)
Theorem refine_segmentation_falls_back
        {W : Type} {SM : StateManager W}
        (c : Coord.coordinator) (agents : list (Coord.agent W))
        (initial_preds : tensor) (w : W) :
  let w0 := update_segmentation initial_preds w in
  let obs := {| Coord.current_segmentation := initial_preds;
                Coord.ground_truth := get_current_ground_truth w0 |} in
  all_yield_none agents obs w0 ->
  fst (Coord.refine_segmentation c agents initial_preds w) = Ok initial_preds.
Proof.
  intros w0 obs Hall. unfold Coord.refine_segmentation. fold w0. fold obs.
  destruct (collect_no_refinement agents obs (features := []) w0 (Forall_nil _) Hall)
    as (features & w1 & Hcollect & Hnone).
  rewrite Hcollect.
  destruct features as [|kv features]; [reflexivity|].
  rewrite (combine_no_refinement _ Hnone). reflexivity.
Qed.

(** An [FGBalanceAgent] under a state manager that holds no prediction
    yields no refinement, and the input comes back. *)
Lemma refine_segmentation_falls_back_witness :
  fst (Coord.refine_segmentation (coordinator_AB "weighted_average")
                                 [fg_agent (fun _ => 1)] [1; 0; 1]
                                 (fresh_fg_agent, manager_without_prediction))
  = Ok [1; 0; 1].
Proof.
  apply (@refine_segmentation_falls_back _ fg_world
           (coordinator_AB "weighted_average") [fg_agent (fun _ => 1)] [1; 0; 1]
           (fresh_fg_agent, manager_without_prediction)).
  simpl. split; [reflexivity | exact I].
Defined.

(** ** FGBalanceAgent.learn *)

Section Learn.

Context {NN : FG.Networks}.

Lemma last_of_app {A} (l : list A) (x : A) : FG.last_of (l ++ [x]) = Ok x.
Proof. unfold FG.last_of. now rewrite rev_unit. Qed.

(** Whatever path [learn] takes, the reward has been recorded. *)
Lemma learn_records_reward (a : FG.agent) (current_step : Z) (reward : Q) :
  FG.reward_history (snd (FG.learn a current_step reward))
  = FG.reward_history a ++ [reward].
Proof.
  unfold FG.learn.
  destruct (_ - _ <? _)%Z; [reflexivity|].
  destruct (_ || _); [reflexivity|].
  destruct (FG.last_of (FG.observation_history _)); [|reflexivity].
  destruct (FG.last_of (FG.action_history _)); [|reflexivity].
  destruct (nth_error _ _); [|reflexivity].
  destruct (FG.optimizer_step _ _ _ _ _ _ _ _) as [[fe pn] opt]. reflexivity.
Qed.

(** The loss [learn] reports is the selected output of the policy
    network times the reward, negated. *)
Lemma learn_reported_loss (a : FG.agent) (current_step : Z) (reward : Q) m a' :
  FG.learn a current_step reward = (Ok (Some m), a') ->
  exists obs action logit,
    FG.last_of (FG.observation_history a) = Ok obs
    /\ FG.last_of (FG.action_history a) = Ok action
    /\ nth_error (FG.action_logits (FG.feature_extractor a) (FG.policy_network a)
                                   (FG.obs_current_image obs)
                                   (FG.obs_pred_fg_ratio obs)
                                   (FG.obs_target_fg_ratio obs))
                 (FG.action_type action) = Some logit
    /\ FG.policy_loss m = - logit * reward.
Proof.
  unfold FG.learn.
  destruct (_ - _ <? _)%Z; [discriminate|].
  destruct (_ || _); [discriminate|].
  cbn [FG.observation_history FG.action_history FG.set_last_update_step
       FG.set_schedule FG.set_reward_history FG.set_histories
       FG.feature_extractor FG.policy_network FG.optimizer].
  destruct (FG.last_of (FG.observation_history a)) as [obs|]; [|discriminate].
  destruct (FG.last_of (FG.action_history a)) as [action|]; [|discriminate].
  destruct (nth_error _ _) as [logit|] eqn:El; [|discriminate].
  destruct (FG.optimizer_step _ _ _ _ _ _ _ _) as [[fe pn] opt].
  intro H. inversion H; subst. exists obs, action, logit. auto.
Qed.

End Learn.

(** C6 (as amended).  [learn(reward)] always appends the reward to
    [reward_history].  It returns [{}] and changes nothing else when fewer
    than [update_frequency] steps have elapsed since [last_update_step];
    past that gate it sets [last_update_step] to the current step and
    returns [{}] when fewer than two actions, or fewer than two rewards
    with the new one, are recorded; otherwise, given a stored observation,
    it runs one optimizer step on the most recent stored observation and
    action with this reward and returns the metrics of that step. *)
Theorem learn_gates_then_updates
        {NN : FG.Networks} (a : FG.agent) (current_step : Z) (reward : Q) :
  let recorded := FG.set_reward_history (FG.reward_history a ++ [reward]) a in
  let stepped := FG.set_last_update_step current_step recorded in
  FG.reward_history (snd (FG.learn a current_step reward)) = FG.reward_history a ++ [reward]
  /\ ((current_step - FG.last_update_step a < FG.update_frequency a)%Z ->
      FG.learn a current_step reward = (Ok None, recorded))
  /\ ((FG.update_frequency a <= current_step - FG.last_update_step a)%Z ->
      (length (FG.action_history a) < 2)%nat \/ FG.reward_history a = [] ->
      FG.learn a current_step reward = (Ok None, stepped))
  /\ ((FG.update_frequency a <= current_step - FG.last_update_step a)%Z ->
      forall earlier_actions action earlier_observations obs logit,
        FG.action_history a = earlier_actions ++ [action] ->
        earlier_actions <> [] ->
        FG.reward_history a <> [] ->
        FG.observation_history a = earlier_observations ++ [obs] ->
        nth_error (FG.action_logits (FG.feature_extractor a) (FG.policy_network a)
                                    (FG.obs_current_image obs)
                                    (FG.obs_pred_fg_ratio obs)
                                    (FG.obs_target_fg_ratio obs))
                  (FG.action_type action) = Some logit ->
        let new_networks :=
          FG.optimizer_step (FG.feature_extractor a) (FG.policy_network a) (FG.optimizer a)
                            (FG.obs_current_image obs) (FG.obs_pred_fg_ratio obs)
                            (FG.obs_target_fg_ratio obs) (FG.action_type action) reward in
        exists m,
          FG.learn a current_step reward
          = (Ok (Some m),
             FG.set_networks (fst (fst new_networks)) (snd (fst new_networks))
                             (snd new_networks) stepped)
          /\ FG.m_reward m = reward
          /\ FG.m_pred_fg_ratio m = FG.obs_pred_fg_ratio obs
          /\ FG.m_target_fg_ratio m = FG.obs_target_fg_ratio obs).
Proof.
  intros recorded stepped. split; [apply learn_records_reward|].
  split; [|split].
  - intro Hgate. unfold FG.learn. fold recorded.
    apply Z.ltb_lt in Hgate. cbn [FG.last_update_step FG.update_frequency recorded
      FG.set_reward_history FG.set_histories]. now rewrite Hgate.
  - intros Hgate Hfew. unfold FG.learn. fold recorded.
    apply Z.ltb_ge in Hgate.
    cbn [FG.last_update_step FG.update_frequency recorded
         FG.set_reward_history FG.set_histories]. rewrite Hgate.
    fold recorded. fold stepped.
    cbn [stepped recorded FG.action_history FG.reward_history FG.set_last_update_step
         FG.set_schedule FG.set_reward_history FG.set_histories].
    replace ((length (FG.action_history a) <? 2)%nat
             || (length (FG.reward_history a ++ [reward]) <? 2)%nat) with true;
      [reflexivity|].
    symmetry. apply orb_true_iff. destruct Hfew as [H|H].
    + left. now apply Nat.ltb_lt.
    + right. rewrite H. reflexivity.
  - intros Hgate acts action obss obs logit Hacts Hne Hrew Hobs Hlogit new_networks.
    unfold FG.learn. fold recorded.
    apply Z.ltb_ge in Hgate.
    cbn [FG.last_update_step FG.update_frequency recorded
         FG.set_reward_history FG.set_histories]. rewrite Hgate.
    fold recorded. fold stepped.
    cbn [stepped recorded FG.action_history FG.reward_history FG.observation_history
         FG.feature_extractor FG.policy_network FG.optimizer
         FG.set_last_update_step FG.set_schedule FG.set_reward_history FG.set_histories].
    replace ((length (FG.action_history a) <? 2)%nat
             || (length (FG.reward_history a ++ [reward]) <? 2)%nat) with false.
    + rewrite Hobs, Hacts, !last_of_app, Hlogit.
      fold new_networks. destruct new_networks as [[fe pn] opt].
      eexists. split; [reflexivity|]. auto.
    + symmetry. apply orb_false_iff. split; apply Nat.ltb_ge.
      * rewrite Hacts, length_app. simpl.
        destruct acts; [congruence | simpl; lia].
      * rewrite length_app. simpl.
        destruct (FG.reward_history a); [congruence | simpl; lia].
Qed.

Lemma learn_gates_then_updates_witness :
  FG.learn fresh_fg_agent 1 1
  = (Ok None, FG.set_reward_history [1] fresh_fg_agent).
Proof.
  refine (proj1 (proj2 (@learn_gates_then_updates constant_networks fresh_fg_agent 1 1)) _).
  reflexivity.
Defined.

(** C6, as stated, fails twice.  One step after the last learning step,
    with an update frequency of two, [learn] returns [{}] but is no
    no-op: the agent has a reward more on record.  And with fewer than
    two observations on record (one), two steps after the last learning
    step, [learn] does not return [{}]: it runs the update. *)
Lemma learn_gated_is_not_a_no_op :
  ((1 - FG.last_update_step fresh_fg_agent < FG.update_frequency fresh_fg_agent)%Z
   /\ fst (FG.learn fresh_fg_agent 1 1) = Ok None
   /\ snd (FG.learn fresh_fg_agent 1 1) <> fresh_fg_agent)
  /\ ((length (FG.observation_history fg_agent_one_observation) < 2)%nat
      /\ fst (FG.learn fg_agent_one_observation 2 1) <> Ok None).
Proof.
  split.
  - split; [reflexivity|]. split; [reflexivity|].
    intro H. apply (f_equal FG.reward_history) in H. discriminate H.
  - split; [simpl; lia | discriminate].
Qed.

(** The loss that [learn] reports is not the REINFORCE loss: on policy
    outputs (0, 0, 0), action 0 and reward 1 it is 0, where minus the
    log-probability of the action is [ln 3]. *)
Lemma learn_loss_is_not_reinforce :
  exists m a',
    FG.learn fg_agent_one_observation 2 1 = (Ok (Some m), a')
    /\ FG.policy_loss m == 0
    /\ Q2R (FG.policy_loss m) <> spec_reinforce_loss [0; 0; 0] 0 1.
Proof.
  eexists. eexists. split; [reflexivity|]. split; [reflexivity|].
  cbn [FG.policy_loss]. unfold spec_reinforce_loss, spec_log_prob.
  cbn [nth map fold_right].
  replace (Q2R (- 0 * 1)) with 0%R
    by (rewrite <- RMicromega.Q2R_0; apply Qreals.Qeq_eqR; reflexivity).
  rewrite RMicromega.Q2R_0, RMicromega.Q2R_1, exp_0.
  assert (H : ln (1 / (1 + (1 + (1 + 0)))) <> 0%R)
    by (apply ln_neq_0; Lra.lra).
  intro E. apply H. Lra.lra.
Qed.

(** With two actions and two rewards on record but no observation, the
    look-up of the latest observation raises. *)
Lemma learn_without_observation_raises
      {NN : FG.Networks} (a : FG.agent) (current_step : Z) (reward : Q) :
  (FG.update_frequency a <= current_step - FG.last_update_step a)%Z ->
  (2 <= length (FG.action_history a))%nat ->
  FG.reward_history a <> [] ->
  FG.observation_history a = [] ->
  fst (FG.learn a current_step reward) = Raise IndexError.
Proof.
  intros Hgate Hacts Hrew Hobs. unfold FG.learn.
  apply Z.ltb_ge in Hgate.
  cbn [FG.last_update_step FG.update_frequency FG.set_reward_history FG.set_histories].
  rewrite Hgate.
  cbn [FG.action_history FG.reward_history FG.observation_history
       FG.set_last_update_step FG.set_schedule FG.set_reward_history FG.set_histories].
  replace ((length (FG.action_history a) <? 2)%nat
           || (length (FG.reward_history a ++ [reward]) <? 2)%nat) with false.
  - rewrite Hobs. reflexivity.
  - symmetry. apply orb_false_iff. split; apply Nat.ltb_ge; [lia|].
    rewrite length_app. simpl.
    destruct (FG.reward_history a); [congruence | simpl; lia].
Qed.

(** ** FGBalanceAgent.load and _load_agent_state *)

Section Load.

Context {NN : FG.Networks}.

(** [load] on a path with no file raises, where [_load_agent_state]
    returns [False]; neither touches the agent. *)
Lemma load_missing_file (fs : FG.filesystem) (path : string) (a : FG.agent) :
  fs path = None ->
  FG.load fs path a = (Raise FileNotFoundError, a)
  /\ FG._load_agent_state fs path a = (false, a).
Proof.
  intro H. unfold FG.load, FG._load_agent_state, FG.path_exists, FG.and_then, FG.lift,
           FG.torch_load.
  rewrite H. split; reflexivity.
Qed.

(** [_load_agent_state] never raises: it returns a boolean on every
    file system and path. *)
Lemma load_agent_state_returns (fs : FG.filesystem) (path : string) (a : FG.agent) :
  exists ok a', FG._load_agent_state fs path a = (ok, a').
Proof.
  destruct (FG._load_agent_state fs path a) as [ok a']. now exists ok, a'.
Qed.

(** A successful [_load_agent_state] has restored the three state dicts
    and the three scalars of the checkpoint, and nothing else. *)
Lemma load_agent_state_restores (fs : FG.filesystem) (path : string) (a a' : FG.agent) :
  FG._load_agent_state fs path a = (true, a') ->
  exists c fe pn opt threshold target avg,
    fs path = Some (FG.Pickled c)
    /\ FG.ck_feature_extractor c = Some fe
    /\ FG.ck_policy_network c = Some pn
    /\ FG.ck_optimizer c = Some opt
    /\ FG.ck_segmentation_threshold c = Some threshold
    /\ FG.ck_target_fg_ratio c = Some target
    /\ FG.ck_avg_fg_ratio c = Some avg
    /\ a' = FG.set_scalars threshold target avg (FG.set_networks fe pn opt a).
Proof.
  unfold FG._load_agent_state, FG.path_exists, FG.torch_load, FG.and_then, FG.lift,
         FG.then_, FG.restore, FG.item, FG.assign.
  destruct (fs path) as [[c|]|]; simpl; try discriminate.
  destruct (FG.weights_only && FG.has_numpy_array c); simpl; try discriminate.
  destruct (FG.ck_feature_extractor c) as [fe|] eqn:E1; simpl; [|discriminate].
  destruct (FG.ck_policy_network c) as [pn|] eqn:E2; simpl; [|discriminate].
  destruct (FG.ck_optimizer c) as [opt|] eqn:E3; simpl; [|discriminate].
  destruct (FG.ck_segmentation_threshold c) as [threshold|] eqn:E4; simpl; [|discriminate].
  destruct (FG.ck_target_fg_ratio c) as [target|] eqn:E5; simpl; [|discriminate].
  destruct (FG.ck_avg_fg_ratio c) as [avg|] eqn:E6; simpl; [|discriminate].
  intro H. inversion H; subst.
  exists c, fe, pn, opt, threshold, target, avg.
  repeat (split; [first [assumption | reflexivity]|]). reflexivity.
Qed.

(** When [load] returns, it returns [None], which the coordinator's
    [load_agents] takes for a failure. *)
Lemma load_returns_none (fs : FG.filesystem) (path : string) (a a' : FG.agent) r :
  FG.load fs path a = (Ok r, a') ->
  r = tt /\ FG.load_agents_marks_failed (Ok r) = Ok true.
Proof. destruct r. auto. Qed.

End Load.

(** C8, on the code.  With no checkpoint file at the path, [load] raises
    [FileNotFoundError] instead of returning [False]; its sibling
    [_load_agent_state] returns [False] there. *)
Theorem load_of_missing_checkpoint_raises :
  FG.load empty_filesystem "absent_agent.pt" fresh_fg_agent
  = (Raise FileNotFoundError, fresh_fg_agent)
  /\ FG._load_agent_state empty_filesystem "absent_agent.pt" fresh_fg_agent
     = (false, fresh_fg_agent).
Proof. split; reflexivity. Qed.

(** ** State representations *)

Lemma pad_or_truncate_spec (state_dim : nat) (state : list Q) :
  pad_or_truncate state_dim state = spec_fixed_length state_dim state.
Proof.
  unfold pad_or_truncate, spec_fixed_length.
  destruct (Nat.ltb_spec (length state) state_dim) as [Hlt|Hge].
  - rewrite firstn_all2; [reflexivity|].
    rewrite length_app, repeat_length. lia.
  - replace (state_dim - length state)%nat with 0%nat by lia.
    simpl. rewrite app_nil_r.
    destruct (Nat.ltb_spec state_dim (length state)) as [Hlt|Hge']; [reflexivity|].
    rewrite firstn_all2; [reflexivity | lia].
Qed.

Lemma spec_fixed_length_length (state_dim : nat) (state : list Q) :
  length (spec_fixed_length state_dim state) = state_dim.
Proof.
  unfold spec_fixed_length. rewrite length_firstn, length_app, repeat_length. lia.
Qed.

Lemma mapM_float_div_ok (f : Q -> Q) (divisor : Q) (l : list Q) :
  ~ divisor == 0 ->
  mapM (fun w => float_div (f w) divisor) l = Ok (map (fun w => f w / divisor) l).
Proof.
  intro Hnz. induction l as [|x l IH]; simpl; [reflexivity|].
  unfold float_div at 1.
  destruct (Qeq_bool divisor 0) eqn:E.
  - apply Qeq_bool_iff in E. contradiction.
  - simpl. rewrite IH. reflexivity.
Qed.

Lemma mapM_float_div_zero (f : Q -> Q) (divisor : Q) (x : Q) (l : list Q) :
  divisor == 0 ->
  mapM (fun w => float_div (f w) divisor) (x :: l) = Raise ZeroDivisionError.
Proof.
  intro Hz. simpl. unfold float_div.
  apply Qeq_bool_iff in Hz. rewrite Hz. reflexivity.
Qed.

Section ClassWeightsState.

Context {S : Type} {SSM : SharedStateManager S}.

Lemma normalized_weights_ok (a : CW.agent) :
  normalisable a -> exists ws, CW.normalized_weights a = Ok ws.
Proof.
  unfold normalisable, CW.normalized_weights.
  destruct (CW.current_class_weights a) as [d|l]; [|eauto].
  destruct (Qeq_dec (CW.max_weight a - CW.min_weight a) 0) as [Hz|Hnz].
  - intros [H|H]; [contradiction|]. destruct d; [|contradiction].
    simpl. eauto.
  - intros _. rewrite (mapM_float_div_ok (fun w => w - CW.min_weight a) _ Hnz). eauto.
Qed.

Lemma normalized_weights_raise (a : CW.agent) :
  ~ normalisable a -> CW.normalized_weights a = Raise ZeroDivisionError.
Proof.
  unfold normalisable, CW.normalized_weights. intro H.
  destruct (CW.current_class_weights a) as [[|[k x] d]|l]; try tauto.
  simpl map.
  apply (mapM_float_div_zero (fun w => w - CW.min_weight a)).
  destruct (Qeq_dec (CW.max_weight a - CW.min_weight a) 0); tauto.
Qed.

Lemma state_components_ok (a : CW.agent) (sh : S) :
  normalisable a -> exists components, CW.state_components a sh = Ok components.
Proof.
  intro H. destruct (normalized_weights_ok H) as [ws Hws].
  unfold CW.state_components, CW.enhanced_components, CW.standard_components,
         CW.closing_components.
  rewrite Hws. simpl.
  destruct (CW.use_enhanced_state a); [|eauto].
  destruct (get_enhanced_state_vector sh (CW.metrics_to_track a)); eauto.
Qed.

Lemma state_components_raise (a : CW.agent) (sh : S) :
  ~ normalisable a -> CW.state_components a sh = Raise ZeroDivisionError.
Proof.
  intro H. pose proof (normalized_weights_raise H) as Hws.
  unfold CW.state_components, CW.enhanced_components, CW.standard_components,
         CW.closing_components.
  rewrite Hws. simpl.
  destruct (CW.use_enhanced_state a); [|reflexivity].
  destruct (get_enhanced_state_vector sh (CW.metrics_to_track a)); reflexivity.
Qed.

End ClassWeightsState.

(** C1 (as amended).  [get_state_representation] of the
    [LearningRateAgent] returns, for every configuration and shared
    state, the assembled vector zero-padded or truncated at the tail to
    exactly [state_dim] elements.  So does that of the
    [ClassWeightsAgent] for every configuration and shared state in
    which [max_weight] differs from [min_weight] or the current weights
    are not a non-empty dictionary. *)
Theorem state_representation_has_state_dim
        {np : NumPy} {S : Type} {SSM : SharedStateManager S}
        (lr : LR.agent) (cw : CW.agent) (sh : S) :
  (LR.get_state_representation lr sh
   = spec_fixed_length (LR.state_dim lr) (LR.state_components lr sh)
   /\ length (LR.get_state_representation lr sh) = LR.state_dim lr)
  /\ (normalisable cw ->
      exists components state,
        CW.state_components cw sh = Ok components
        /\ CW.get_state_representation cw sh = Ok state
        /\ state = spec_fixed_length (CW.state_dim cw) components
        /\ length state = CW.state_dim cw).
Proof.
  split.
  - unfold LR.get_state_representation. rewrite pad_or_truncate_spec.
    split; [reflexivity | apply spec_fixed_length_length].
  - intro H. destruct (state_components_ok sh H) as [components Hc].
    exists components, (spec_fixed_length (CW.state_dim cw) components).
    unfold CW.get_state_representation. rewrite Hc. simpl.
    rewrite pad_or_truncate_spec.
    repeat split. apply spec_fixed_length_length.
Qed.

(** Outside of that condition the call raises. *)
Lemma state_representation_not_normalisable
      {S : Type} {SSM : SharedStateManager S} (cw : CW.agent) (sh : S) :
  ~ normalisable cw ->
  CW.get_state_representation cw sh = Raise ZeroDivisionError.
Proof.
  intro H. unfold CW.get_state_representation.
  rewrite (state_components_raise sh H). reflexivity.
Qed.

Lemma state_representation_has_state_dim_witness :
  exists state,
    CW.get_state_representation cw_agent store_epoch3 = Ok state
    /\ length state = 24%nat.
Proof.
  destruct (proj2 (@state_representation_has_state_dim
                     integer_numpy _ _ lr_agent cw_agent store_epoch3))
    as (components & state & _ & Hstate & _ & Hlen).
  - left. simpl. intro H. discriminate H.
  - exists state. split; [exact Hstate | exact Hlen].
Defined.

(** C1, as stated, fails: a [ClassWeightsAgent] configured with
    [min_weight = max_weight] and holding its initial dictionary of
    weights returns no vector. *)
Lemma state_representation_flat_range_raises :
  CW.get_state_representation cw_agent_flat_range store_epoch3
  = Raise ZeroDivisionError.
Proof. reflexivity. Qed.

(** ** Class weights: clip, then renormalise *)

Lemma np_clip_bounds (x lo hi : Q) : lo <= hi -> lo <= np_clip x lo hi /\ np_clip x lo hi <= hi.
Proof.
  intro H. unfold np_clip.
  case_lt x lo.
  - case_lt hi lo; lra.
  - case_lt hi x; lra.
Qed.

Lemma np_clip_positive (x lo hi : Q) : 0 < x -> 0 < hi -> 0 < np_clip x lo hi.
Proof.
  intros Hx Hhi. unfold np_clip.
  case_lt x lo.
  - case_lt hi lo; lra.
  - case_lt hi x; lra.
Qed.

Lemma np_sum_positive_list (l : list Q) :
  Forall (fun w => 0 < w) l -> l <> [] -> 0 < np_sum l.
Proof.
  induction 1 as [|x l Hx Hl IH]; intro Hne; [congruence|].
  simpl. destruct l as [|y l'].
  - simpl. lra.
  - assert (0 < np_sum (y :: l')) by (apply IH; discriminate).
    simpl in *. lra.
Qed.

Lemma np_sum_map_mult (l : list Q) (k : Q) :
  np_sum (map (fun w => w * k) l) == np_sum l * k.
Proof.
  unfold np_sum. induction l as [|x l IH]; simpl; [ring|].
  rewrite IH. ring.
Qed.

Section ClassWeightsAction.

Context {np : NumPy}.

Lemma repaired_action_length (a : CW.agent) (act : CW.action) :
  (forall l, act <> CW.PyList l) ->
  exists action', CW.repaired_action a act = Ok action'
                  /\ length action' = CW.num_classes a.
Proof.
  intro Hact. destruct act as [x|l|l]; simpl.
  - eexists. split; [reflexivity|]. now rewrite length_map, repeat_length.
  - destruct (Nat.eqb_spec (length l) (CW.num_classes a)) as [He|Hne]; [eauto|].
    destruct (Nat.ltb_spec (length l) (CW.num_classes a)) as [Hlt|Hge].
    + eexists. split; [reflexivity|]. rewrite length_app, repeat_length. lia.
    + eexists. split; [reflexivity|]. rewrite length_firstn. lia.
  - exfalso. now apply (Hact l).
Qed.

Lemma broadcast2_same_length (f : Q -> Q -> Q) (u v : list Q) :
  length u = length v ->
  broadcast2 f u v = Ok (map (fun p => f (fst p) (snd p)) (combine u v)).
Proof. intro H. unfold broadcast2. now rewrite H, Nat.eqb_refl. Qed.

Lemma products_positive (u v : list Q) :
  Forall (fun w => 0 < w) u -> Forall (fun w => 0 < w) v ->
  Forall (fun w => 0 < w) (map (fun p => fst p * snd p) (combine u v)).
Proof.
  intro Hu. revert v. induction Hu as [|x u Hx Hu IH]; intros v Hv; simpl;
    [constructor|].
  destruct Hv as [|y v Hy Hv]; simpl; constructor.
  - now apply Qmult_lt_0_compat.
  - now apply IH.
Qed.

Lemma renormalize_rescales (a : CW.agent) (ws : list Q) :
  0 < np_sum ws -> ws <> [] ->
  Forall2 (fun v w => v == w * (inject_Z (Z.of_nat (CW.num_classes a)) / np_sum ws))
          (CW.renormalize a ws) ws.
Proof.
  intros Hs Hne. unfold CW.renormalize, np_mean, np_div.
  assert (Hn : 0 < len_Q ws) by (now apply len_Q_pos).
  assert (Hm : 0 < np_sum ws / len_Q ws).
  { unfold Qdiv. apply Qmult_lt_0_compat; [exact Hs|]. now apply Qinv_lt_0_compat. }
  apply Qlt_bool_iff in Hm. rewrite Hm.
  generalize (inject_Z (Z.of_nat (CW.num_classes a)) / np_sum ws) as factor.
  intro factor. clear. induction ws as [|w ws IH]; cbn [map]; constructor.
  - reflexivity.
  - exact IH.
Qed.

Lemma renormalize_sum (a : CW.agent) (ws : list Q) :
  0 < np_sum ws -> ws <> [] ->
  np_sum (CW.renormalize a ws) == inject_Z (Z.of_nat (CW.num_classes a))
  /\ length (CW.renormalize a ws) = length ws.
Proof.
  intros Hs Hne. unfold CW.renormalize, np_mean, np_div.
  assert (Hn : 0 < len_Q ws) by (now apply len_Q_pos).
  assert (Hm : 0 < np_sum ws / len_Q ws).
  { unfold Qdiv. apply Qmult_lt_0_compat; [exact Hs|]. now apply Qinv_lt_0_compat. }
  apply Qlt_bool_iff in Hm. rewrite Hm. split.
  - rewrite np_sum_map_mult. field. lra.
  - apply length_map.
Qed.

End ClassWeightsAction.

(** C2.  For every scalar or array action and every current class-weight
    vector with positive entries, under bounds with
    [min_weight <= max_weight] and [0 < max_weight],
    [action_to_hyperparameter] clips each weight into
    [[min_weight, max_weight]] before the renormalisation; the weights it
    returns are those clipped weights, each multiplied by the one
    positive factor [num_classes / sum(clipped)], and they sum to
    [num_classes]: their mean is 1. *)
Theorem class_weights_clipped_then_mean_one
        {np : NumPy} (a : CW.agent) (act : CW.action) :
  (forall x, 0 < float_pow 2 x) ->
  CW.min_weight a <= CW.max_weight a ->
  0 < CW.max_weight a ->
  (0 < CW.num_classes a)%nat ->
  length (CW.weights_array (CW.current_class_weights a)) = CW.num_classes a ->
  Forall (fun w => 0 < w) (CW.weights_array (CW.current_class_weights a)) ->
  (forall l, act <> CW.PyList l) ->
  exists clipped new_weights,
    CW.clipped_weights a act = Ok clipped
    /\ Forall (fun w => CW.min_weight a <= w /\ w <= CW.max_weight a) clipped
    /\ CW.action_to_hyperparameter a act = Ok new_weights
    /\ length new_weights = CW.num_classes a
    /\ np_sum new_weights == inject_Z (Z.of_nat (CW.num_classes a))
    /\ np_mean new_weights == 1
    /\ 0 < np_sum clipped
    /\ Forall2 (fun v w =>
                  v == w * (inject_Z (Z.of_nat (CW.num_classes a)) / np_sum clipped))
               new_weights clipped.
Proof.
  intros Hpow Hrange Hmax Hn Hlen Hpos Hact.
  destruct (repaired_action_length a Hact) as (action' & Hrep & Hlen').
  set (current := CW.weights_array (CW.current_class_weights a)) in *.
  set (factors := map (float_pow 2) action').
  assert (Hfl : length current = length factors)
    by (unfold factors; rewrite length_map; lia).
  set (products := map (fun p => fst p * snd p) (combine current factors)).
  set (clipped := map (fun w => np_clip w (CW.min_weight a) (CW.max_weight a)) products).
  assert (Hclip : CW.clipped_weights a act = Ok clipped).
  { unfold CW.clipped_weights. rewrite Hrep. simpl.
    fold current. fold factors. rewrite (broadcast2_same_length _ _ _ Hfl). reflexivity. }
  assert (Hprod : Forall (fun w => 0 < w) products).
  { apply products_positive; [exact Hpos|].
    unfold factors. clear - Hpow. induction action'; simpl; constructor; auto. }
  assert (Hplen : length products = CW.num_classes a).
  { unfold products. rewrite length_map, length_combine. lia. }
  assert (Hclen : length clipped = CW.num_classes a)
    by (unfold clipped; now rewrite length_map).
  assert (Hcpos : Forall (fun w => 0 < w) clipped).
  { unfold clipped. clear - Hprod Hmax.
    induction Hprod; simpl; constructor; auto. now apply np_clip_positive. }
  assert (Hcne : clipped <> []).
  { intro H. rewrite H in Hclen. simpl in Hclen. lia. }
  destruct (renormalize_sum a (np_sum_positive_list Hcpos Hcne) Hcne) as [Hsum Hrlen].
  exists clipped, (CW.renormalize a clipped).
  split; [exact Hclip|]. split.
  - unfold clipped. clear - Hrange.
    induction products; simpl; constructor; auto. now apply np_clip_bounds.
  - split; [unfold CW.action_to_hyperparameter; now rewrite Hclip|].
    split; [lia|]. split; [exact Hsum|]. split; [|split].
    + unfold np_mean, np_div, len_Q. rewrite Hsum, Hrlen, Hclen.
      field. change 0 with (inject_Z 0). rewrite inject_Z_injective. lia.
    + exact (np_sum_positive_list Hcpos Hcne).
    + exact (renormalize_rescales a (np_sum_positive_list Hcpos Hcne) Hcne).
Qed.

Lemma integer_numpy_power_positive (x : Q) : 0 < @float_pow integer_numpy 2 x.
Proof. simpl. apply Qpower_0_lt. reflexivity. Qed.

(** Doubling class 0 and halving class 1 from weights (1, 1): the
    products (2, 1/2) stay within [0.5, 5] and are rescaled to sum 2. *)
Lemma class_weights_clipped_then_mean_one_witness :
  exists new_weights,
    CW.action_to_hyperparameter cw_agent (CW.Array [1; -1]) = Ok new_weights
    /\ np_sum new_weights == 2.
Proof.
  destruct (@class_weights_clipped_then_mean_one integer_numpy cw_agent (CW.Array [1; -1]))
    as (clipped & new_weights & _ & _ & Hnew & _ & Hsum & _ & _ & _).
  - exact integer_numpy_power_positive.
  - simpl. lra.
  - reflexivity.
  - simpl. lia.
  - reflexivity.
  - repeat constructor.
  - discriminate.
  - exists new_weights. split; [exact Hnew | exact Hsum].
Defined.

(** ** update_hyperparameter *)

Section ClassWeightsUpdate.

Context {np : NumPy}.

Lemma renormalize_length (a : CW.agent) (ws : list Q) :
  length (CW.renormalize a ws) = length ws.
Proof.
  unfold CW.renormalize. destruct (Qlt_bool 0 (np_mean ws)); [apply length_map | reflexivity].
Qed.

Lemma action_to_hyperparameter_returns (a : CW.agent) (act : CW.action) :
  length (CW.weights_array (CW.current_class_weights a)) = CW.num_classes a ->
  (forall l, act <> CW.PyList l) ->
  exists new_weights,
    CW.action_to_hyperparameter a act = Ok new_weights
    /\ length new_weights = CW.num_classes a.
Proof.
  intros Hlen Hact.
  destruct (repaired_action_length a Hact) as (action' & Hrep & Hlen').
  unfold CW.action_to_hyperparameter, CW.clipped_weights. rewrite Hrep. simpl.
  rewrite broadcast2_same_length by (rewrite length_map; lia). simpl.
  eexists. split; [reflexivity|].
  rewrite renormalize_length, !length_map, length_combine, length_map. lia.
Qed.

End ClassWeightsUpdate.

(** C3 (as amended).  [update_hyperparameter] commits the mapped value
    into the agent's current-value field and, through
    [set_hyperparameter], into the shared state, and returns a record of
    the old value, the new value and their quotient new/old; it leaves
    [epochs_since_update] as it was. *)
Theorem update_hyperparameter_commits
        {np : NumPy} {S : Type} {SSM : SharedStateManager S}
        (lr : LR.agent) (cw : CW.agent) (sh : S) (action : Q) (act : CW.action) :
  (let info := fst (fst (LR.update_hyperparameter lr sh action)) in
   let lr' := snd (fst (LR.update_hyperparameter lr sh action)) in
   let sh' := snd (LR.update_hyperparameter lr sh action) in
   LR.current_lr lr' = LR.action_to_hyperparameter lr action
   /\ sh' = set_hyperparameter (LR.hyperparameter_key lr) (LearningRate (LR.current_lr lr')) sh
   /\ LR.epochs_since_update lr' = LR.epochs_since_update lr
   /\ LR.old_value info = LR.current_lr lr
   /\ LR.new_value info = LR.current_lr lr'
   /\ (~ LR.current_lr lr == 0 ->
       LR.relative_change info * LR.old_value info == LR.new_value info))
  /\ (length (CW.weights_array (CW.current_class_weights cw)) = CW.num_classes cw ->
      (forall l, act <> CW.PyList l) ->
      exists new_weights info cw' sh',
        CW.action_to_hyperparameter cw act = Ok new_weights
        /\ CW.update_hyperparameter cw sh act = Ok (info, cw', sh')
        /\ CW.current_class_weights cw' = WeightsArray new_weights
        /\ sh' = set_hyperparameter (CW.hyperparameter_key cw)
                                    (ClassWeights (WeightsArray new_weights)) sh
        /\ CW.epochs_since_update cw' = CW.epochs_since_update cw
        /\ CW.old_value info = CW.current_class_weights cw
        /\ CW.new_value info = WeightsArray new_weights
        /\ CW.relative_change info
           = map (fun p => np_div (fst p) (snd p))
                 (combine new_weights (CW.weights_array (CW.current_class_weights cw)))).
Proof.
  split.
  - cbn. repeat split. intro Hnz. unfold np_div. field. exact Hnz.
  - intros Hlen Hact.
    destruct (action_to_hyperparameter_returns cw Hlen Hact) as (new_weights & Hnew & Hnlen).
    unfold CW.update_hyperparameter. rewrite Hnew. simpl.
    rewrite broadcast2_same_length by lia. simpl.
    exists new_weights. do 3 eexists. repeat split.
Qed.

Lemma update_hyperparameter_commits_witness :
  exists info cw' sh',
    CW.update_hyperparameter cw_agent store_epoch3 (CW.Array [1; -1]) = Ok (info, cw', sh')
    /\ dict_get (st_hyperparameters sh') "class_weights"
       = Some (ClassWeights (CW.current_class_weights cw'))
    /\ CW.epochs_since_update cw' = 3%Z.
Proof.
  destruct (proj2 (@update_hyperparameter_commits integer_numpy _ _
                     lr_agent cw_agent store_epoch3 1 (CW.Array [1; -1])))
    as (new_weights & info & cw' & sh' & _ & Hupd & Hcur & Hsh & Hepochs & _).
  - reflexivity.
  - discriminate.
  - exists info, cw', sh'. split; [exact Hupd|]. split; [|exact Hepochs].
    rewrite Hsh, Hcur. reflexivity.
Defined.

(** C3, as stated, fails: three epochs after the last update, an update
    of the learning rate leaves [epochs_since_update] at three. *)
Lemma update_keeps_epochs_since_update :
  LR.epochs_since_update lr_agent = 3%Z
  /\ LR.epochs_since_update
       (snd (fst (LR.update_hyperparameter lr_agent store_epoch3 1))) = 3%Z
  /\ LR.epochs_since_update
       (snd (fst (LR.update_hyperparameter lr_agent store_epoch3 1))) <> 0%Z.
Proof. repeat split. discriminate. Qed.

(* ================================================================== *)
(** * Further properties of the coordinator                            *)
(* ================================================================== *)

(** ** Conflict resolution: priority *)

Section Priority.

Lemma insert_desc_in (x y : string * Q) (l : list (string * Q)) :
  In y (Coord.insert_desc x l) <-> y = x \/ In y l.
Proof.
  induction l as [|z l IH]; simpl.
  - intuition.
  - destruct (Qlt_bool (snd z) (snd x)); simpl; [intuition|].
    rewrite IH. intuition.
Qed.

Lemma insert_desc_descending (x : string * Q) (l : list (string * Q)) :
  descending l -> descending (Coord.insert_desc x l).
Proof.
  unfold descending. induction l as [|z l IH]; intro Hl; simpl.
  - repeat constructor.
  - apply StronglySorted_inv in Hl. destruct Hl as [Hl Hz].
    case_lt (snd z) (snd x).
    + constructor; [constructor; assumption|].
      constructor; [lra|].
      rewrite Forall_forall in *. intros y Hy. specialize (Hz y Hy). simpl in *. lra.
    + constructor; [now apply IH|].
      rewrite Forall_forall in *. intros y Hy.
      apply insert_desc_in in Hy. destruct Hy as [->|Hy]; [exact E | now apply Hz].
Qed.

Lemma sorted_desc_acc (items acc : list (string * Q)) :
  descending acc ->
  descending (fold_left (fun a x => Coord.insert_desc x a) items acc)
  /\ forall y, In y (fold_left (fun a x => Coord.insert_desc x a) items acc)
               <-> In y items \/ In y acc.
Proof.
  revert acc. induction items as [|x items IH]; intros acc Hacc; simpl.
  - split; [exact Hacc | intuition].
  - destruct (IH (Coord.insert_desc x acc) (insert_desc_descending x Hacc)) as [Hd Hin].
    split; [exact Hd|]. intro y. rewrite Hin, insert_desc_in. intuition.
Qed.

Lemma sorted_desc_spec (items : list (string * Q)) :
  descending (Coord.sorted_desc items)
  /\ forall y, In y (Coord.sorted_desc items) <-> In y items.
Proof.
  destruct (@sorted_desc_acc items [] (SSorted_nil _)) as [Hd Hin].
  split; [exact Hd|]. intro y. unfold Coord.sorted_desc. rewrite Hin. simpl. intuition.
Qed.

Lemma descending_after (pre post : list (string * Q)) (x : string * Q) :
  descending (pre ++ x :: post) -> Forall (fun y => snd y <= snd x) post.
Proof.
  unfold descending. induction pre as [|z pre IH]; simpl; intro H;
    apply StronglySorted_inv in H; destruct H as [H Hz]; [exact Hz | now apply IH].
Qed.

Lemma first_present_some (order : list (string * Q)) (decisions : dict tensor) d :
  Coord.first_present order decisions = Some d ->
  exists pre agent_name w post,
    order = pre ++ (agent_name, w) :: post
    /\ dict_get decisions agent_name = Some d
    /\ forall n' w', In (n', w') pre -> dict_get decisions n' = None.
Proof.
  induction order as [|[n w] order IH]; simpl; [discriminate|].
  destruct (dict_get decisions n) as [d'|] eqn:E.
  - intro H. inversion H; subst. exists [], n, w, order. simpl. intuition.
  - intro H. destruct (IH H) as (pre & n0 & w0 & post & -> & Hget & Hpre).
    exists ((n, w) :: pre), n0, w0, post. split; [reflexivity|]. split; [exact Hget|].
    intros n' w' [Heq|Hin]; [inversion Heq; subst; exact E | eauto].
Qed.

Lemma first_present_none (order : list (string * Q)) (decisions : dict tensor) :
  (forall n w, In (n, w) order -> dict_get decisions n = None) ->
  Coord.first_present order decisions = None.
Proof.
  induction order as [|[n w] order IH]; simpl; intro H; [reflexivity|].
  rewrite (H n w) by now left. apply IH. intros n' w' Hin. apply (H n' w'). now right.
Qed.

Lemma first_present_found (order : list (string * Q)) (decisions : dict tensor) n w :
  In (n, w) order -> dict_mem decisions n = true ->
  exists d, Coord.first_present order decisions = Some d.
Proof.
  unfold dict_mem. induction order as [|[n0 w0] order IH]; simpl; [tauto|].
  intros [Heq|Hin] Hmem.
  - inversion Heq; subst. destruct (dict_get decisions n); [eauto | discriminate].
  - destruct (dict_get decisions n0); [eauto | now apply IH].
Qed.

End Priority.

(** X1.  Under [conflict_resolution = "priority"], when at least one agent
    that has a weight produced a decision, [_resolve_conflicts] returns
    the decision of such an agent, and no agent with a decision has a
    larger weight than it. *)
Theorem priority_returns_heaviest
        (c : Coord.coordinator) (current_image : option tensor) (decisions : dict tensor) :
  Coord.conflict_resolution c = "priority"%string ->
  (exists n w, In (n, w) (Coord.agent_weights c) /\ dict_mem decisions n = true) ->
  exists agent_name w d,
    Coord._resolve_conflicts c current_image decisions = Ok (Some d)
    /\ In (agent_name, w) (Coord.agent_weights c)
    /\ dict_get decisions agent_name = Some d
    /\ forall n' w', In (n', w') (Coord.agent_weights c) ->
                     dict_mem decisions n' = true -> w' <= w.
Proof.
  intros Hmode (n & w & Hin & Hmem).
  unfold Coord._resolve_conflicts. rewrite Hmode. simpl String.eqb. cbv iota.
  unfold Coord.resolve_priority.
  destruct (sorted_desc_spec (Coord.agent_weights c)) as [Hdesc Hperm].
  destruct (@first_present_found (Coord.sorted_desc (Coord.agent_weights c))
              decisions n w (proj2 (Hperm (n, w)) Hin) Hmem) as [d Hd].
  rewrite Hd.
  destruct (first_present_some _ _ Hd) as (pre & n0 & w0 & post & Horder & Hget & Hpre).
  exists n0, w0, d. split; [reflexivity|]. split.
  - apply Hperm. rewrite Horder. apply in_or_app. right. now left.
  - split; [exact Hget|]. intros n' w' Hin' Hmem'.
    apply Hperm in Hin'. rewrite Horder in Hin'. apply in_app_or in Hin'.
    destruct Hin' as [Hin'|[Heq|Hin']].
    + unfold dict_mem in Hmem'. rewrite (Hpre n' w' Hin') in Hmem'. discriminate.
    + inversion Heq; subst. lra.
    + rewrite Horder in Hdesc. apply descending_after in Hdesc.
      rewrite Forall_forall in Hdesc. exact (Hdesc (n', w') Hin').
Qed.

Lemma priority_returns_heaviest_witness :
  Coord._resolve_conflicts (coordinator_BA "priority") None decisions_AB = Ok (Some [1]).
Proof.
  destruct (@priority_returns_heaviest (coordinator_BA "priority") None decisions_AB eq_refl)
    as (agent_name & w & d & Hres & _).
  - exists "A"%string, 2. split; [right; now left | reflexivity].
  - reflexivity.
Defined.

(** X2.  Under [conflict_resolution = "priority"], when no agent that has
    a weight produced a decision, [_resolve_conflicts] falls back to the
    first decision of the set, and raises [StopIteration] on the empty
    set. *)
Theorem priority_falls_back_to_first
        (c : Coord.coordinator) (current_image : option tensor) (decisions : dict tensor) :
  Coord.conflict_resolution c = "priority"%string ->
  (forall n w, In (n, w) (Coord.agent_weights c) -> dict_get decisions n = None) ->
  Coord._resolve_conflicts c current_image decisions
  = match decisions with
    | [] => Raise StopIteration
    | (_, d) :: _ => Ok (Some d)
    end.
Proof.
  intros Hmode Hnone.
  unfold Coord._resolve_conflicts. rewrite Hmode. simpl String.eqb. cbv iota.
  unfold Coord.resolve_priority.
  rewrite first_present_none.
  - destruct decisions as [|[n d] rest]; reflexivity.
  - intros n w Hin. apply (Hnone n w).
    now apply (proj2 (sorted_desc_spec (Coord.agent_weights c))).
Qed.

Lemma priority_falls_back_to_first_witness :
  Coord._resolve_conflicts (coordinator_BA "priority") None [("C"%string, [1; 0])]
  = Ok (Some [1; 0]).
Proof.
  apply (@priority_falls_back_to_first (coordinator_BA "priority") None
           [("C"%string, [1; 0])] eq_refl).
  intros n w [H|[H|[]]]; inversion H; reflexivity.
Defined.

(** ** Conflict resolution: voting *)

Lemma Qlt_bool_ext (a b c d : Q) : (a < b <-> c < d) -> Qlt_bool a b = Qlt_bool c d.
Proof.
  intro H. destruct (Qlt_bool a b) eqn:E1, (Qlt_bool c d) eqn:E2; try reflexivity.
  - apply Qlt_bool_iff in E1. apply H in E1. apply Qlt_bool_iff in E1. congruence.
  - apply Qlt_bool_iff in E2. apply H in E2. apply Qlt_bool_iff in E2. congruence.
Qed.

Lemma gt_float_binary (t : tensor) (c : Q) : binary_mask (gt_float t c).
Proof.
  unfold binary_mask, gt_float. induction t as [|x t IH]; simpl; constructor; auto.
  destruct (Qlt_bool c x); auto.
Qed.

Lemma stacked_sum (n : nat) (rest : list tensor) :
  Forall (fun t => length t = n) rest ->
  forall t0 : tensor, length t0 = n ->
    let total := fold_left (fun acc t => map (fun p => fst p + snd p) (combine acc t))
                           rest t0 in
    length total = n
    /\ forall j, (j < n)%nat ->
         nth j total 0 == nth j t0 0 + np_sum (map (fun t => nth j t 0) rest).
Proof.
  induction 1 as [|t rest Ht Hrest IH]; intros t0 Ht0; simpl.
  - split; [exact Ht0|]. intros j _. lra.
  - destruct (IH (map (fun p => fst p + snd p) (combine t0 t))) as [Hlen Hnth].
    { rewrite length_map, length_combine. lia. }
    split; [exact Hlen|]. intros j Hj. rewrite (Hnth j Hj).
    rewrite (nth_map_lt _ _ 0 (0, 0)) by (rewrite length_combine; lia).
    rewrite combine_nth by lia. simpl. lra.
Qed.

(** X3.  Under [conflict_resolution = "voting"], for a non-empty set of
    decisions of one shape, [_resolve_conflicts] returns a mask of zeros
    and ones of that shape whose element is 1 exactly when the decisions
    at that element sum to more than half the number of agents; a tie
    gives 0. *)
Theorem voting_is_majority
        (c : Coord.coordinator) (current_image : option tensor)
        (decisions : dict tensor) (n : nat) :
  Coord.conflict_resolution c = "voting"%string ->
  decisions <> [] ->
  (forall nd, In nd decisions -> length (snd nd) = n) ->
  exists r,
    Coord._resolve_conflicts c current_image decisions = Ok (Some r)
    /\ length r = n
    /\ binary_mask r
    /\ forall j, (j < n)%nat ->
         nth j r 0
         = if Qlt_bool (len_Q decisions)
                       (2 * np_sum (map (fun nd => nth j (snd nd) 0) decisions))
           then 1 else 0.
Proof.
  intros Hmode Hne Hshape.
  unfold Coord._resolve_conflicts. rewrite Hmode. simpl String.eqb. cbv iota.
  destruct decisions as [|[name0 t0] rest]; [congruence|].
  unfold Coord.resolve_voting. cbn [dict_values map snd].
  assert (Ht0 : length t0 = n) by (apply (Hshape (name0, t0)); now left).
  assert (Hrest : Forall (fun t => length t = n) (map snd rest)).
  { apply Forall_forall. intros t Hin. apply in_map_iff in Hin.
    destruct Hin as (nd & <- & Hin). apply Hshape. now right. }
  unfold stack_mean.
  assert (Hall : forallb (fun t => (length t =? length t0)%nat) (map snd rest) = true).
  { apply forallb_forall. intros t Hin. rewrite Forall_forall in Hrest.
    apply Nat.eqb_eq. rewrite Ht0. now apply Hrest. }
  rewrite Hall. cbn [bind].
  destruct (stacked_sum Hrest t0 Ht0) as [Hlen Hnth].
  eexists. split; [reflexivity|]. split; [|split].
  - unfold gt_float, div_scalar. now rewrite !length_map.
  - apply gt_float_binary.
  - intros j Hj. unfold gt_float, div_scalar.
    rewrite (nth_map_lt _ _ 0 0) by (rewrite length_map; lia).
    rewrite (nth_map_lt _ _ 0 0) by lia.
    specialize (Hnth j Hj).
    match type of Hnth with ?x == _ => set (total := x) in * end.
    assert (Hk : 0 < len_Q (t0 :: map snd rest)) by (apply len_Q_pos; discriminate).
    assert (Hk' : len_Q ((name0, t0) :: rest) == len_Q (t0 :: map snd rest)).
    { unfold len_Q. simpl length. rewrite length_map. reflexivity. }
    assert (Hs : np_sum (map (fun nd => nth j (snd nd) 0) ((name0, t0) :: rest)) == total).
    { rewrite Hnth. simpl. rewrite map_map. reflexivity. }
    rewrite (@Qlt_bool_ext (1 # 2) (np_div total (len_Q (t0 :: map snd rest)))
               (len_Q ((name0, t0) :: rest))
               (2 * np_sum (map (fun nd => nth j (snd nd) 0) ((name0, t0) :: rest))));
      [reflexivity|].
    rewrite Hk', Hs. unfold np_div.
    set (k := len_Q (t0 :: map snd rest)) in *.
    assert (Hq : total == total / k * k) by (field; lra).
    split; intro H; nra.
Qed.

(** Three agents voting 1, 1 and 0 on one pixel: the pixel is 1. *)
Lemma voting_is_majority_witness :
  Coord._resolve_conflicts (coordinator_AB "voting") None votes_110 = Ok (Some [1]).
Proof.
  destruct (@voting_is_majority (coordinator_AB "voting") None votes_110 1%nat eq_refl)
    as (r & Hr & Hlen & _ & Hnth).
  - discriminate.
  - intros nd [<-|[<-|[<-|[]]]]; reflexivity.
  - rewrite Hr. f_equal. f_equal.
    destruct r as [|x [|y r]]; try discriminate Hlen.
    f_equal. exact (Hnth 0%nat (Nat.lt_0_succ 0)).
Defined.

(** ** Conflict resolution: the weighted average stays within the decisions *)

Lemma weighted_sum_bounds (weights : dict Q) (ds : dict tensor) (n j : nat) (lo hi : Q) :
  (j < n)%nat ->
  (forall nd, In nd ds -> length (snd nd) = n) ->
  (forall nd, In nd ds -> 0 < spec_weight_of weights (fst nd)) ->
  (forall nd x, In nd ds -> In x (snd nd) -> lo <= x /\ x <= hi) ->
  let W := np_sum (map (fun nd => spec_weight_of weights (fst nd)) ds) in
  let S := np_sum (map (fun nd => spec_weight_of weights (fst nd) * nth j (snd nd) 0) ds) in
  0 <= W /\ lo * W <= S /\ S <= hi * W.
Proof.
  intros Hj Hshape Hpos Hin. cbv zeta. unfold tensor in *.
  induction ds as [|nd ds IH]; simpl.
  - lra.
  - destruct IH as (HW & Hlo & Hhi).
    + intros; apply Hshape; now right.
    + intros; apply Hpos; now right.
    + intros nd' x H1 H2. apply (Hin nd' x); [now right | exact H2].
    + assert (Hw : 0 < spec_weight_of weights (fst nd)) by (apply Hpos; now left).
      assert (Hx : lo <= nth j (snd nd) 0 /\ nth j (snd nd) 0 <= hi).
      { apply (Hin nd); [now left|]. apply nth_In. rewrite (Hshape nd); [exact Hj | now left]. }
      destruct Hx as [Hx1 Hx2].
      set (w := spec_weight_of weights (fst nd)) in *.
      set (x := nth j (snd nd) 0) in *.
      assert (H1 : lo * w <= w * x) by nra.
      assert (H2 : w * x <= hi * w) by nra.
      repeat split; lra.
Qed.

(** X4.  Under [conflict_resolution = "weighted_average"], with positive
    agent weights and decisions of one shape whose elements all lie
    between [lo] and [hi], every element of the combined decision lies
    between [lo] and [hi]. *)
Theorem weighted_average_within_bounds
        (c : Coord.coordinator) (current_image : option tensor)
        (decisions : dict tensor) (n : nat) (lo hi : Q) :
  Coord.conflict_resolution c = "weighted_average"%string ->
  decisions <> [] ->
  (forall nd, In nd decisions -> length (snd nd) = n) ->
  (forall nd, In nd decisions -> 0 < spec_weight_of (Coord.agent_weights c) (fst nd)) ->
  (forall nd x, In nd decisions -> In x (snd nd) -> lo <= x /\ x <= hi) ->
  exists r,
    Coord._resolve_conflicts c current_image decisions = Ok (Some r)
    /\ length r = n
    /\ Forall (fun x => lo <= x /\ x <= hi) r.
Proof.
  intros Hmode Hne Hshape Hpos Hin.
  unfold Coord._resolve_conflicts. rewrite Hmode. simpl String.eqb. cbv iota.
  destruct decisions as [|[name d] ds]; [congruence|].
  set (ws := Coord.agent_weights c) in *.
  assert (Hdn : length d = n) by (apply (Hshape (name, d)); now left).
  assert (Hw : 0 < dict_get_default ws name 1) by (apply (Hpos (name, d)); now left).
  unfold Coord.resolve_weighted_average. simpl Coord.weighted_loop.
  destruct (@weighted_loop_spec ws n ds (fun nd H => Hshape nd (or_intror H))
              (scale (dict_get_default ws name 1) d) (0 + dict_get_default ws name 1))
    as (c' & tot' & Hloop & Hlen & Htot & Hsum).
  { unfold scale. now rewrite length_map. }
  rewrite Hloop. cbn [bind].
  assert (HW0 : 0 <= np_sum (map (fun nd => spec_weight_of ws (fst nd)) ds)).
  { clear - Hpos. induction ds as [|nd ds IH]; simpl; [lra|].
    assert (0 < spec_weight_of ws (fst nd)) by (apply Hpos; right; now left).
    assert (0 <= np_sum (map (fun nd => spec_weight_of ws (fst nd)) ds)).
    { apply IH. intros nd' [H'|H']; apply Hpos; [now left | right; now right]. }
    lra. }
  assert (Hlt : 0 < tot') by lra.
  apply Qlt_bool_iff in Hlt as Hb. rewrite Hb. cbn [option_map].
  eexists. split; [reflexivity|]. split.
  - unfold div_scalar. now rewrite length_map.
  - apply Forall_forall. intros x Hx.
    destruct (In_nth _ _ 0 Hx) as (j & Hj & <-).
    unfold div_scalar in Hj |- *. rewrite length_map in Hj.
    rewrite (nth_map_lt _ _ 0 0) by exact Hj.
    rewrite Hlen in Hj.
    destruct (@weighted_sum_bounds ws ((name, d) :: ds) n j lo hi Hj Hshape Hpos Hin)
      as (_ & Hlo & Hhi).
    simpl in Hlo, Hhi. unfold spec_weight_of in Hlo, Hhi at 1.
    assert (Hnum : nth j c' 0 ==
                   dict_get_default ws name 1 * nth j d 0
                   + np_sum (map (fun nd => spec_weight_of ws (fst nd) * nth j (snd nd) 0) ds)).
    { rewrite (Hsum j Hj). unfold scale. rewrite (nth_map_lt _ _ 0 0) by lia. reflexivity. }
    unfold np_div. split.
    + apply Qle_shift_div_l; [exact Hlt|]. rewrite Hnum, Htot.
      unfold spec_weight_of in *. lra.
    + apply Qle_shift_div_r; [exact Hlt|]. rewrite Hnum, Htot.
      unfold spec_weight_of in *. lra.
Qed.

Lemma weighted_average_within_bounds_witness :
  exists r,
    Coord._resolve_conflicts (coordinator_AB "weighted_average") None decisions_AB
    = Ok (Some r)
    /\ Forall (fun x => 0 <= x /\ x <= 1) r.
Proof.
  destruct (@weighted_average_within_bounds
              (coordinator_AB "weighted_average") None decisions_AB 1%nat 0 1 eq_refl)
    as (r & Hr & _ & Hb).
  - discriminate.
  - intros nd [<-|[<-|[]]]; reflexivity.
  - intros nd [<-|[<-|[]]]; reflexivity.
  - intros nd x [<-|[<-|[]]] [<-|[]]; split; discriminate.
  - exists r. split; [exact Hr | exact Hb].
Defined.

(** ** __init__ and update_agents *)

Lemma dict_mem_set {V} (d : dict V) k k' v :
  dict_mem d k' = true -> dict_mem (dict_set d k v) k' = true.
Proof.
  unfold dict_mem. intro H. destruct (String.eqb_spec k k') as [->|Hne].
  - now rewrite dict_get_set_same.
  - now rewrite dict_get_set_other.
Qed.

Lemma dict_mem_set_same {V} (d : dict V) k v : dict_mem (dict_set d k v) k = true.
Proof. unfold dict_mem. now rewrite dict_get_set_same. Qed.

Lemma dict_from_names_acc {V} (names : list string) (v : V) :
  forall acc,
    (forall k x, In (k, x) acc -> x = v) ->
    let d := fold_left (fun d agent_name => dict_set d agent_name v) names acc in
    (forall k x, In (k, x) d -> x = v)
    /\ (forall k, In k names \/ dict_mem acc k = true -> dict_mem d k = true).
Proof.
  induction names as [|n names IH]; intros acc Hacc; simpl.
  - split; [exact Hacc|]. intros k [[]|H]. exact H.
  - destruct (IH (dict_set acc n v)) as [Hv Hm].
    + intros k x Hin. apply dict_set_values_in in Hin. destruct Hin as [Hin|Hin]; eauto.
    + split; [exact Hv|]. intros k [[<-|Hin]|Hmem]; apply Hm.
      * right. apply dict_mem_set_same.
      * now left.
      * right. now apply dict_mem_set.
Qed.

Section UpdateAgentsInvariant.

Context {W Metrics : Type}.

Implicit Types agents : list (Coord.learner W Metrics).

Lemma init_tracks agents (mode : string) :
  tracks agents (Coord.init (map (@Coord.learner_name W Metrics) agents) mode).
Proof.
  unfold tracks, Coord.init, Coord.dict_from_names. simpl. split.
  - intros k v Hin.
    destruct (@dict_from_names_acc Q (map (@Coord.learner_name W Metrics) agents) 1 [])
      as [Hv _]; [intros ? ? []|].
    rewrite (Hv k v Hin). reflexivity.
  - intros a Hin.
    destruct (@dict_from_names_acc (list Q)
                (map (@Coord.learner_name W Metrics) agents) [] [])
      as [_ Hm]; [intros ? ? []|].
    apply Hm. left. now apply in_map.
Qed.

Lemma update_loop_returns agents (reward_dict : dict Q) (done : bool) :
  forall (um : dict Metrics) (performance : dict (list Q)) (w : W),
    (forall a, In a agents -> dict_mem performance (Coord.learner_name a) = true) ->
    exists um' performance' w',
      Coord.update_loop agents reward_dict done um performance w = (Ok um', performance', w')
      /\ (forall k, dict_mem performance k = true -> dict_mem performance' k = true)
      /\ (NoDup (map (@Coord.learner_name W Metrics) agents) ->
          forall a history,
            In a agents ->
            dict_get performance (Coord.learner_name a) = Some history ->
            dict_get performance' (Coord.learner_name a)
            = Some (history ++ [Coord.agent_reward reward_dict (Coord.learner_name a)]))
      /\ (forall k, ~ In k (map (@Coord.learner_name W Metrics) agents) ->
                    dict_get performance' k = dict_get performance k).
Proof.
  induction agents as [|a agents IH]; intros um performance w Hmem; simpl.
  - exists um, performance, w. repeat split; auto. intros _ a' h [].
  - destruct (Coord.update a _ done w) as [metrics w1].
    assert (Ha : dict_mem performance (Coord.learner_name a) = true)
      by (apply Hmem; now left).
    unfold dict_mem in Ha.
    destruct (dict_get performance (Coord.learner_name a)) as [history|] eqn:Eh;
      [|discriminate].
    set (reward := Coord.agent_reward reward_dict (Coord.learner_name a)) in *.
    set (performance1 := dict_set performance (Coord.learner_name a) (history ++ [reward])).
    destruct (IH (dict_set um (Coord.learner_name a) metrics) performance1 w1)
      as (um' & performance' & w' & Hrun & Hkeep & Hgrow & Hother).
    { intros a' Hin. apply dict_mem_set. apply Hmem. now right. }
    exists um', performance', w'. split; [exact Hrun|]. split; [|split].
    + intros k Hk. apply Hkeep. now apply dict_mem_set.
    + intros Hnd a' h [<-|Hin] Hget.
      * inversion Hnd as [|? ? Hnotin Hnd']; subst.
        rewrite (Hother _ Hnotin). unfold performance1.
        rewrite dict_get_set_same. rewrite Eh in Hget. inversion Hget; subst. reflexivity.
      * inversion Hnd as [|? ? Hnotin Hnd']; subst.
        apply (Hgrow Hnd' a' h Hin). unfold performance1.
        rewrite dict_get_set_other; [exact Hget|].
        intro Heq. apply Hnotin. rewrite Heq. now apply in_map.
    + intros k Hk. simpl in Hk. rewrite Hother by tauto.
      unfold performance1. apply dict_get_set_other. tauto.
Qed.

End UpdateAgentsInvariant.

(** X5.  On a coordinator with positive weights that holds a performance
    history for each of the agents, [update_agents] does not raise; the
    coordinator it leaves has positive weights that sum to their number
    and still holds a history for each agent; and, the agents' names
    being distinct, each history has grown by exactly the agent's
    reward: its own entry of [reward_dict], else the entry ["total"],
    else 0.0. *)
Theorem update_agents_keeps_tracking
        {W Metrics : Type} (c : Coord.coordinator)
        (agents : list (Coord.learner W Metrics))
        (reward_dict : dict Q) (done : bool) (w : W) :
  tracks agents c ->
  exists update_metrics c' w',
    Coord.update_agents c agents reward_dict done w = (Ok update_metrics, c', w')
    /\ tracks agents c'
    /\ np_sum (dict_values (Coord.agent_weights c')) == len_Q (Coord.agent_weights c')
    /\ (NoDup (map (@Coord.learner_name W Metrics) agents) ->
        forall a history,
          In a agents ->
          dict_get (Coord.agent_performance c) (Coord.learner_name a) = Some history ->
          dict_get (Coord.agent_performance c') (Coord.learner_name a)
          = Some (history ++ [Coord.agent_reward reward_dict (Coord.learner_name a)])).
Proof.
  intros [Hpos Hmem].
  destruct (update_loop_returns agents reward_dict done [] (Coord.agent_performance c) w Hmem)
    as (um & performance' & w' & Hrun & Hkeep & Hgrow & _).
  unfold Coord.update_agents. rewrite Hrun.
  eexists. eexists. eexists. split; [reflexivity|].
  assert (Hfl : all_positive
                  (Coord.reweigh 10 performance' (Coord.agent_weights c)))
    by (now apply reweigh_positive).
  split; [split|split].
  - simpl. now apply normalize_positive.
  - intros a Hin. simpl. apply Hkeep. now apply Hmem.
  - simpl. now apply normalize_sum.
  - simpl. exact Hgrow.
Qed.

(** A freshly built coordinator of two agents, after its first rewards. *)
Lemma update_agents_keeps_tracking_witness :
  exists update_metrics c' w',
    Coord.update_agents (Coord.init ["A"; "B"]%string "weighted_average")
                        learners_AB [("total"%string, 1 # 2)] false tt
    = (Ok update_metrics, c', w')
    /\ np_sum (dict_values (Coord.agent_weights c')) == len_Q (Coord.agent_weights c').
Proof.
  destruct (@update_agents_keeps_tracking unit unit
              (Coord.init ["A"; "B"]%string "weighted_average")
              learners_AB [("total"%string, 1 # 2)] false tt
              (init_tracks learners_AB "weighted_average"))
    as (um & c' & w' & Hrun & _ & Hsum & _).
  exists um, c', w'. split; [exact Hrun | exact Hsum].
Defined.

(** ** _update_agent_weights before any agent has a full window *)

Lemma reweigh_waits (window : Z) (performance : dict (list Q)) (weights : dict Q) :
  (forall n rewards, In (n, rewards) performance ->
                     (Z.of_nat (length rewards) < window)%Z) ->
  Coord.reweigh window performance weights = weights.
Proof.
  revert weights. induction performance as [|[n rewards] performance IH];
    intros weights H; [reflexivity|].
  rewrite reweigh_cons.
  assert (Hlt : (Z.of_nat (length rewards) < window)%Z) by (apply (H n); now left).
  apply Z.leb_gt in Hlt. rewrite Hlt.
  apply IH. intros n' r' Hin. apply (H n'). now right.
Qed.

(** X6.  While no agent has [window] rewards on record,
    [_update_agent_weights(window)] leaves weights that are positive and
    sum to their number as they are: same agents in the same order, each
    weight equal to what it was. *)
Theorem update_agent_weights_waits_for_window (window : Z) (c : Coord.coordinator) :
  (forall n rewards, In (n, rewards) (Coord.agent_performance c) ->
                     (Z.of_nat (length rewards) < window)%Z) ->
  all_positive (Coord.agent_weights c) ->
  np_sum (dict_values (Coord.agent_weights c)) == len_Q (Coord.agent_weights c) ->
  Forall2 (fun after before => fst after = fst before /\ snd after == snd before)
          (Coord.agent_weights (Coord._update_agent_weights window c))
          (Coord.agent_weights c).
Proof.
  intros Hshort Hpos Hsum. simpl. rewrite (reweigh_waits _ _ Hshort).
  unfold Coord.normalize.
  destruct (Coord.agent_weights c) as [|kv ws] eqn:E.
  - simpl. constructor.
  - rewrite <- E in *.
    assert (Ht : 0 < np_sum (dict_values (Coord.agent_weights c))).
    { apply np_sum_positive; [exact Hpos | rewrite E; discriminate]. }
    apply Qlt_bool_iff in Ht as Hb. rewrite Hb.
    generalize dependent (np_sum (dict_values (Coord.agent_weights c))).
    generalize (len_Q (Coord.agent_weights c)). clear.
    intros m t Hsum Ht _.
    induction (Coord.agent_weights c) as [|[k v] l IH]; simpl; constructor; auto.
    simpl. split; [reflexivity|]. unfold np_div. rewrite Hsum. field. lra.
Qed.

Lemma update_agent_weights_waits_for_window_witness :
  Forall2 (fun after before => fst after = fst before /\ snd after == snd before)
          (Coord.agent_weights
             (Coord._update_agent_weights 10 (Coord.init ["A"; "B"]%string "voting")))
          (Coord.agent_weights (Coord.init ["A"; "B"]%string "voting")).
Proof.
  apply update_agent_weights_waits_for_window.
  - intros n rewards [H|[H|[]]]; inversion H; reflexivity.
  - intros k v [H|[H|[]]]; inversion H; reflexivity.
  - reflexivity.
Defined.

(** ** refine_segmentation: what it returns *)

(** X7.  When [refine_segmentation] returns, it returns either
    [initial_preds] itself or a mask of zeros and ones, and in the second
    case the mask is the last segmentation it writes to the state
    manager. *)
Theorem refine_segmentation_input_or_mask
        {W : Type} {SM : StateManager W}
        (c : Coord.coordinator) (agents : list (Coord.agent W))
        (initial_preds : tensor) (w : W) (r : tensor) :
  fst (Coord.refine_segmentation c agents initial_preds w) = Ok r ->
  r = initial_preds
  \/ (binary_mask r
      /\ exists w1, snd (Coord.refine_segmentation c agents initial_preds w)
                    = update_segmentation r w1).
Proof.
  unfold Coord.refine_segmentation.
  destruct (Coord.collect_refinements _ _ _ _) as [[features|e] w1]; [|discriminate].
  destruct features as [|kv features].
  - simpl. intro H. inversion H. now left.
  - destruct (Coord.combine_refinements _ _ _ _) as [[[combined|] total]|e];
      simpl; try discriminate.
    + destruct (Qeq_bool total 0); simpl.
      * intro H. inversion H. now left.
      * intro H. inversion H; subst. right. split; [apply gt_float_binary|].
        now exists w1.
    + intro H. inversion H. now left.
Qed.

Lemma refine_segmentation_input_or_mask_witness :
  [1; 0] = [0; 0]
  \/ (binary_mask [1; 0]
      /\ exists w1,
           snd (Coord.refine_segmentation
                  (coordinator_AB "weighted_average") [fg_agent (fun _ => 0)] [0; 0]
                  (fresh_fg_agent, manager_with_prediction))
           = update_segmentation [1; 0] w1).
Proof.
  apply (@refine_segmentation_input_or_mask _ fg_world
           (coordinator_AB "weighted_average") [fg_agent (fun _ => 0)] [0; 0]
           (fresh_fg_agent, manager_with_prediction) [1; 0]).
  reflexivity.
Defined.

(** ** FGBalanceAgent under refine_segmentation *)

Lemma firstn_repeat {A} (x : A) (n m : nat) :
  (n <= m)%nat -> firstn n (repeat x m) = repeat x n.
Proof.
  revert m. induction n as [|n IH]; intros m H; [reflexivity|].
  destruct m as [|m]; [lia|]. simpl. f_equal. apply IH. lia.
Qed.

Lemma resize_row_zeros (dim m : nat) :
  FG.resize_row dim (repeat 0 m) = repeat 0 dim.
Proof.
  unfold FG.resize_row. rewrite repeat_length.
  destruct (Nat.eqb_spec m dim) as [->|Hne]; [reflexivity|].
  destruct (Nat.ltb_spec dim m) as [Hlt|Hge].
  - apply firstn_repeat. lia.
  - rewrite <- repeat_app. f_equal. lia.
Qed.

Lemma fg_agent_state_zero_refinement
      {NN : FG.Networks} {M : Type} {SM : StateManager M}
      (sac_policy : Coord.state_repr -> Q)
      (obs : Coord.observation) (w : FG.agent * M) :
  Coord.get_state_representation (fg_agent sac_policy) obs w
  = (Coord.Batch [repeat 0 (FG.state_dim (fst w))], w)
  /\ Coord.agent_refinement (fg_agent sac_policy) obs w
     = let '(refined, a, m) :=
         FG.apply_action (sac_policy (Coord.Batch [repeat 0 (FG.state_dim (fst w))]))
                         (fst w) (snd w) in
       (Ok refined, (a, m)).
Proof.
  assert (H : Coord.get_state_representation (fg_agent sac_policy) obs w
              = (Coord.Batch [repeat 0 (FG.state_dim (fst w))], w)).
  { cbn [fg_agent Coord.get_state_representation].
    unfold FG.get_state_representation, FG._extract_features.
    cbn [map]. now rewrite resize_row_zeros. }
  split; [exact H|].
  unfold Coord.agent_refinement. rewrite H.
  cbn [Coord.as_batch fg_agent Coord.sac_select_action].
  unfold Coord.try_apply_action.
  cbn [fg_agent Coord.apply_action_with Coord.apply_action]. reflexivity.
Qed.

(** X8.  Under [refine_segmentation], whose observation carries no image,
    an [FGBalanceAgent] hands its policy the zero vector of length
    [state_dim], whatever the predictions are: the action it applies is
    the policy's answer to that one state. *)
Theorem fg_agent_state_is_zero
        {NN : FG.Networks} {M : Type} {SM : StateManager M}
        (sac_policy : Coord.state_repr -> Q)
        (obs : Coord.observation) (w : FG.agent * M) :
  Coord.get_state_representation (fg_agent sac_policy) obs w
  = (Coord.Batch [repeat 0 (FG.state_dim (fst w))], w)
  /\ Coord.agent_refinement (fg_agent sac_policy) obs w
     = let '(refined, a, m) :=
         FG.apply_action (sac_policy (Coord.Batch [repeat 0 (FG.state_dim (fst w))]))
                         (fst w) (snd w) in
       (Ok refined, (a, m)).
Proof. apply fg_agent_state_zero_refinement. Qed.

(* ================================================================== *)
(** * Further properties of the FGBalanceAgent                         *)
(* ================================================================== *)

(** ** The segmentation threshold *)

Lemma py_min_le_l (a b : Q) : py_min a b <= a.
Proof. unfold py_min. case_lt b a; lra. Qed.
Lemma py_min_le_r (a b : Q) : py_min a b <= b.
Proof. unfold py_min. case_lt b a; lra. Qed.
Lemma py_min_glb (a b c : Q) : c <= a -> c <= b -> c <= py_min a b.
Proof. unfold py_min. case_lt b a; lra. Qed.
Lemma py_max_ge_r (a b : Q) : b <= py_max a b.
Proof. unfold py_max. case_lt a b; lra. Qed.
Lemma py_max_lub (a b c : Q) : a <= c -> b <= c -> py_max a b <= c.
Proof. unfold py_max. case_lt a b; lra. Qed.
Lemma py_min_comm (a b : Q) : py_min a b == py_min b a.
Proof. unfold py_min. case_lt b a; case_lt a b; lra. Qed.
Lemma py_max_comm (a b : Q) : py_max a b == py_max b a.
Proof. unfold py_max. case_lt b a; case_lt a b; lra. Qed.

(** X9.  With a non-negative [threshold_step], a segmentation threshold
    that lies within
    [[min_threshold, max_threshold]] still does after [decide], whatever
    action is drawn, and after [apply_action], whatever the action value;
    neither changes the bounds or the step. *)
Theorem threshold_stays_in_range
        {NN : FG.Networks} {W : Type} {SM : StateManager W}
        (softmax : list Q -> list Q) (draw : bool -> list Q -> nat)
        (obs : option FG.observation) (action_value : Q) (w : W) (a : FG.agent) :
  0 <= FG.threshold_step a ->
  threshold_in_range a ->
  let decided := snd (FG.decide softmax draw obs a) in
  let applied := snd (fst (FG.apply_action action_value a w)) in
  threshold_in_range decided
  /\ threshold_in_range applied
  /\ (FG.min_threshold decided, FG.max_threshold decided, FG.threshold_step decided)
     = (FG.min_threshold a, FG.max_threshold a, FG.threshold_step a)
  /\ (FG.min_threshold applied, FG.max_threshold applied, FG.threshold_step applied)
     = (FG.min_threshold a, FG.max_threshold a, FG.threshold_step a).
Proof.
  unfold threshold_in_range. intros Hstep [Hlo Hhi]. cbv zeta.
  split; [|split; [|split]].
  - unfold FG.decide. destruct obs as [o|]; [|simpl; lra].
    cbn [snd FG.min_threshold FG.max_threshold FG.segmentation_threshold
         FG.set_segmentation_threshold FG.set_scalars FG.set_action_history FG.set_histories].
    destruct (_ =? 0)%nat; [|destruct (_ =? 1)%nat].
    + split; [apply py_min_glb; lra | apply py_min_le_r].
    + split; [apply py_max_ge_r | apply py_max_lub; lra].
    + lra.
  - unfold FG.apply_action. destruct (get_current_prediction w); [|simpl; lra].
    destruct (Qlt_bool action_value _); [|destruct (Qlt_bool _ action_value)];
      cbn [snd fst FG.min_threshold FG.max_threshold FG.segmentation_threshold
           FG.set_segmentation_threshold FG.set_scalars].
    + split; [apply py_max_floor | apply py_max_lub; lra].
    + split; [apply py_min_glb; lra | apply py_min_le_l].
    + lra.
  - unfold FG.decide. destruct obs; reflexivity.
  - unfold FG.apply_action. destruct (get_current_prediction w); [|reflexivity].
    destruct (Qlt_bool action_value _); [|destruct (Qlt_bool _ action_value)]; reflexivity.
Qed.

Lemma threshold_stays_in_range_witness :
  threshold_in_range
    (snd (FG.decide uniform_softmax draw_first (Some blank_observation) fresh_fg_agent))
  /\ threshold_in_range
       (snd (fst (FG.apply_action 1 fresh_fg_agent manager_with_prediction))).
Proof.
  destruct (@threshold_stays_in_range constant_networks _ simple_state_manager
              uniform_softmax draw_first (Some blank_observation) 1
              manager_with_prediction fresh_fg_agent) as (H1 & H2 & _).
  - discriminate.
  - split; discriminate.
  - split; assumption.
Defined.

(** X10.  The two pathways that move the threshold agree: when a
    prediction is held, [apply_action] on an action value above 0.33
    leaves the threshold that [decide] leaves on drawing action 0, on a
    value below -0.33 the one of action 1, and on any other value the one
    of any other action, the unchanged threshold. *)
Theorem apply_action_agrees_with_decide
        {NN : FG.Networks} {W : Type} {SM : StateManager W}
        (softmax : list Q -> list Q) (draw : bool -> list Q -> nat)
        (o : FG.observation) (action_value : Q) (w : W) (prediction : tensor)
        (a : FG.agent) :
  get_current_prediction w = Some prediction ->
  let drawn := draw (FG.training a)
                    (softmax (FG.action_logits (FG.feature_extractor a) (FG.policy_network a)
                                               (FG.obs_current_image o)
                                               (FG.obs_pred_fg_ratio o)
                                               (FG.obs_target_fg_ratio o))) in
  let decided := FG.segmentation_threshold (snd (FG.decide softmax draw (Some o) a)) in
  let applied := FG.segmentation_threshold (snd (fst (FG.apply_action action_value a w))) in
  (33 # 100 < action_value -> drawn = 0%nat -> applied == decided)
  /\ (action_value < - (33 # 100) -> drawn = 1%nat -> applied == decided)
  /\ (- (33 # 100) <= action_value -> action_value <= 33 # 100 ->
      (2 <= drawn)%nat -> applied = FG.segmentation_threshold a /\ applied = decided).
Proof.
  intro Hpred. cbv zeta. unfold FG.apply_action, FG.decide. rewrite Hpred.
  cbn [snd fst FG.segmentation_threshold FG.set_segmentation_threshold FG.set_scalars
       FG.set_action_history FG.set_histories FG.training FG.feature_extractor
       FG.policy_network FG.threshold_step FG.max_threshold FG.min_threshold].
  split; [|split].
  - intros Hv Hd. rewrite Hd. simpl Nat.eqb. cbv iota.
    assert (H1 : Qlt_bool action_value (- (33 # 100)) = false)
      by (apply Qlt_bool_false_iff; lra).
    apply Qlt_bool_iff in Hv. rewrite H1, Hv.
    cbn [FG.segmentation_threshold FG.set_segmentation_threshold FG.set_scalars].
    apply py_min_comm.
  - intros Hv Hd. rewrite Hd. simpl Nat.eqb. cbv iota.
    apply Qlt_bool_iff in Hv. rewrite Hv.
    cbn [FG.segmentation_threshold FG.set_segmentation_threshold FG.set_scalars].
    apply py_max_comm.
  - intros Hv1 Hv2 Hd.
    apply Qlt_bool_false_iff in Hv1, Hv2. rewrite Hv1, Hv2.
    destruct (Nat.eqb_spec (draw (FG.training a)
                (softmax (FG.action_logits (FG.feature_extractor a) (FG.policy_network a)
                            (FG.obs_current_image o) (FG.obs_pred_fg_ratio o)
                            (FG.obs_target_fg_ratio o)))) 0) as [E|_]; [lia|].
    destruct (Nat.eqb_spec (draw (FG.training a)
                (softmax (FG.action_logits (FG.feature_extractor a) (FG.policy_network a)
                            (FG.obs_current_image o) (FG.obs_pred_fg_ratio o)
                            (FG.obs_target_fg_ratio o)))) 1) as [E|_]; [lia|].
    split; reflexivity.
Qed.

Lemma apply_action_agrees_with_decide_witness :
  FG.segmentation_threshold
    (snd (fst (FG.apply_action 1 fresh_fg_agent manager_with_prediction)))
  == FG.segmentation_threshold
       (snd (FG.decide uniform_softmax draw_first (Some blank_observation) fresh_fg_agent)).
Proof.
  refine (proj1 (@apply_action_agrees_with_decide constant_networks _ simple_state_manager
                   uniform_softmax draw_first blank_observation 1
                   manager_with_prediction [3 # 4; 1 # 4] fresh_fg_agent eq_refl) _ _);
    reflexivity.
Defined.

(** ** _calculate_fg_balance_metrics *)

Lemma mul_same_length (u v : tensor) :
  length u = length v -> mul u v = Ok (map (fun p => fst p * snd p) (combine u v)).
Proof. intro H. unfold mul. now rewrite H, Nat.eqb_refl. Qed.

(** The four maps of two masks of one shape: their sums are the entries
    of a confusion matrix. *)
Lemma confusion_counts (p g : tensor) :
  binary_mask p -> binary_mask g -> length p = length g ->
  let tp := np_sum (map (fun x => fst x * snd x) (combine p g)) in
  let fp := np_sum (map (fun x => fst x * snd x) (combine p (one_minus g))) in
  let fn := np_sum (map (fun x => fst x * snd x) (combine (one_minus p) g)) in
  let tn := np_sum (map (fun x => fst x * snd x) (combine (one_minus p) (one_minus g))) in
  0 <= tp /\ 0 <= fp /\ 0 <= fn /\ 0 <= tn
  /\ tp + fp == np_sum p
  /\ tp + fn == np_sum g
  /\ fn + tn == np_sum (one_minus p)
  /\ fp + tn == np_sum (one_minus g)
  /\ tp + fp + fn + tn == len_Q p.
Proof.
  intros Hp. revert g. cbv zeta. unfold one_minus, len_Q.
  induction Hp as [|x p Hx Hp IH]; intros g Hg Hlen.
  - destruct g; [|discriminate]. simpl. repeat split; try lra; reflexivity.
  - destruct g as [|y g]; [discriminate|].
    inversion Hg as [|? ? Hy Hg']; subst.
    destruct (IH g Hg') as (H1 & H2 & H3 & H4 & H5 & H6 & H7 & H8 & H9);
      [simpl in Hlen; lia|].
    assert (Hn : inject_Z (Z.of_nat (length (x :: p)))
                 == 1 + inject_Z (Z.of_nat (length p))).
    { cbn [length]. rewrite Nat2Z.inj_succ. unfold Z.succ.
      rewrite inject_Z_plus. simpl. ring. }
    rewrite Hn. cbn [map combine np_sum fold_right fst snd].
    unfold np_sum in *.
    destruct Hx as [-> | ->], Hy as [-> | ->]; repeat split; lra.
Qed.

Lemma ratio_in_unit_interval (num den : Q) :
  0 <= num -> num <= den ->
  unit_interval (if Qlt_bool 0 den then num / den else 0).
Proof.
  intros H0 H1. unfold unit_interval. case_lt 0 den; [|lra]. split.
  - apply Qle_shift_div_l; lra.
  - apply Qle_shift_div_r; lra.
Qed.

Lemma mean_of_mask (t : tensor) : binary_mask t -> unit_interval (np_mean t).
Proof.
  intro H. unfold np_mean, np_div.
  assert (Hs : 0 <= np_sum t /\ np_sum t <= len_Q t).
  { unfold len_Q. induction H as [|x t Hx Ht IH]; [split; apply Qle_refl|].
    assert (Hn : inject_Z (Z.of_nat (length (x :: t)))
                 == 1 + inject_Z (Z.of_nat (length t))).
    { cbn [length]. rewrite Nat2Z.inj_succ. unfold Z.succ.
      rewrite inject_Z_plus. simpl. ring. }
    rewrite Hn. simpl. destruct Hx as [-> | ->]; lra. }
  destruct t as [|x t].
  - unfold unit_interval. simpl. split; discriminate.
  - assert (Hk : 0 < len_Q (x :: t)) by (apply len_Q_pos; discriminate).
    unfold unit_interval. split.
    + apply Qle_shift_div_l; lra.
    + apply Qle_shift_div_r; lra.
Qed.


(** X11.  For a non-empty prediction and a ground truth of its shape,
    [_calculate_fg_balance_metrics] returns metrics whose two foreground
    ratios, precision, recall and F1 score all lie between 0 and 1, and
    whose class weights sum to 1. *)
Theorem balance_metrics_are_normalised
        {NN : FG.Networks} (prediction ground_truth : tensor) (a : FG.agent) :
  prediction <> [] ->
  length prediction = length ground_truth ->
  exists m,
    FG._calculate_fg_balance_metrics prediction ground_truth a = Ok m
    /\ unit_interval (FG.bm_pred_fg_ratio m)
    /\ unit_interval (FG.bm_gt_fg_ratio m)
    /\ unit_interval (FG.precision m)
    /\ unit_interval (FG.recall m)
    /\ unit_interval (FG.f1_score m)
    /\ FG.fg_weight m + FG.bg_weight m == 1.
Proof.
  intros _ Hlen. unfold FG._calculate_fg_balance_metrics.
  set (p := gt_float prediction (FG.segmentation_threshold a)).
  set (g := gt_float ground_truth (1 # 2)).
  assert (Hp : binary_mask p) by apply gt_float_binary.
  assert (Hg : binary_mask g) by apply gt_float_binary.
  assert (Hpg : length p = length g)
    by (unfold p, g, gt_float; rewrite !length_map; exact Hlen).
  rewrite !mul_same_length
    by (unfold one_minus; rewrite ?length_map; exact Hpg).
  cbn [bind]. unfold sum_item, mean_item.
  destruct (confusion_counts Hp Hg Hpg)
    as (H1 & H2 & H3 & H4 & H5 & H6 & H7 & H8 & H9).
  set (tp := np_sum (map (fun x => fst x * snd x) (combine p g))) in *.
  set (fp := np_sum (map (fun x => fst x * snd x) (combine p (one_minus g)))) in *.
  set (fn := np_sum (map (fun x => fst x * snd x) (combine (one_minus p) g))) in *.
  set (tn := np_sum (map (fun x => fst x * snd x)
                         (combine (one_minus p) (one_minus g)))) in *.
  eexists. split; [reflexivity|].
  cbn [FG.bm_pred_fg_ratio FG.bm_gt_fg_ratio FG.precision FG.recall FG.f1_score
       FG.fg_weight FG.bg_weight].
  assert (Hprec : unit_interval (if Qlt_bool 0 (tp + fp) then tp / (tp + fp) else 0))
    by (apply ratio_in_unit_interval; lra).
  assert (Hrec : unit_interval (if Qlt_bool 0 (tp + fn) then tp / (tp + fn) else 0))
    by (apply ratio_in_unit_interval; lra).
  split; [now apply mean_of_mask|]. split; [now apply mean_of_mask|].
  split; [exact Hprec|]. split; [exact Hrec|]. split.
  - set (pr := if Qlt_bool 0 (tp + fp) then tp / (tp + fp) else 0) in *.
    set (rc := if Qlt_bool 0 (tp + fn) then tp / (tp + fn) else 0) in *.
    destruct Hprec as [Hp0 Hp1], Hrec as [Hr0 Hr1].
    unfold unit_interval. case_lt 0 (pr + rc); [|lra]. split.
    + apply Qle_shift_div_l; [lra|]. nra.
    + apply Qle_shift_div_r; [lra|]. nra.
  - set (fgp := np_sum g) in *. set (bgp := np_sum (one_minus g)) in *.
    case_lt 0 (fgp + bgp); [field; lra | reflexivity].
Qed.

Lemma balance_metrics_are_normalised_witness :
  exists m,
    FG._calculate_fg_balance_metrics [3 # 4; 1 # 4; 9 # 10] [1; 0; 0] fresh_fg_agent = Ok m
    /\ unit_interval (FG.f1_score m)
    /\ FG.fg_weight m + FG.bg_weight m == 1.
Proof.
  destruct (@balance_metrics_are_normalised constant_networks
              [3 # 4; 1 # 4; 9 # 10] [1; 0; 0] fresh_fg_agent)
    as (m & Hm & _ & _ & _ & _ & Hf1 & Hw); [discriminate | reflexivity |].
  exists m. split; [exact Hm|]. split; [exact Hf1 | exact Hw].
Defined.

(** ** observe *)



(** ** Checkpoints: save, load, _save_agent_state, _load_agent_state *)

Section Checkpoints.

Context {NN : FG.Networks}.

Lemma torch_load_saved (fs : FG.filesystem) (path : string) (c : FG.checkpoint) :
  FG.weights_only && FG.has_numpy_array c = false ->
  FG.torch_load (FG.torch_save fs path c) path = Ok c.
Proof.
  intro H. unfold FG.torch_load, FG.torch_save. now rewrite String.eqb_refl, H.
Qed.

Lemma torch_load_refused (fs : FG.filesystem) (path : string) (c : FG.checkpoint) :
  FG.weights_only && FG.has_numpy_array c = true ->
  FG.torch_load (FG.torch_save fs path c) path = Raise UnpicklingError.
Proof.
  intro H. unfold FG.torch_load, FG.torch_save. now rewrite String.eqb_refl, H.
Qed.

Lemma torch_save_elsewhere (fs : FG.filesystem) (path other : string) (c : FG.checkpoint) :
  other <> path -> FG.torch_save fs path c other = fs other.
Proof.
  intro H. unfold FG.torch_save. apply String.eqb_neq in H. now rewrite H.
Qed.

(** The dictionary of [_save_agent_state] always unpickles. *)
Lemma agent_state_dict_loads (a : FG.agent) :
  FG.weights_only && FG.has_numpy_array (FG.agent_state_dict a) = false.
Proof. apply andb_false_r. Qed.

(** The dictionary of [save] unpickles under the full unpickler, and
    under the restricted one as long as the agent has decided nothing. *)
Lemma save_dict_loads (a : FG.agent) :
  FG.weights_only = false \/ FG.action_history a = [] ->
  FG.weights_only && FG.has_numpy_array (FG.save_dict a) = false.
Proof.
  intros [H|H].
  - now rewrite H.
  - unfold FG.has_numpy_array. cbn [FG.ck_action_history FG.save_dict].
    rewrite H. apply andb_false_r.
Qed.

Lemma save_dict_refused (a : FG.agent) :
  FG.weights_only = true -> FG.action_history a <> [] ->
  FG.weights_only && FG.has_numpy_array (FG.save_dict a) = true.
Proof.
  intros Hw Hne. rewrite Hw. unfold FG.has_numpy_array.
  cbn [FG.ck_action_history FG.save_dict andb].
  destruct (FG.action_history a); [congruence | reflexivity].
Qed.

End Checkpoints.

(** X13.  [load] of the file that [save] wrote for agent [a], when
    [torch.load] runs the full unpickler or [a] has no action on record,
    returns (None) and leaves the loading agent with [a]'s networks and
    optimizer, threshold, two ratios, learning rate, discount, update
    frequency, last update step, action and reward histories and
    training flag; its own observation history, state dimension and
    threshold bounds and step are untouched.  Under the restricted
    unpickler ([weights_only] by default) the file of an agent that has
    an action on record is refused: [load] raises [UnpicklingError] and
    leaves the loading agent as it was.  [save] changes no other file. *)
Theorem load_restores_what_save_wrote
        {NN : FG.Networks} (fs : FG.filesystem) (path : string) (a b : FG.agent) :
  (FG.weights_only = false \/ FG.action_history a = [] ->
   exists b',
     FG.load (FG.save fs path a) path b = (Ok tt, b')
     /\ (FG.feature_extractor b', FG.policy_network b', FG.optimizer b')
        = (FG.feature_extractor a, FG.policy_network a, FG.optimizer a)
     /\ (FG.segmentation_threshold b', FG.target_fg_ratio b', FG.avg_fg_ratio b')
        = (FG.segmentation_threshold a, FG.target_fg_ratio a, FG.avg_fg_ratio a)
     /\ (FG.learning_rate b', FG.gamma b', FG.update_frequency b', FG.last_update_step b',
         FG.training b')
        = (FG.learning_rate a, FG.gamma a, FG.update_frequency a, FG.last_update_step a,
           FG.training a)
     /\ (FG.action_history b', FG.reward_history b')
        = (FG.action_history a, FG.reward_history a)
     /\ FG.observation_history b' = FG.observation_history b
     /\ (FG.state_dim b', FG.min_threshold b', FG.max_threshold b', FG.threshold_step b')
        = (FG.state_dim b, FG.min_threshold b, FG.max_threshold b, FG.threshold_step b))
  /\ (FG.weights_only = true -> FG.action_history a <> [] ->
      FG.load (FG.save fs path a) path b = (Raise UnpicklingError, b))
  /\ forall other, other <> path -> FG.save fs path a other = fs other.
Proof.
  split; [|split].
  - intro H. eexists. split.
    + unfold FG.load, FG.save, FG.and_then, FG.lift.
      rewrite (torch_load_saved _ _ _ (save_dict_loads a H)). reflexivity.
    + repeat split.
  - intros Hw Hne. unfold FG.load, FG.save, FG.and_then, FG.lift.
    now rewrite (torch_load_refused _ _ _ (save_dict_refused a Hw Hne)).
  - intros other H. now apply torch_save_elsewhere.
Qed.

(** A fresh agent's file is read back; the file of an agent that has
    decided twice is refused under [weights_only]. *)
Lemma load_restores_what_save_wrote_witness :
  (exists b',
     FG.load (FG.save empty_filesystem "agent.pt" fresh_fg_agent) "agent.pt"
             fg_agent_one_observation = (Ok tt, b')
     /\ FG.segmentation_threshold b' = 1 # 2)
  /\ FG.load (FG.save empty_filesystem "agent.pt" fg_agent_one_observation) "agent.pt"
             fresh_fg_agent = (Raise UnpicklingError, fresh_fg_agent).
Proof.
  split.
  - destruct (proj1 (@load_restores_what_save_wrote constant_networks
                       empty_filesystem "agent.pt" fresh_fg_agent
                       fg_agent_one_observation) (or_intror eq_refl))
      as (b' & Hload & _ & Hscalars & _).
    exists b'. split; [exact Hload|]. now inversion Hscalars.
  - apply (proj1 (proj2 (@load_restores_what_save_wrote constant_networks
                           empty_filesystem "agent.pt" fg_agent_one_observation
                           fresh_fg_agent))).
    + reflexivity.
    + discriminate.
Defined.

(** X14.  For a path with a directory part, [_load_agent_state] of the
    file that [_save_agent_state] wrote for agent [a] returns [True] and
    leaves the loading agent with [a]'s networks and optimizer, threshold
    and two ratios, and with its own schedule, histories and training
    flag; for a path without a directory part [_save_agent_state]
    raises. *)
Theorem load_agent_state_restores_saved_state
        {NN : FG.Networks} (fs : FG.filesystem) (path : string) (a b : FG.agent) :
  (FG.has_dirname path = true ->
   exists fs' b',
     FG._save_agent_state fs path a = Ok fs'
     /\ FG._load_agent_state fs' path b = (true, b')
     /\ (FG.feature_extractor b', FG.policy_network b', FG.optimizer b')
        = (FG.feature_extractor a, FG.policy_network a, FG.optimizer a)
     /\ (FG.segmentation_threshold b', FG.target_fg_ratio b', FG.avg_fg_ratio b')
        = (FG.segmentation_threshold a, FG.target_fg_ratio a, FG.avg_fg_ratio a)
     /\ (FG.learning_rate b', FG.gamma b', FG.update_frequency b', FG.last_update_step b',
         FG.training b')
        = (FG.learning_rate b, FG.gamma b, FG.update_frequency b, FG.last_update_step b,
           FG.training b)
     /\ (FG.action_history b', FG.reward_history b', FG.observation_history b')
        = (FG.action_history b, FG.reward_history b, FG.observation_history b))
  /\ (FG.has_dirname path = false ->
      FG._save_agent_state fs path a = Raise FileNotFoundError).
Proof.
  split; intro H; unfold FG._save_agent_state; rewrite H; [|reflexivity].
  eexists. eexists. split; [reflexivity|]. split.
  - unfold FG._load_agent_state, FG.path_exists, FG.and_then, FG.lift.
    rewrite (torch_load_saved _ _ _ (agent_state_dict_loads a)).
    unfold FG.torch_save at 1. rewrite String.eqb_refl.
    reflexivity.
  - repeat split.
Qed.

Lemma load_agent_state_restores_saved_state_witness :
  exists fs' b',
    FG._save_agent_state empty_filesystem "logs/FGBalanceAgent_agent.pt"
                         fg_agent_one_observation = Ok fs'
    /\ FG._load_agent_state fs' "logs/FGBalanceAgent_agent.pt" fresh_fg_agent = (true, b')
    /\ FG.segmentation_threshold b' = 6 # 10.
Proof.
  destruct (proj1 (@load_agent_state_restores_saved_state constant_networks
                     empty_filesystem "logs/FGBalanceAgent_agent.pt"
                     fg_agent_one_observation fresh_fg_agent) eq_refl)
    as (fs' & b' & Hsave & Hload & _ & Hscalars & _).
  exists fs', b'. split; [exact Hsave|]. split; [exact Hload|].
  now inversion Hscalars.
Defined.

(** X15.  The two checkpoint formats are compatible in one direction at
    most.  [_load_agent_state] reads a file written by [save] and returns
    [True] when [torch.load] runs the full unpickler or the saved agent
    has no action on record; under the restricted unpickler
    ([weights_only] by default) the file of an agent that has an action
    on record makes it return [False] and leave the loading agent as it
    was.  [load] on a file written by [_save_agent_state] raises
    [KeyError], after it has already replaced the loading agent's
    networks, optimizer, threshold and two ratios by the saved ones. *)
Theorem checkpoint_formats_one_way
        {NN : FG.Networks} (fs : FG.filesystem) (path : string) (a b : FG.agent) :
  FG.has_dirname path = true ->
  (FG.weights_only = false \/ FG.action_history a = [] ->
   exists b', FG._load_agent_state (FG.save fs path a) path b = (true, b')
              /\ FG.segmentation_threshold b' = FG.segmentation_threshold a)
  /\ (FG.weights_only = true -> FG.action_history a <> [] ->
      FG._load_agent_state (FG.save fs path a) path b = (false, b))
  /\ exists fs' b',
       FG._save_agent_state fs path a = Ok fs'
       /\ FG.load fs' path b = (Raise KeyError, b')
       /\ (FG.feature_extractor b', FG.policy_network b', FG.optimizer b')
          = (FG.feature_extractor a, FG.policy_network a, FG.optimizer a)
       /\ (FG.segmentation_threshold b', FG.target_fg_ratio b', FG.avg_fg_ratio b')
          = (FG.segmentation_threshold a, FG.target_fg_ratio a, FG.avg_fg_ratio a)
       /\ FG.learning_rate b' = FG.learning_rate b.
Proof.
  intro H. split; [|split].
  - intro Hload. eexists. split.
    + unfold FG._load_agent_state, FG.path_exists, FG.and_then, FG.lift, FG.save.
      rewrite (torch_load_saved _ _ _ (save_dict_loads a Hload)).
      unfold FG.torch_save at 1. rewrite String.eqb_refl.
      reflexivity.
    + reflexivity.
  - intros Hw Hne.
    unfold FG._load_agent_state, FG.path_exists, FG.and_then, FG.lift, FG.save.
    rewrite (torch_load_refused _ _ _ (save_dict_refused a Hw Hne)).
    unfold FG.torch_save at 1. rewrite String.eqb_refl. reflexivity.
  - unfold FG._save_agent_state. rewrite H.
    eexists. eexists. split; [reflexivity|]. split.
    + unfold FG.load, FG.and_then, FG.lift.
      rewrite (torch_load_saved _ _ _ (agent_state_dict_loads a)). reflexivity.
    + repeat split.
Qed.

Lemma checkpoint_formats_one_way_witness :
  (exists b',
     FG._load_agent_state (FG.save empty_filesystem "logs/FGBalanceAgent_agent.pt"
                                   fresh_fg_agent)
                          "logs/FGBalanceAgent_agent.pt" fg_agent_one_observation
     = (true, b')
     /\ FG.segmentation_threshold b' = 1 # 2)
  /\ FG._load_agent_state (FG.save empty_filesystem "logs/FGBalanceAgent_agent.pt"
                                   fg_agent_one_observation)
                          "logs/FGBalanceAgent_agent.pt" fresh_fg_agent
     = (false, fresh_fg_agent)
  /\ exists fs' b',
       FG._save_agent_state empty_filesystem "logs/FGBalanceAgent_agent.pt"
                            fg_agent_one_observation = Ok fs'
       /\ FG.load fs' "logs/FGBalanceAgent_agent.pt" fresh_fg_agent = (Raise KeyError, b')
       /\ FG.segmentation_threshold b' = 6 # 10.
Proof.
  split; [|split].
  - exact (proj1 (@checkpoint_formats_one_way constant_networks
                    empty_filesystem "logs/FGBalanceAgent_agent.pt"
                    fresh_fg_agent fg_agent_one_observation eq_refl)
                 (or_intror eq_refl)).
  - apply (proj1 (proj2 (@checkpoint_formats_one_way constant_networks
                           empty_filesystem "logs/FGBalanceAgent_agent.pt"
                           fg_agent_one_observation fresh_fg_agent eq_refl))).
    + reflexivity.
    + discriminate.
  - destruct (proj2 (proj2 (@checkpoint_formats_one_way constant_networks
                              empty_filesystem "logs/FGBalanceAgent_agent.pt"
                              fg_agent_one_observation fresh_fg_agent eq_refl)))
      as (fs' & b' & Hsave & Hload & _ & Hscalars & _).
    exists fs', b'. split; [exact Hsave|]. split; [exact Hload|].
    now inversion Hscalars.
Defined.

(** ** learn after load, learn after reset *)

(** X16.  A checkpoint carries the actions and the rewards but not the
    observations.  So when an agent with at least two actions and one
    reward on record is saved and loaded into an agent without
    observations, then under the restricted unpickler ([weights_only] by
    default) [load] raises [UnpicklingError] and leaves the loading agent
    as it was, and under the full unpickler [load] returns and the first
    [learn] that passes the update-frequency gate raises [IndexError]. *)
Theorem learn_after_load_raises
        {NN : FG.Networks} (fs : FG.filesystem) (path : string) (a b : FG.agent)
        (current_step : Z) (reward : Q) :
  (2 <= length (FG.action_history a))%nat ->
  FG.reward_history a <> [] ->
  FG.observation_history b = [] ->
  (FG.update_frequency a <= current_step - FG.last_update_step a)%Z ->
  if FG.weights_only
  then FG.load (FG.save fs path a) path b = (Raise UnpicklingError, b)
  else fst (FG.load (FG.save fs path a) path b) = Ok tt
       /\ fst (FG.learn (snd (FG.load (FG.save fs path a) path b)) current_step reward)
          = Raise IndexError.
Proof.
  intros Hacts Hrew Hobs Hgate.
  destruct FG.weights_only eqn:Hw.
  - unfold FG.load, FG.save, FG.and_then, FG.lift.
    rewrite torch_load_refused; [reflexivity|].
    apply save_dict_refused; [exact Hw|].
    intro E. rewrite E in Hacts. cbn in Hacts. lia.
  - assert (Hc : FG.weights_only && FG.has_numpy_array (FG.save_dict a) = false)
      by (apply save_dict_loads; now left).
    assert (E : FG.load (FG.save fs path a) path b
                = (Ok tt, snd (FG.load (FG.save fs path a) path b))).
    { unfold FG.load, FG.save, FG.and_then, FG.lift.
      rewrite (torch_load_saved _ _ _ Hc). reflexivity. }
    split; [now rewrite E|].
    apply learn_without_observation_raises.
    + unfold FG.load, FG.save, FG.and_then, FG.lift.
      rewrite (torch_load_saved _ _ _ Hc). exact Hgate.
    + unfold FG.load, FG.save, FG.and_then, FG.lift.
      rewrite (torch_load_saved _ _ _ Hc). exact Hacts.
    + unfold FG.load, FG.save, FG.and_then, FG.lift.
      rewrite (torch_load_saved _ _ _ Hc). exact Hrew.
    + unfold FG.load, FG.save, FG.and_then, FG.lift.
      rewrite (torch_load_saved _ _ _ Hc). exact Hobs.
Qed.

(** The agent that decided twice, saved and loaded into a fresh agent:
    under a torch that loads with the full unpickler it is read back and
    the next [learn] raises; under [weights_only] the file is refused. *)
Lemma learn_after_load_raises_witness :
  fst (FG.learn (snd (FG.load (FG.save (fun _ => None) "agent.pt"
                                       legacy_agent_one_observation)
                              "agent.pt" legacy_fresh_agent)) 2 1)
  = Raise IndexError
  /\ FG.load (FG.save empty_filesystem "agent.pt" fg_agent_one_observation)
             "agent.pt" fresh_fg_agent
     = (Raise UnpicklingError, fresh_fg_agent).
Proof.
  split.
  - refine (proj2 (@learn_after_load_raises legacy_networks (fun _ => None) "agent.pt"
                     legacy_agent_one_observation legacy_fresh_agent 2 1 _ _ _ _)).
    + simpl. lia.
    + discriminate.
    + reflexivity.
    + simpl. lia.
  - refine (@learn_after_load_raises constant_networks empty_filesystem "agent.pt"
              fg_agent_one_observation fresh_fg_agent 2 1 _ _ _ _).
    + simpl. lia.
    + discriminate.
    + reflexivity.
    + simpl. lia.
Defined.

(** X17.  After [_reset_agent] the histories are empty, the threshold is
    0.5 within bounds 0.1 to 0.9, and the next [learn], at whatever step
    and for whatever reward, returns the empty dictionary without
    touching the re-initialised networks. *)
Theorem learn_after_reset_is_idle
        {NN : FG.Networks} (initial : FG.params * FG.params * FG.params)
        (a : FG.agent) (current_step : Z) (reward : Q) :
  let fresh := FG._reset_agent initial a in
  let after := snd (FG.learn fresh current_step reward) in
  threshold_in_range fresh
  /\ (FG.action_history fresh, FG.reward_history fresh, FG.observation_history fresh)
     = ([], [], [])
  /\ fst (FG.learn fresh current_step reward) = Ok None
  /\ (FG.feature_extractor after, FG.policy_network after, FG.optimizer after) = initial
  /\ FG.reward_history after = [reward].
Proof.
  cbv zeta. split; [split; discriminate|]. split; [reflexivity|].
  unfold FG.learn.
  cbn [FG.last_update_step FG.update_frequency FG.set_reward_history FG.set_histories
       FG._reset_agent FG.reward_history FG.action_history].
  destruct (_ <? _)%Z.
  - destruct initial as [[fe pn] opt]. repeat split.
  - destruct initial as [[fe pn] opt]. repeat split.
Qed.

(** ** get_state_representation *)

Lemma resize_row_length (dim : nat) (row : list Q) : length (FG.resize_row dim row) = dim.
Proof.
  unfold FG.resize_row.
  destruct (Nat.eqb_spec (length row) dim) as [H|H]; [exact H|].
  destruct (Nat.ltb_spec dim (length row)) as [Hlt|Hge].
  - rewrite length_firstn. lia.
  - rewrite length_app, repeat_length. lia.
Qed.

(** X18.  [get_state_representation] of the [FGBalanceAgent] returns one
    row of exactly [state_dim] features, whether or not the observation
    carries an image, a prediction or the two ratios. *)
Theorem fg_state_representation_has_state_dim
        {NN : FG.Networks} (current_image current_prediction : option tensor)
        (pred_fg_ratio target_fg_ratio : option Q) (a : FG.agent) :
  exists row,
    FG.get_state_representation current_image current_prediction
                                pred_fg_ratio target_fg_ratio a = [row]
    /\ length row = FG.state_dim a.
Proof.
  unfold FG.get_state_representation, FG._extract_features.
  destruct current_image, current_prediction; cbn [map];
    eexists; (split; [reflexivity | apply resize_row_length]).
Qed.

(* ================================================================== *)
(** * Further properties of the hyperparameter agents                  *)
(* ================================================================== *)

(** ** LearningRateAgent *)

Section LearningRate.

Context {np : NumPy} {S : Type} {SSM : SharedStateManager S}.

Lemma lr_update_fields (a : LR.agent) (sh : S) (action : Q) :
  let a' := snd (fst (LR.update_hyperparameter a sh action)) in
  LR.current_lr a' = LR.action_to_hyperparameter a action
  /\ LR.min_lr a' = LR.min_lr a /\ LR.max_lr a' = LR.max_lr a.
Proof. cbn. auto. Qed.

Lemma lr_updates_cons (a : LR.agent) (sh : S) (action : Q) (rest : list Q) :
  lr_updates a sh (action :: rest)
  = lr_updates (snd (fst (LR.update_hyperparameter a sh action)))
               (snd (LR.update_hyperparameter a sh action)) rest.
Proof. reflexivity. Qed.

Lemma np_clip_monotone (x y lo hi : Q) : x <= y -> np_clip x lo hi <= np_clip y lo hi.
Proof.
  intro H. unfold np_clip.
  case_lt x lo; case_lt y lo;
    repeat match goal with
           | |- context [Qlt_bool ?u ?v] => case_lt u v
           end; lra.
Qed.

End LearningRate.

(** X19.  With [min_lr <= max_lr], after any non-empty run of
    [update_hyperparameter] calls the learning rate lies within
    [[min_lr, max_lr]], wherever it started, and the bounds are the ones
    the agent was built with. *)
Theorem learning_rate_stays_in_range
        {np : NumPy} {S : Type} {SSM : SharedStateManager S}
        (a : LR.agent) (sh : S) (actions : list Q) :
  LR.min_lr a <= LR.max_lr a ->
  actions <> [] ->
  let a' := fst (lr_updates a sh actions) in
  LR.min_lr a <= LR.current_lr a' /\ LR.current_lr a' <= LR.max_lr a
  /\ LR.min_lr a' = LR.min_lr a /\ LR.max_lr a' = LR.max_lr a.
Proof.
  intros Hrange Hne. cbv zeta.
  destruct actions as [|action rest]; [congruence|]. clear Hne.
  revert a sh action Hrange. induction rest as [|next rest IH]; intros a sh action Hrange.
  - cbn. pose proof (np_clip_bounds (LR.current_lr a * float_pow 3 action) Hrange).
    tauto.
  - rewrite lr_updates_cons.
    destruct (lr_update_fields a sh action) as (_ & Hmin & Hmax).
    cbv zeta in Hmin, Hmax.
    specialize (IH (snd (fst (LR.update_hyperparameter a sh action)))
                   (snd (LR.update_hyperparameter a sh action)) next).
    rewrite Hmin, Hmax in IH. now apply IH.
Qed.

Lemma learning_rate_stays_in_range_witness :
  LR.min_lr lr_agent <= LR.current_lr (fst (lr_updates lr_agent store_epoch3 [5; 5; -2]))
  /\ LR.current_lr (fst (lr_updates lr_agent store_epoch3 [5; 5; -2])) <= LR.max_lr lr_agent.
Proof.
  destruct (@learning_rate_stays_in_range integer_numpy _ _ lr_agent store_epoch3 [5; 5; -2])
    as (H1 & H2 & _).
  - discriminate.
  - discriminate.
  - split; assumption.
Defined.

(** X20.  For a non-negative learning rate and a power [3.0 ** x] that
    grows with [x], a larger action never maps to a smaller learning
    rate; and with [3.0 ** 0 = 1], the action 0 maps a learning rate
    within [[min_lr, max_lr]] to itself. *)
Theorem learning_rate_action_is_monotone
        {np : NumPy} (a : LR.agent) (x y : Q) :
  (forall u v, u <= v -> float_pow 3 u <= float_pow 3 v) ->
  float_pow 3 0 == 1 ->
  0 <= LR.current_lr a ->
  (x <= y -> LR.action_to_hyperparameter a x <= LR.action_to_hyperparameter a y)
  /\ (LR.min_lr a <= LR.current_lr a -> LR.current_lr a <= LR.max_lr a ->
      LR.action_to_hyperparameter a 0 == LR.current_lr a).
Proof.
  intros Hmono Hzero Hpos. unfold LR.action_to_hyperparameter. split.
  - intro Hxy. apply np_clip_monotone.
    specialize (Hmono x y Hxy). nra.
  - intros Hlo Hhi.
    assert (E : LR.current_lr a * float_pow 3 0 == LR.current_lr a)
      by (rewrite Hzero; ring).
    unfold np_clip.
    case_lt (LR.current_lr a * float_pow 3 0) (LR.min_lr a).
    + case_lt (LR.max_lr a) (LR.min_lr a); lra.
    + case_lt (LR.max_lr a) (LR.current_lr a * float_pow 3 0); lra.
Qed.

Lemma integer_numpy_power_monotone (u v : Q) :
  u <= v -> @float_pow integer_numpy 3 u <= @float_pow integer_numpy 3 v.
Proof.
  intro H. simpl. apply Qpower_le_compat_l; [now apply Qfloor_resp_le | discriminate].
Qed.

Lemma learning_rate_action_is_monotone_witness :
  LR.action_to_hyperparameter lr_agent (-1) <= LR.action_to_hyperparameter lr_agent 1
  /\ LR.action_to_hyperparameter lr_agent 0 == LR.current_lr lr_agent.
Proof.
  destruct (@learning_rate_action_is_monotone integer_numpy lr_agent (-1) 1
              integer_numpy_power_monotone) as [H1 H2].
  - reflexivity.
  - discriminate.
  - split; [apply H1; discriminate | apply H2; discriminate].
Defined.

(** X21.  [select_action] of the learning-rate agent returns [None]
    exactly when [should_update] is false; otherwise, with
    [min_lr <= max_lr], it returns a learning rate within
    [[min_lr, max_lr]], unless the policy answers with an empty array,
    which raises [IndexError]. *)
Theorem learning_rate_select_action_outcomes
        {np : NumPy} {S : Type} {SSM : SharedStateManager S}
        (should_update : LR.agent -> Z -> bool)
        (sac_select_action : list Q -> LR.sac_action)
        (a : LR.agent) (sh : S) (epoch : Z) :
  LR.min_lr a <= LR.max_lr a ->
  match LR.select_action should_update sac_select_action a sh epoch with
  | Ok None => should_update a epoch = false
  | Ok (Some new_lr) =>
      should_update a epoch = true
      /\ LR.min_lr a <= new_lr /\ new_lr <= LR.max_lr a
  | Raise e =>
      should_update a epoch = true
      /\ e = IndexError
      /\ sac_select_action (LR.get_state_representation a sh) = LR.ArrayAction []
  end.
Proof.
  intro Hrange. unfold LR.select_action.
  destruct (should_update a epoch); [|reflexivity]. cbn [negb].
  unfold LR._process_action.
  destruct (sac_select_action _) as [x|[|x l]]; cbn [bind].
  - split; [reflexivity|]. apply np_clip_bounds. exact Hrange.
  - auto.
  - split; [reflexivity|]. apply np_clip_bounds. exact Hrange.
Qed.

Lemma learning_rate_select_action_outcomes_witness :
  exists new_lr,
    LR.select_action (fun _ _ => true) (fun _ => LR.ArrayAction [1]) lr_agent store_epoch3 4
    = Ok (Some new_lr)
    /\ new_lr <= LR.max_lr lr_agent.
Proof.
  pose proof (@learning_rate_select_action_outcomes integer_numpy _ _
                (fun _ _ => true) (fun _ => LR.ArrayAction [1]) lr_agent store_epoch3 4) as H.
  destruct (LR.select_action _ _ lr_agent store_epoch3 4) as [[new_lr|]|e] eqn:E.
  - exists new_lr. split; [reflexivity|]. apply H. discriminate.
  - discriminate E.
  - discriminate E.
Defined.

(** ** ClassWeightsAgent *)

Section ClassWeightsRuns.

Context {np : NumPy} {S : Type} {SSM : SharedStateManager S}.

Lemma not_a_list_spec (act : CW.action) : not_a_list act -> forall l, act <> CW.PyList l.
Proof. destruct act; simpl; intros H l'; [discriminate | discriminate | contradiction]. Qed.

(** One update on weights of the right length: it returns, and leaves an
    array of that length. *)
Lemma cw_update_returns (a : CW.agent) (sh : S) (act : CW.action) :
  length (CW.weights_array (CW.current_class_weights a)) = CW.num_classes a ->
  not_a_list act ->
  exists new_weights info a' sh',
    CW.action_to_hyperparameter a act = Ok new_weights
    /\ CW.update_hyperparameter a sh act = Ok (info, a', sh')
    /\ a' = CW.set_current_class_weights (WeightsArray new_weights) a
    /\ length new_weights = CW.num_classes a.
Proof.
  intros Hlen Hact.
  destruct (action_to_hyperparameter_returns a Hlen (not_a_list_spec Hact))
    as (new_weights & Hnew & Hnlen).
  unfold CW.update_hyperparameter. rewrite Hnew. cbn [bind].
  rewrite broadcast2_same_length by lia. cbn [bind].
  exists new_weights. do 3 eexists. repeat split. exact Hnlen.
Qed.

Lemma array_is_normalisable (a : CW.agent) (l : list Q) :
  CW.current_class_weights a = WeightsArray l -> normalisable a.
Proof. intro H. right. now rewrite H. Qed.

End ClassWeightsRuns.

(** X22.  Starting from class weights of length [num_classes], every run
    of [update_hyperparameter] calls on scalar or array actions returns,
    and keeps that length.  After a non-empty run the weights are held as
    an array, so [get_state_representation] returns a vector of
    [state_dim] elements on every shared state, also for a configuration
    with [max_weight = min_weight]. *)
Theorem class_weights_updates_chain
        {np : NumPy} {S : Type} {SSM : SharedStateManager S}
        (a : CW.agent) (sh : S) (actions : list CW.action) :
  length (CW.weights_array (CW.current_class_weights a)) = CW.num_classes a ->
  Forall not_a_list actions ->
  exists a' sh',
    cw_updates a sh actions = Ok (a', sh')
    /\ length (CW.weights_array (CW.current_class_weights a')) = CW.num_classes a
    /\ (actions <> [] ->
        (exists l, CW.current_class_weights a' = WeightsArray l)
        /\ forall sh2, exists state,
             CW.get_state_representation a' sh2 = Ok state
             /\ length state = CW.state_dim a).
Proof.
  intros Hlen Hacts. revert a sh Hlen.
  induction Hacts as [|act rest Hact Hrest IH]; intros a sh Hlen.
  - exists a, sh. split; [reflexivity|]. split; [exact Hlen | congruence].
  - destruct (@cw_update_returns _ _ _ a sh act Hlen Hact)
      as (new_weights & info & a1 & sh1 & _ & Hupd & Ha1 & Hnlen).
    cbn [cw_updates]. rewrite Hupd. cbn [bind fst snd].
    destruct (IH a1 sh1) as (a' & sh' & Hrun & Hlen' & Hafter).
    { rewrite Ha1. exact Hnlen. }
    assert (Hn1 : CW.num_classes a1 = CW.num_classes a) by (rewrite Ha1; reflexivity).
    assert (Hd1 : CW.state_dim a1 = CW.state_dim a) by (rewrite Ha1; reflexivity).
    exists a', sh'. split; [exact Hrun|]. split; [congruence|].
    intros _. destruct rest as [|act2 rest].
    + cbn in Hrun. inversion Hrun; subst a' sh'.
      split; [exists new_weights; rewrite Ha1; reflexivity|].
      intro sh2.
      destruct (@state_components_ok S SSM a1 sh2) as [components Hc].
      { apply (@array_is_normalisable _ new_weights). rewrite Ha1. reflexivity. }
      unfold CW.get_state_representation. rewrite Hc. cbn [bind].
      eexists. split; [reflexivity|].
      rewrite pad_or_truncate_spec, spec_fixed_length_length. exact Hd1.
    + destruct (Hafter ltac:(discriminate)) as [Harr Hstate].
      split; [exact Harr|]. intro sh2. destruct (Hstate sh2) as (state & Hs & Hl).
      exists state. split; [exact Hs | congruence].
Qed.

Lemma class_weights_updates_chain_witness :
  exists a' sh' state,
    cw_updates cw_agent_flat_range store_epoch3 [CW.Scalar 0; CW.Array [1]] = Ok (a', sh')
    /\ CW.get_state_representation a' store_epoch3 = Ok state
    /\ length state = 24%nat.
Proof.
  destruct (@class_weights_updates_chain integer_numpy _ _ cw_agent_flat_range store_epoch3
              [CW.Scalar 0; CW.Array [1]])
    as (a' & sh' & Hrun & _ & Hafter).
  - reflexivity.
  - repeat constructor.
  - destruct (Hafter ltac:(discriminate)) as [_ Hstate].
    destruct (Hstate store_epoch3) as (state & Hs & Hl).
    exists a', sh', state. split; [exact Hrun|]. split; [exact Hs | exact Hl].
Defined.

(** ** A uniform action is cancelled by the renormalisation *)

Section UniformAction.

Context {np : NumPy}.

Lemma uniform_products (lo hi f : Q) (ws : list Q) :
  Forall (fun w => 0 < w /\ lo <= w * f /\ w * f <= hi) ws ->
  forall m, (length ws <= m)%nat ->
    let clipped := map (fun w => np_clip w lo hi)
                       (map (fun p => fst p * snd p) (combine ws (repeat f m))) in
    clipped = map (fun w => w * f) ws.
Proof.
  induction 1 as [|w ws (Hw & Hlo & Hhi) Hws IH]; intros m Hm; [reflexivity|].
  destruct m as [|m]; [simpl in Hm; lia|].
  cbn [repeat combine map fst snd]. f_equal.
  - unfold np_clip.
    apply Qlt_bool_false_iff in Hlo. rewrite Hlo.
    apply Qlt_bool_false_iff in Hhi. rewrite Hhi. reflexivity.
  - apply IH. simpl in Hm. lia.
Qed.

Lemma renormalize_uniform (a : CW.agent) (f : Q) (ws : list Q) :
  0 < f -> ws <> [] -> Forall (fun w => 0 < w) ws ->
  Forall2 (fun v w => v == w * inject_Z (Z.of_nat (CW.num_classes a)) / np_sum ws)
          (CW.renormalize a (map (fun w => w * f) ws)) ws.
Proof.
  intros Hf Hne Hpos.
  assert (Hs : 0 < np_sum ws) by (now apply np_sum_positive_list).
  assert (Hsum : np_sum (map (fun w => w * f) ws) == np_sum ws * f)
    by apply np_sum_map_mult.
  assert (Hlenq : 0 < len_Q (map (fun w => w * f) ws)).
  { apply len_Q_pos. destruct ws; [congruence | discriminate]. }
  unfold CW.renormalize, np_mean, np_div.
  assert (Hm : 0 < np_sum (map (fun w => w * f) ws) / len_Q (map (fun w => w * f) ws)).
  { unfold Qdiv. apply Qmult_lt_0_compat; [rewrite Hsum; nra|].
    now apply Qinv_lt_0_compat. }
  apply Qlt_bool_iff in Hm. rewrite Hm.
  generalize dependent (np_sum (map (fun w => w * f) ws)).
  generalize (np_sum ws) Hs. generalize (inject_Z (Z.of_nat (CW.num_classes a))).
  clear - Hf. intros n s Hs s' Hsum _.
  induction ws as [|w ws IH]; simpl; constructor; auto.
  rewrite Hsum. field. split; lra.
Qed.

End UniformAction.

(** X23.  A scalar action only renormalises: it is replaced by the same
    exponent 0.1 for every class, and when the weights, all positive,
    stay within [[min_weight, max_weight]] once multiplied by
    [2.0 ** 0.1], the returned weights are the current ones rescaled to
    sum to [num_classes], whatever the scalar was. *)
Theorem scalar_action_only_renormalises
        {np : NumPy} (a : CW.agent) (x : Q) :
  let f := float_pow 2 (1 * (1 # 10)) in
  let ws := CW.weights_array (CW.current_class_weights a) in
  0 < f ->
  (0 < CW.num_classes a)%nat ->
  length ws = CW.num_classes a ->
  Forall (fun w => 0 < w /\ CW.min_weight a <= w * f /\ w * f <= CW.max_weight a) ws ->
  exists new_weights,
    CW.action_to_hyperparameter a (CW.Scalar x) = Ok new_weights
    /\ Forall2 (fun v w => v == w * inject_Z (Z.of_nat (CW.num_classes a)) / np_sum ws)
               new_weights ws.
Proof.
  intros f ws Hf Hn Hlen Hws.
  unfold CW.action_to_hyperparameter, CW.clipped_weights, CW.repaired_action.
  cbn [bind]. fold ws.
  rewrite map_repeat, map_repeat. fold f.
  rewrite broadcast2_same_length by (rewrite repeat_length; exact Hlen).
  cbn [bind].
  rewrite (@uniform_products _ _ _ _ Hws (CW.num_classes a)) by lia.
  eexists. split; [reflexivity|].
  apply renormalize_uniform; [exact Hf | |].
  - intro E. rewrite E in Hlen. simpl in Hlen. lia.
  - apply Forall_forall. intros w Hin. rewrite Forall_forall in Hws.
    now apply Hws.
Qed.

Lemma scalar_action_only_renormalises_witness :
  exists new_weights,
    CW.action_to_hyperparameter cw_agent (CW.Scalar 7) = Ok new_weights
    /\ Forall2 (fun v w => v == w * 2 / 2) new_weights [1; 1].
Proof.
  destruct (@scalar_action_only_renormalises integer_numpy cw_agent 7)
    as (new_weights & Hnew & Hrel).
  - reflexivity.
  - simpl. lia.
  - reflexivity.
  - repeat constructor; discriminate.
  - exists new_weights. split; [exact Hnew | exact Hrel].
Defined.

(** ** Python lists as actions *)

(** X24.  [update_hyperparameter] of the class-weights agent on a Python
    list of at least [num_classes] entries raises [TypeError], where the
    same entries in an array are mapped; a shorter list is zero-padded
    into an array and mapped like the array of its entries. *)
Theorem list_action_raises_unless_padded
        {np : NumPy} {S : Type} {SSM : SharedStateManager S}
        (a : CW.agent) (sh : S) (l : list Q) :
  ((CW.num_classes a <= length l)%nat ->
   CW.update_hyperparameter a sh (CW.PyList l) = Raise TypeError)
  /\ ((length l < CW.num_classes a)%nat ->
      CW.update_hyperparameter a sh (CW.PyList l)
      = CW.update_hyperparameter a sh (CW.Array l)).
Proof.
  unfold CW.update_hyperparameter, CW.action_to_hyperparameter, CW.clipped_weights,
         CW.repaired_action.
  split; intro H.
  - destruct (Nat.eqb_spec (length l) (CW.num_classes a)); [reflexivity|].
    destruct (Nat.ltb_spec (length l) (CW.num_classes a)); [lia | reflexivity].
  - destruct (Nat.eqb_spec (length l) (CW.num_classes a)); [lia|].
    destruct (Nat.ltb_spec (length l) (CW.num_classes a)); [reflexivity | lia].
Qed.

Lemma list_action_raises_unless_padded_witness :
  CW.update_hyperparameter cw_agent store_epoch3 (CW.PyList [1; -1]) = Raise TypeError.
Proof.
  apply (proj1 (@list_action_raises_unless_padded integer_numpy _ _
                  cw_agent store_epoch3 [1; -1])).
  simpl. lia.
Defined.

(** ** Positive weights of mean one along a run *)

Section PositiveRuns.

Context {np : NumPy} {S : Type} {SSM : SharedStateManager S}.

Lemma renormalize_positive (a : CW.agent) (ws : list Q) :
  (0 < CW.num_classes a)%nat ->
  Forall (fun w => 0 < w) ws -> Forall (fun w => 0 < w) (CW.renormalize a ws).
Proof.
  intros Hn Hpos. unfold CW.renormalize.
  destruct (Qlt_bool 0 (np_mean ws)); [|exact Hpos].
  destruct ws as [|w0 ws0]; [constructor|].
  assert (Hs : 0 < np_sum (w0 :: ws0)) by (apply np_sum_positive_list; [exact Hpos | discriminate]).
  assert (Hk : 0 < np_div (inject_Z (Z.of_nat (CW.num_classes a))) (np_sum (w0 :: ws0))).
  { unfold np_div, Qdiv. apply Qmult_lt_0_compat; [|now apply Qinv_lt_0_compat].
    change 0 with (inject_Z 0). rewrite <- Zlt_Qlt. lia. }
  apply Forall_forall. intros v Hin. apply in_map_iff in Hin.
  destruct Hin as (w & <- & Hin). rewrite Forall_forall in Hpos.
  apply Qmult_lt_0_compat; [now apply Hpos | exact Hk].
Qed.

(** One update keeps positive weights of the right length positive, and
    leaves them summing to [num_classes]. *)
Lemma cw_update_positive (a : CW.agent) (sh : S) (act : CW.action) :
  (forall x, 0 < float_pow 2 x) ->
  0 < CW.max_weight a ->
  (0 < CW.num_classes a)%nat ->
  length (CW.weights_array (CW.current_class_weights a)) = CW.num_classes a ->
  Forall (fun w => 0 < w) (CW.weights_array (CW.current_class_weights a)) ->
  not_a_list act ->
  exists new_weights info sh',
    CW.update_hyperparameter a sh act
    = Ok (info, CW.set_current_class_weights (WeightsArray new_weights) a, sh')
    /\ length new_weights = CW.num_classes a
    /\ Forall (fun w => 0 < w) new_weights
    /\ np_sum new_weights == inject_Z (Z.of_nat (CW.num_classes a)).
Proof.
  intros Hpow Hmax Hn Hlen Hpos Hact.
  destruct (@cw_update_returns _ _ _ a sh act Hlen Hact)
    as (new_weights & info & a1 & sh1 & Hnew & Hupd & Ha1 & Hnlen).
  exists new_weights, info, sh1. rewrite <- Ha1. split; [exact Hupd|].
  split; [exact Hnlen|].
  destruct (repaired_action_length a (not_a_list_spec Hact)) as (action' & Hrep & Hlen').
  unfold CW.action_to_hyperparameter, CW.clipped_weights in Hnew.
  rewrite Hrep in Hnew. cbn [bind] in Hnew.
  rewrite broadcast2_same_length in Hnew by (rewrite length_map; lia).
  cbn [bind] in Hnew. inversion Hnew as [Hdef]. clear Hnew.
  set (clipped := map (fun w => np_clip w (CW.min_weight a) (CW.max_weight a))
                      (map (fun p => fst p * snd p)
                           (combine (CW.weights_array (CW.current_class_weights a))
                                    (map (float_pow 2) action')))) in *.
  assert (Hcpos : Forall (fun w => 0 < w) clipped).
  { unfold clipped.
    assert (Hprod : Forall (fun w => 0 < w)
                      (map (fun p => fst p * snd p)
                           (combine (CW.weights_array (CW.current_class_weights a))
                                    (map (float_pow 2) action')))).
    { apply products_positive; [exact Hpos|].
      clear - Hpow. induction action'; simpl; constructor; auto. }
    clear - Hprod Hmax. induction Hprod; simpl; constructor; auto.
    now apply np_clip_positive. }
  assert (Hcne : clipped <> []).
  { intro E. apply (f_equal (@length Q)) in E. unfold clipped in E.
    rewrite !length_map, length_combine, length_map in E. simpl in E. lia. }
  split; [now apply renormalize_positive|].
  apply (renormalize_sum a (np_sum_positive_list Hcpos Hcne) Hcne).
Qed.

End PositiveRuns.

(** X25.  With [2.0 ** x] positive, [0 < max_weight] and at least one
    class, class weights that are positive and of length [num_classes]
    stay so along every run of [update_hyperparameter] calls on scalar or
    array actions, and after a non-empty run they sum to
    [num_classes]. *)
Theorem class_weights_stay_positive
        {np : NumPy} {S : Type} {SSM : SharedStateManager S}
        (a : CW.agent) (sh : S) (actions : list CW.action) :
  (forall x, 0 < float_pow 2 x) ->
  0 < CW.max_weight a ->
  (0 < CW.num_classes a)%nat ->
  length (CW.weights_array (CW.current_class_weights a)) = CW.num_classes a ->
  Forall (fun w => 0 < w) (CW.weights_array (CW.current_class_weights a)) ->
  Forall not_a_list actions ->
  exists a' sh',
    cw_updates a sh actions = Ok (a', sh')
    /\ length (CW.weights_array (CW.current_class_weights a')) = CW.num_classes a
    /\ Forall (fun w => 0 < w) (CW.weights_array (CW.current_class_weights a'))
    /\ (actions <> [] ->
        np_sum (CW.weights_array (CW.current_class_weights a'))
        == inject_Z (Z.of_nat (CW.num_classes a))).
Proof.
  intros Hpow Hmax Hn Hlen Hpos Hacts. revert a sh Hmax Hn Hlen Hpos.
  induction Hacts as [|act rest Hact Hrest IH]; intros a sh Hmax Hn Hlen Hpos.
  - exists a, sh. repeat split; auto. congruence.
  - destruct (@cw_update_positive _ _ _ a sh act Hpow Hmax Hn Hlen Hpos Hact)
      as (new_weights & info & sh1 & Hupd & Hnlen & Hnpos & Hnsum).
    cbn [cw_updates]. rewrite Hupd. cbn [bind fst snd].
    destruct (IH (CW.set_current_class_weights (WeightsArray new_weights) a) sh1)
      as (a' & sh' & Hrun & Hlen' & Hpos' & Hsum'); auto.
    exists a', sh'. split; [exact Hrun|]. split; [exact Hlen'|]. split; [exact Hpos'|].
    intros _. destruct rest as [|act2 rest].
    + cbn in Hrun. inversion Hrun; subst. exact Hnsum.
    + apply Hsum'. discriminate.
Qed.

Lemma class_weights_stay_positive_witness :
  exists a' sh',
    cw_updates cw_agent store_epoch3 [CW.Array [1; -1]; CW.Scalar 0; CW.Array [3]]
    = Ok (a', sh')
    /\ np_sum (CW.weights_array (CW.current_class_weights a')) == 2.
Proof.
  destruct (@class_weights_stay_positive integer_numpy _ _ cw_agent store_epoch3
              [CW.Array [1; -1]; CW.Scalar 0; CW.Array [3]])
    as (a' & sh' & Hrun & _ & _ & Hsum).
  - exact integer_numpy_power_positive.
  - reflexivity.
  - simpl. lia.
  - reflexivity.
  - repeat constructor.
  - repeat constructor.
  - exists a', sh'. split; [exact Hrun|]. apply Hsum. discriminate.
Defined.

(* ================================================================== *)
(** * The coordinator driving one FGBalanceAgent                       *)
(* ================================================================== *)

Lemma rethreshold_mask_shifted (weight : Q) (t : tensor) :
  0 < weight -> binary_mask t ->
  gt_float (div_scalar (scale weight t) (0 + weight)) (1 # 2) = t.
Proof.
  intros Hw Ht. unfold gt_float, div_scalar, scale.
  induction Ht as [|x t Hx Ht IH]; [reflexivity|].
  cbn [map]. rewrite IH. f_equal.
  assert (E : np_div (weight * x) (0 + weight) == x) by (unfold np_div; field; lra).
  destruct Hx as [-> | ->].
  - assert (H : Qlt_bool (1 # 2) (np_div (weight * 0) (0 + weight)) = false)
      by (apply Qlt_bool_false_iff; rewrite E; discriminate).
    now rewrite H.
  - assert (H : Qlt_bool (1 # 2) (np_div (weight * 1) (0 + weight)) = true)
      by (apply Qlt_bool_iff; rewrite E; reflexivity).
    now rewrite H.
Qed.

(** X26.  A coordinator whose only agent is an [FGBalanceAgent] of
    positive weight returns from [refine_segmentation] the state
    manager's current prediction thresholded at the agent's adjusted
    threshold, the very mask [apply_action] produced: the values of
    [initial_preds] enter only through what [update_segmentation] makes
    the current prediction. *)
Theorem refine_with_one_fg_agent
        {NN : FG.Networks} {M : Type} {SM : StateManager M}
        (c : Coord.coordinator) (sac_policy : Coord.state_repr -> Q)
        (initial_preds prediction : tensor) (a : FG.agent) (m : M) :
  0 < dict_get_default (Coord.agent_weights c) "FGBalanceAgent" 1 ->
  get_current_prediction (update_segmentation initial_preds m) = Some prediction ->
  let applied :=
    FG.apply_action (sac_policy (Coord.Batch [repeat 0 (FG.state_dim a)])) a
                    (update_segmentation initial_preds m) in
  fst (fst applied)
  = Some (gt_float prediction (FG.segmentation_threshold (snd (fst applied))))
  /\ fst (Coord.refine_segmentation c [fg_agent sac_policy] initial_preds (a, m))
     = Ok (gt_float prediction (FG.segmentation_threshold (snd (fst applied)))).
Proof.
  intros Hw Hpred applied.
  assert (Happ : fst (fst applied)
                 = Some (gt_float prediction
                                  (FG.segmentation_threshold (snd (fst applied))))).
  { unfold applied, FG.apply_action. rewrite Hpred. reflexivity. }
  split; [exact Happ|].
  unfold Coord.refine_segmentation.
  cbn [Coord.collect_refinements].
  change (@update_segmentation (FG.agent * M) fg_world initial_preds (a, m))
    with (a, update_segmentation initial_preds m).
  change (@get_current_ground_truth (FG.agent * M) fg_world (a, update_segmentation initial_preds m))
    with (get_current_ground_truth (update_segmentation initial_preds m)).
  destruct (@fg_agent_state_zero_refinement NN M SM sac_policy
              {| Coord.current_segmentation := initial_preds;
                 Coord.ground_truth :=
                   get_current_ground_truth (update_segmentation initial_preds m) |}
              (a, update_segmentation initial_preds m)) as [_ Href].
  rewrite Href. cbn [fst snd]. fold applied.
  destruct applied as [[refined a'] m'] eqn:E. cbn [fst snd] in Happ |- *.
  subst refined.
  cbn [dict_set Coord.name fg_agent Coord.combine_refinements].
  set (weight := dict_get_default (Coord.agent_weights c) "FGBalanceAgent" 1) in *.
  assert (Hnz : Qeq_bool (0 + weight) 0 = false).
  { destruct (Qeq_bool (0 + weight) 0) eqn:Eq; [|reflexivity].
    apply Qeq_bool_iff in Eq. lra. }
  assert (Hlt : Qlt_bool 0 (0 + weight) = true) by (apply Qlt_bool_iff; lra).
  rewrite Hnz, Hlt. cbn [fst]. f_equal.
  apply rethreshold_mask_shifted; [exact Hw | apply gt_float_binary].
Qed.

Lemma refine_with_one_fg_agent_witness :
  fst (Coord.refine_segmentation (coordinator_AB "weighted_average")
                                 [fg_agent (fun _ => 0)] [0; 0]
                                 (fresh_fg_agent, manager_with_prediction))
  = Ok [1; 0].
Proof.
  refine (proj2 (@refine_with_one_fg_agent constant_networks _ simple_state_manager
                   (coordinator_AB "weighted_average") (fun _ => 0) [0; 0]
                   [3 # 4; 1 # 4] fresh_fg_agent manager_with_prediction _ _)).
  - reflexivity.
  - reflexivity.
Defined.

(* ================================================================== *)
(** * Features on their way from observe to decide                     *)
(* ================================================================== *)

Lemma prefix_app (p s : string) : String.prefix p (p ++ s) = true.
Proof.
  induction p as [|c p IH]; cbn; [now destruct s|].
  destruct (ascii_dec c c); [exact IH | congruence].
Qed.

Lemma replace_from_skip (old new q s : string) :
  replace_from old new (String.length q) (q ++ s) = replace_from old new 0 s.
Proof.
  induction q as [|c q IH]; cbn; [reflexivity | exact IH].
Qed.

Lemma replace_from_absent (old new s : string) :
  str_contains old s = false -> replace_from old new 0 s = s.
Proof.
  induction s as [|c s IH]; intros H; [reflexivity|].
  cbn [str_contains] in H. apply orb_false_iff in H. destruct H as [Hp Hs].
  cbn [replace_from]. rewrite Hp. now rewrite (IH Hs).
Qed.

Lemma feature_key_prefix (n k : string) :
  Coord.feature_key n k = (Coord.name_prefix n ++ k)%string.
Proof.
  unfold Coord.feature_key, Coord.name_prefix.
  induction n as [|c n IH]; [reflexivity|].
  cbn [String.append]. f_equal. exact IH.
Qed.

(** Stripping the prefix from a namespaced key gives the key back when
    the prefix does not occur in the key. *)
Lemma strip_feature_key (n k : string) :
  str_contains (Coord.name_prefix n) k = false ->
  str_replace (Coord.feature_key n k) (Coord.name_prefix n) "" = k.
Proof.
  intros H. unfold str_replace.
  rewrite feature_key_prefix.
  destruct (Coord.name_prefix n) as [|c p] eqn:Ep.
  - unfold Coord.name_prefix in Ep. destruct n; discriminate.
  - change ((String c p ++ k)%string) with (String c (p ++ k)%string).
    cbn [replace_from].
    assert (Hp : String.prefix (String c p) (String c (p ++ k)) = true)
      by apply (prefix_app (String c p) k).
    rewrite Hp.
    replace (String.length (String c p) - 1)%nat with (String.length p)
      by (cbn [String.length]; lia).
    rewrite replace_from_skip. cbn [String.append]. now apply replace_from_absent.
Qed.

Lemma store_features_world {W V : Type} (set_feature : string -> V -> W -> W)
      (n : string) (fs d d' : dict V) (w : W) :
  snd (Coord.store_features set_feature n fs d w)
  = snd (Coord.store_features set_feature n fs d' w).
Proof.
  revert d d' w. induction fs as [|[k v] fs IH]; intros d d' w; [reflexivity|].
  cbn [Coord.store_features]. apply IH.
Qed.

Lemma store_features_items {W V : Type} (set_feature : string -> V -> W -> W)
      (n : string) (fs d : dict V) (w : W) :
  fst (Coord.store_features set_feature n fs d w)
  = fold_left set_item (namespaced n fs) d.
Proof.
  revert d w. induction fs as [|[k v] fs IH]; intros d w; [reflexivity|].
  cbn [Coord.store_features namespaced map fold_left]. rewrite IH. reflexivity.
Qed.

(** [process_observation] returns the observed features, set one after
    the other under their namespaced keys. *)
Lemma observe_all_items {W V : Type} (set_feature : string -> V -> W -> W)
      (agents : list (Coord.actor W V)) (observation : tensor)
      (d : dict V) (w : W) (log : list (string * dict V)) :
  observed set_feature agents observation w = Some log ->
  fst (Coord.observe_all set_feature agents observation d w)
  = Ok (fold_left set_item (namespaced_items log) d).
Proof.
  revert d w log. induction agents as [|a agents IH]; intros d w log Hlog.
  - cbn in Hlog. inversion Hlog. reflexivity.
  - cbn [observed] in Hlog. cbn [Coord.observe_all].
    destruct (Coord.observe a observation w) as [[fs|e] w1]; [|discriminate].
    destruct (observed set_feature agents observation
                (snd (Coord.store_features set_feature (Coord.actor_name a) fs [] w1)))
      as [log'|] eqn:Hrest; [|discriminate].
    inversion Hlog; subst log.
    destruct (Coord.store_features set_feature (Coord.actor_name a) fs d w1)
      as [features w2] eqn:Hstore.
    assert (Hw : w2 = snd (Coord.store_features set_feature (Coord.actor_name a) fs [] w1)).
    { rewrite (store_features_world set_feature (Coord.actor_name a) fs [] d w1).
      now rewrite Hstore. }
    assert (Hf : features = fold_left set_item (namespaced (Coord.actor_name a) fs) d).
    { rewrite <- (store_features_items set_feature (Coord.actor_name a) fs d w1).
      now rewrite Hstore. }
    rewrite Hw, (IH features _ log' Hrest), Hf.
    unfold namespaced_items. cbn [flat_map fst snd]. now rewrite fold_left_app.
Qed.

Lemma filter_dict_set {V} (P : string -> bool) (d : dict V) k v :
  filter (fun kv => P (fst kv)) (dict_set d k v)
  = if P k then dict_set (filter (fun kv => P (fst kv)) d) k v
    else filter (fun kv => P (fst kv)) d.
Proof.
  induction d as [|[k' v'] d IH]; cbn [dict_set filter fst].
  - now destruct (P k).
  - destruct (String.eqb k k') eqn:E.
    + apply String.eqb_eq in E. subst k'. cbn [filter fst].
      destruct (P k); [|reflexivity].
      cbn [dict_set]. now rewrite String.eqb_refl.
    + cbn [filter fst]. rewrite IH.
      destruct (P k'), (P k); cbn [dict_set]; rewrite ?E; reflexivity.
Qed.

Lemma filter_fold_set {V} (P : string -> bool) (items d : dict V) :
  filter (fun kv => P (fst kv)) (fold_left set_item items d)
  = fold_left set_item (filter (fun kv => P (fst kv)) items)
              (filter (fun kv => P (fst kv)) d).
Proof.
  revert d. induction items as [|[k v] items IH]; intros d; [reflexivity|].
  cbn [fold_left filter fst]. rewrite IH. unfold set_item at 2. cbn [fst snd].
  rewrite filter_dict_set. destruct (P k); reflexivity.
Qed.

Lemma dict_set_fresh {V} (d : dict V) k v :
  ~ In k (dict_keys d) -> dict_set d k v = d ++ [(k, v)].
Proof.
  induction d as [|[k' v'] d IH]; intros H; [reflexivity|].
  cbn [dict_set]. destruct (String.eqb k k') eqn:E.
  - apply String.eqb_eq in E. subst. exfalso. apply H. now left.
  - cbn [app]. f_equal. apply IH. intros Hin. apply H. now right.
Qed.

Lemma fold_set_fresh {V} (items d : dict V) :
  NoDup (dict_keys (d ++ items)) -> fold_left set_item items d = d ++ items.
Proof.
  revert d. induction items as [|[k v] items IH]; intros d H.
  - now rewrite app_nil_r.
  - cbn [fold_left]. unfold set_item at 2. cbn [fst snd].
    unfold dict_keys in H. rewrite map_app in H. cbn [map fst] in H.
    assert (Hk : ~ In k (dict_keys d)).
    { apply NoDup_remove_2 in H. intros Hin. apply H. apply in_or_app. now left. }
    rewrite (@dict_set_fresh _ d k v Hk). rewrite IH.
    + now rewrite <- app_assoc.
    + unfold dict_keys. rewrite <- app_assoc, map_app. exact H.
Qed.

Lemma fold_left_filter {A B} (P : B -> bool) (g : A -> B -> A) (l : list B) (a : A) :
  fold_left (fun acc x => if P x then g acc x else acc) l a
  = fold_left g (filter P l) a.
Proof.
  revert a. induction l as [|x l IH]; intros a; [reflexivity|].
  cbn [fold_left filter]. destruct (P x); cbn [fold_left]; apply IH.
Qed.

Lemma fold_left_set_map {V} (f : string -> string) (l d : dict V) :
  fold_left (fun acc kv => dict_set acc (f (fst kv)) (snd kv)) l d
  = fold_left set_item (map (fun kv => (f (fst kv), snd kv)) l) d.
Proof.
  revert d. induction l as [|x l IH]; intros d; [reflexivity|].
  cbn [fold_left map]. apply IH.
Qed.

Lemma append_injective (p k k' : string) :
  (p ++ k)%string = (p ++ k')%string -> k = k'.
Proof.
  induction p as [|c p IH]; cbn [String.append]; intros H; [exact H|].
  inversion H. now apply IH.
Qed.

Lemma NoDup_map_injective {A B} (f : A -> B) (l : list A) :
  (forall x y, f x = f y -> x = y) -> NoDup l -> NoDup (map f l).
Proof.
  intros Hf H. induction H as [|x l Hx H IH]; cbn [map]; constructor; [|exact IH].
  intros Hin. apply in_map_iff in Hin. destruct Hin as [y [E Hy]].
  apply Hf in E. now subst y.
Qed.

Lemma namespaced_keys_distinct {V} (n : string) (fs : dict V) :
  NoDup (dict_keys fs) -> NoDup (dict_keys (namespaced n fs)).
Proof.
  unfold dict_keys, namespaced. rewrite map_map. cbn [fst].
  intros H. rewrite <- (map_map fst (Coord.feature_key n)).
  apply NoDup_map_injective; [|exact H].
  intros k k' E. rewrite !feature_key_prefix in E. now apply append_injective in E.
Qed.

Lemma filter_all {A} (P : A -> bool) (l : list A) :
  (forall x, In x l -> P x = true) -> filter P l = l.
Proof.
  induction l as [|x l IH]; intros H; [reflexivity|].
  cbn [filter]. rewrite (H x (or_introl eq_refl)). f_equal.
  apply IH. intros y Hy. apply H. now right.
Qed.

Lemma filter_none {A} (P : A -> bool) (l : list A) :
  (forall x, In x l -> P x = false) -> filter P l = [].
Proof.
  induction l as [|x l IH]; intros H; [reflexivity|].
  cbn [filter]. rewrite (H x (or_introl eq_refl)).
  apply IH. intros y Hy. apply H. now right.
Qed.

Lemma in_namespaced_items {V} (log : list (string * dict V)) (kv : string * V) :
  In kv (namespaced_items log) ->
  exists n fs k, In (n, fs) log /\ In k (dict_keys fs)
                 /\ fst kv = Coord.feature_key n k.
Proof.
  unfold namespaced_items. intros H. apply in_flat_map in H.
  destruct H as [[n fs] [Hin Hkv]]. cbn [fst snd] in Hkv.
  unfold namespaced in Hkv. apply in_map_iff in Hkv.
  destruct Hkv as [[k v] [E Hk]]. subst kv. cbn [fst snd].
  exists n, fs, k. repeat split; [exact Hin|].
  unfold dict_keys. apply in_map_iff. now exists (k, v).
Qed.

(** The dictionary comprehension of [make_decision] undoes the
    namespacing of [process_observation] for an agent whose prefix is
    in none of its own keys and starts no other agent's namespaced
    key. *)
Lemma own_features_of_items {V} (before after : list (string * dict V))
      (n : string) (fs : dict V) :
  NoDup (dict_keys fs) ->
  (forall k, In k (dict_keys fs) -> str_contains (Coord.name_prefix n) k = false) ->
  (forall n' fs' k', In (n', fs') (before ++ after) -> In k' (dict_keys fs') ->
     startswith (Coord.feature_key n' k') (Coord.name_prefix n) = false) ->
  Coord.own_features n
    (fold_left set_item (namespaced_items (before ++ (n, fs) :: after)) [])
  = fs.
Proof.
  intros Hdistinct Hown Hothers.
  set (P := fun k : string => startswith k (Coord.name_prefix n)).
  unfold Coord.own_features.
  rewrite (fold_left_filter (fun kv : string * V => P (fst kv))
             (fun d kv => dict_set d (str_replace (fst kv) (Coord.name_prefix n) "")
                                   (snd kv))).
  rewrite filter_fold_set. cbn [filter].
  assert (Hitems : filter (fun kv : string * V => P (fst kv))
                          (namespaced_items (before ++ (n, fs) :: after))
                   = namespaced n fs).
  { unfold namespaced_items. rewrite flat_map_app. cbn [flat_map fst snd].
    rewrite !filter_app.
    assert (Hout : forall log, (forall e, In e log -> In e (before ++ after)) ->
                   filter (fun kv : string * V => P (fst kv))
                          (flat_map (fun entry => namespaced (fst entry) (snd entry)) log)
                   = []).
    { intros log Hlog. apply filter_none. intros kv Hkv.
      apply (@in_namespaced_items V log kv) in Hkv.
      destruct Hkv as (n' & fs' & k' & Hin & Hk & E).
      rewrite E. exact (Hothers n' fs' k' (Hlog _ Hin) Hk). }
    rewrite (Hout before), (Hout after).
    - rewrite app_nil_r. cbn [app]. apply filter_all.
      intros kv Hkv. unfold namespaced in Hkv. apply in_map_iff in Hkv.
      destruct Hkv as [[k v] [E _]]. subst kv. cbn [fst].
      unfold P, startswith. rewrite feature_key_prefix. apply prefix_app.
    - intros e He. apply in_or_app. now right.
    - intros e He. apply in_or_app. now left. }
  rewrite Hitems.
  rewrite (fold_set_fresh (namespaced n fs) []);
    [|cbn [app]; now apply namespaced_keys_distinct].
  cbn [app].
  rewrite (fold_left_set_map (fun k => str_replace k (Coord.name_prefix n) "")).
  assert (Hstrip : map (fun kv : string * V =>
                          (str_replace (fst kv) (Coord.name_prefix n) "", snd kv))
                       (namespaced n fs) = fs).
  { unfold namespaced. rewrite map_map. cbn [fst snd].
    rewrite <- (map_id fs) at 2. apply map_ext_in. intros [k v] Hin. cbn [fst snd].
    rewrite strip_feature_key; [reflexivity|].
    apply Hown. unfold dict_keys. apply in_map_iff. now exists (k, v). }
  rewrite Hstrip. now apply (fold_set_fresh fs []).
Qed.

(** X27.  Along [act], the dictionary [make_decision] extracts for an
    agent from what [process_observation] returned is exactly the
    dictionary the agent's [observe] returned, provided the prefix
    [name_] occurs in none of the agent's own keys and starts no
    namespaced key of another agent. *)
Theorem features_return_to_their_agent {W V : Type}
        (set_current_image : tensor -> W -> W)
        (set_feature : string -> V -> W -> W)
        (agents : list (Coord.actor W V)) (observation : tensor) (w : W)
        (before after : list (string * dict V)) (n : string) (fs : dict V) :
  observed set_feature agents observation (set_current_image observation w)
  = Some (before ++ (n, fs) :: after) ->
  NoDup (dict_keys fs) ->
  (forall k, In k (dict_keys fs) -> str_contains (Coord.name_prefix n) k = false) ->
  (forall n' fs' k', In (n', fs') (before ++ after) -> In k' (dict_keys fs') ->
     startswith (Coord.feature_key n' k') (Coord.name_prefix n) = false) ->
  exists features,
    fst (Coord.process_observation set_current_image set_feature agents observation w)
    = Ok features
    /\ Coord.own_features n features = fs.
Proof.
  intros Hlog Hdistinct Hown Hothers.
  exists (fold_left set_item (namespaced_items (before ++ (n, fs) :: after)) []).
  split.
  - unfold Coord.process_observation. now apply observe_all_items.
  - now apply own_features_of_items.
Qed.

Lemma features_return_to_their_agent_witness :
  exists features,
    fst (Coord.process_observation (fun _ w => w) (fun _ _ w => w)
                                   [actor_A; actor_B] [1] tt)
    = Ok features
    /\ Coord.own_features "A" features = [("x"%string, 1); ("y"%string, 2)].
Proof.
  apply (@features_return_to_their_agent unit Q (fun _ w => w) (fun _ _ w => w)
           [actor_A; actor_B] [1] tt [] [("B"%string, [("x"%string, 3)])]
           "A" [("x"%string, 1); ("y"%string, 2)]).
  - reflexivity.
  - repeat constructor; cbn; intuition discriminate.
  - intros k [<-|[<-|[]]]; reflexivity.
  - intros n' fs' k' [E|[]] Hk. inversion E; subst.
    destruct Hk as [<-|[]]. reflexivity.
Defined.

Lemma prefix_of_app (p s x : string) :
  String.prefix p s = true -> String.prefix p (s ++ x) = true.
Proof.
  revert s. induction p as [|c p IH]; intros s H; [now destruct s, x|].
  destruct s as [|c' s]; [discriminate|].
  cbn [String.prefix String.append] in *.
  destruct (ascii_dec c c'); [now apply IH | discriminate].
Qed.

Lemma own_features_keeps {V} (n : string) (features d : dict V) k :
  dict_mem d k = true ->
  dict_mem (fold_left
              (fun d kv =>
                 if startswith (fst kv) (Coord.name_prefix n)
                 then dict_set d (str_replace (fst kv) (Coord.name_prefix n) "") (snd kv)
                 else d)
              features d) k = true.
Proof.
  revert d. induction features as [|kv features IH]; intros d H; [exact H|].
  cbn [fold_left]. apply IH.
  destruct (startswith (fst kv) (Coord.name_prefix n)); [now apply dict_mem_set | exact H].
Qed.

(** X28.  An agent whose name starts with [name_] of another agent
    shares its features with it: each of its namespaced keys passes the
    other agent's filter in [make_decision], and the other agent is
    handed an entry for it, under the key with every occurrence of the
    prefix removed. *)
Theorem nested_name_leaks_features {V : Type} (n n' k : string) (v : V)
        (features : dict V) :
  startswith n' (Coord.name_prefix n) = true ->
  In (Coord.feature_key n' k, v) features ->
  startswith (Coord.feature_key n' k) (Coord.name_prefix n) = true
  /\ dict_mem (Coord.own_features n features)
              (str_replace (Coord.feature_key n' k) (Coord.name_prefix n) "") = true.
Proof.
  intros Hn Hin.
  assert (Hp : startswith (Coord.feature_key n' k) (Coord.name_prefix n) = true).
  { unfold startswith in *. unfold Coord.feature_key. now apply prefix_of_app. }
  split; [exact Hp|].
  unfold Coord.own_features. generalize (@nil (string * V)) as d.
  induction features as [|kv features IH]; intros d; [destruct Hin|].
  cbn [fold_left]. destruct Hin as [->|Hin]; [|now apply IH].
  cbn [fst snd]. rewrite Hp. apply own_features_keeps. apply dict_mem_set_same.
Qed.

Lemma nested_name_leaks_features_witness :
  startswith "A_B_x" "A_" = true
  /\ dict_mem (Coord.own_features "A" [("A_B_x"%string, 1)]) "B_x" = true.
Proof.
  apply (@nested_name_leaks_features Q "A" "A_B" "x" 1 [("A_B_x"%string, 1)]).
  - reflexivity.
  - left. reflexivity.
Defined.
